(** * ulint: a shallow embedding of the Umbrel linter's validation engine

    The development follows the Python sources of [umbrel_linter]:

    - [core/models.py]                         (module [Models])
    - [validators/variable_mocker.py]          (module [VariableMocker])
    - [validators/docker_image_validator.py]   (module [DockerImageValidator])
    - [schemas/umbrel_app.py]                  (module [Schemas])
    - [validators/github_validator.py]         (module [GitHubValidator])
    - [core/linter.py]                         (module [Linter])

    Python text is modelled as [string]: a sequence of characters, each
    with a code point below 256 (the ASCII and Latin-1 blocks of Unicode);
    the character functions below are Python's on these code points.
    Python [int] is [Z].
    Dictionaries are [gmap]s, or association lists where the iteration
    order matters.  Network answers, the YAML parser, [urlparse], the
    schema library and the pseudo-random generator are not code of the
    linter: they enter as explicit arguments (oracles), so every
    function below is total and executable. *)

From Stdlib Require Import ZArith Ascii String List Bool Lia.
From stdpp Require Import base option list strings gmap pretty.

Local Open Scope Z_scope.

(* ===================================================================== *)
(** * Python primitives used by the sources *)
(* ===================================================================== *)

Module Py.

(** Outcome of a call that may raise. *)
Inductive exn : Type :=
| AttributeError (msg : string)
| ValueError (msg : string).

Inductive result (A : Type) : Type :=
| Returned (a : A)
| Raised (e : exn).
Arguments Returned {A} a.
Arguments Raised {A} e.

Definition bind {A B} (m : result A) (k : A -> result B) : result B :=
  match m with
  | Returned a => k a
  | Raised e => Raised e
  end.

Definition returns {A} (m : result A) : bool :=
  match m with Returned _ => true | Raised _ => false end.

(** The line feed and the double quote, which string literals cannot hold. *)
Definition LF : ascii := "010"%char.
Definition dquote : string := String "034"%char "".

(** [len s] is Python's [len(s)]. *)
Definition len (s : string) : Z := Z.of_nat (String.length s).

(** [s.startswith(p)] *)
Fixpoint startswith (s p : string) : bool :=
  match p, s with
  | "", _ => true
  | String a p', String b s' => if Ascii.eqb a b then startswith s' p' else false
  | String _ _, "" => false
  end.

(** [sub in s] *)
Fixpoint contains (sub s : string) : bool :=
  startswith s sub ||
  match s with
  | "" => false
  | String _ s' => contains sub s'
  end.

(** [c in s] for a one-character [c]. *)
Fixpoint has_char (c : ascii) (s : string) : bool :=
  match s with
  | "" => false
  | String a s' => Ascii.eqb a c || has_char c s'
  end.

(** [s.find(sub)]: the lowest index of an occurrence, or [-1]. *)
Fixpoint find (s sub : string) : Z :=
  if startswith s sub then 0
  else match s with
       | "" => -1
       | String _ s' => let i := find s' sub in if i <? 0 then -1 else i + 1
       end.

(** [s[a:b]] with Python's treatment of negative and out-of-range bounds. *)
Definition clamp_index (n i : Z) : Z :=
  if i <? 0 then Z.max 0 (i + n) else Z.min i n.

Definition slice (s : string) (a b : Z) : string :=
  let n := len s in
  let a' := clamp_index n a in
  let b' := clamp_index n b in
  String.substring (Z.to_nat a') (Z.to_nat (b' - a')) s.

(** [s.replace(old, new)]: every non-overlapping occurrence, leftmost
    first.  [skip] counts the characters of the occurrence just replaced
    that are still to be dropped. *)
Fixpoint replace_from (old new : string) (skip : nat) (s : string) : string :=
  match s with
  | "" => ""
  | String c s' =>
      match skip with
      | S k => replace_from old new k s'
      | O =>
          if startswith s old
          then new +:+ replace_from old new (String.length old - 1) s'
          else String c (replace_from old new O s')
      end
  end.

(** With an empty [old] Python inserts [new] around every character. *)
Fixpoint intersperse (new s : string) : string :=
  match s with
  | "" => new
  | String c s' => new +:+ String c (intersperse new s')
  end.

Definition replace (s old new : string) : string :=
  match old with
  | "" => intersperse new s
  | _ => replace_from old new O s
  end.

(** [s.split(c)] for a one-character separator: never the empty list. *)
Fixpoint split (c : ascii) (s : string) : list string :=
  match s with
  | "" => [""]
  | String a s' =>
      if Ascii.eqb a c then "" :: split c s'
      else match split c s' with
           | w :: ws => String a w :: ws
           | [] => [String a ""]
           end
  end.

(** [sep.join(l)] *)
Fixpoint join (sep : string) (l : list string) : string :=
  match l with
  | [] => ""
  | [w] => w
  | w :: ws => w +:+ sep +:+ join sep ws
  end.

(** [s.rsplit(c, 1)] when [c] occurs in [s] ([Some (left, right)], split
    at the last occurrence), [None] when it does not. *)
Fixpoint rsplit1 (c : ascii) (s : string) : option (string * string) :=
  match s with
  | "" => None
  | String a s' =>
      match rsplit1 c s' with
      | Some (l, r) => Some (String a l, r)
      | None => if Ascii.eqb a c then Some ("", s') else None
      end
  end.

(** Character classes. *)
Definition in_range (lo hi c : ascii) : bool :=
  (nat_of_ascii lo <=? nat_of_ascii c)%nat && (nat_of_ascii c <=? nat_of_ascii hi)%nat.
Definition is_lower (c : ascii) : bool := in_range "a" "z" c.
Definition is_upper (c : ascii) : bool := in_range "A" "Z" c.
Definition is_digit (c : ascii) : bool := in_range "0" "9" c.

(** [str.lower()]: the capital letters are [A] to [Z] and, in the Latin-1
    block, the code points 192 to 222 without the multiplication sign
    (215); the small letter is 32 code points further. *)
Definition is_capital (c : ascii) : bool :=
  is_upper c || in_range "192" "214" c || in_range "216" "222" c.

Definition lower_char (c : ascii) : ascii :=
  if is_capital c then ascii_of_nat (nat_of_ascii c + 32) else c.

Fixpoint lower (s : string) : string :=
  match s with
  | "" => ""
  | String c s' => String (lower_char c) (lower s')
  end.

(** [str.strip()]: white space is TAB, LF, VT, FF, CR, FS, GS, RS, US, the
    space and, in the Latin-1 block, NEL (133) and the no-break space
    (160). *)
Definition is_space (c : ascii) : bool :=
  in_range "009" "013" c || in_range "028" "031" c || Ascii.eqb c " "
  || Ascii.eqb c "133" || Ascii.eqb c "160".

Fixpoint lstrip (s : string) : string :=
  match s with
  | "" => ""
  | String c s' => if is_space c then lstrip s' else s
  end.

Fixpoint rstrip (s : string) : string :=
  match s with
  | "" => ""
  | String c s' =>
      match rstrip s' with
      | "" => if is_space c then "" else String c ""
      | r => String c r
      end
  end.

Definition strip (s : string) : string := rstrip (lstrip s).

(** Truthiness of a text value, and of an optional one ([None] is false). *)
Definition nonempty (s : string) : bool :=
  match s with "" => false | _ => true end.

Definition truthy (o : option string) : bool :=
  match o with
  | Some s => nonempty s
  | None => false
  end.

(** [str(n)] for an integer. *)
Definition str_of_int (n : Z) : string := pretty n.

Set Warnings "-register-all".

(** Values a YAML document loads to.  Mapping keys are texts; floating
    point scalars are left out of the model. *)
Inductive value : Type :=
| VNone
| VBool (b : bool)
| VInt (n : Z)
| VStr (s : string)
| VList (l : list value)
| VDict (d : list (string * value)).

(** [bool(v)] *)
Definition truth (v : value) : bool :=
  match v with
  | VNone => false
  | VBool b => b
  | VInt n => negb (Z.eqb n 0)
  | VStr s => nonempty s
  | VList l => match l with [] => false | _ => true end
  | VDict d => match d with [] => false | _ => true end
  end.

(** [d.get(key)] on the items of a mapping ([None] for a missing key). *)
Fixpoint dict_get (d : list (string * value)) (key : string) : option value :=
  match d with
  | [] => None
  | (k, v) :: rest => if String.eqb k key then Some v else dict_get rest key
  end.

(** The name Python gives the type of a value in its messages. *)
Definition type_name (v : value) : string :=
  match v with
  | VNone => "NoneType"
  | VBool _ => "bool"
  | VInt _ => "int"
  | VStr _ => "str"
  | VList _ => "list"
  | VDict _ => "dict"
  end.

(** [v.get(key)]: only a mapping has the attribute. *)
Definition get (v : value) (key : string) : result (option value) :=
  match v with
  | VDict d => Returned (dict_get d key)
  | _ => Raised (AttributeError
                   ("'" +:+ type_name v +:+ "' object has no attribute 'get'"))
  end.

(** [str(v)]: exact on scalars; [repr_container] stands for the text
    Python prints for a list or a mapping. *)
Definition str (repr_container : value -> string) (v : value) : string :=
  match v with
  | VNone => "None"
  | VBool true => "True"
  | VBool false => "False"
  | VInt n => str_of_int n
  | VStr s => s
  | _ => repr_container v
  end.

End Py.

(* ===================================================================== *)
(** * Regular expressions (the fragment the sources use) *)
(* ===================================================================== *)

Module Regex.

(** Patterns are matched with Brzozowski derivatives.  For the anchored,
    group-free patterns below, [re.match(r"^R$", s)] succeeds exactly
    when [s] belongs to the language of [R] followed by [eol], Python's
    [$] accepting one final line feed. *)
Inductive regex : Type :=
| Void
| Eps
| Class (p : ascii -> bool)
| Cat (r1 r2 : regex)
| Alt (r1 r2 : regex)
| Star (r : regex).

Fixpoint nullable (r : regex) : bool :=
  match r with
  | Void => false
  | Eps => true
  | Class _ => false
  | Cat r1 r2 => nullable r1 && nullable r2
  | Alt r1 r2 => nullable r1 || nullable r2
  | Star _ => true
  end.

Fixpoint deriv (c : ascii) (r : regex) : regex :=
  match r with
  | Void => Void
  | Eps => Void
  | Class p => if p c then Eps else Void
  | Cat r1 r2 =>
      Alt (Cat (deriv c r1) r2) (if nullable r1 then deriv c r2 else Void)
  | Alt r1 r2 => Alt (deriv c r1) (deriv c r2)
  | Star r1 => Cat (deriv c r1) (Star r1)
  end.

Fixpoint matches (r : regex) (s : string) : bool :=
  match s with
  | "" => nullable r
  | String c s' => matches (deriv c r) s'
  end.

Definition Chr (c : ascii) : regex := Class (Ascii.eqb c).
Definition NotChr (c : ascii) : regex := Class (fun x => negb (Ascii.eqb c x)).
Definition Plus (r : regex) : regex := Cat r (Star r).
Definition Opt (r : regex) : regex := Alt r Eps.

Fixpoint Lit (s : string) : regex :=
  match s with
  | "" => Eps
  | String c s' => Cat (Chr c) (Lit s')
  end.

Fixpoint Rep (n : nat) (r : regex) : regex :=
  match n with
  | O => Eps
  | S k => Cat r (Rep k r)
  end.

(** Python's [$] (no MULTILINE flag): the end, or a line feed that ends
    the text. *)
Definition eol : regex := Opt (Chr Py.LF).

(** [bool(re.match("^" R "$", s))] *)
Definition re_match (r : regex) (s : string) : bool := matches (Cat r eol) s.

(** A pattern whose language is visibly empty. *)
Fixpoint dead (r : regex) : bool :=
  match r with
  | Void => true
  | Eps | Class _ | Star _ => false
  | Cat r1 r2 => dead r1 || dead r2
  | Alt r1 r2 => dead r1 && dead r2
  end.

(** Every character class of the pattern lies within [P]. *)
Fixpoint classes_within (P : ascii -> bool) (r : regex) : Prop :=
  match r with
  | Void | Eps => True
  | Class p => forall c, p c = true -> P c = true
  | Cat r1 r2 | Alt r1 r2 => classes_within P r1 /\ classes_within P r2
  | Star r1 => classes_within P r1
  end.

End Regex.

(* ===================================================================== *)
(** * core/models.py *)
(* ===================================================================== *)

Module Models.

Inductive Severity : Type := ERROR | WARNING | INFO.

Definition Severity_eqb (a b : Severity) : bool :=
  match a, b with
  | ERROR, ERROR | WARNING, WARNING | INFO, INFO => true
  | _, _ => false
  end.

Record LineRange : Type := { line_start : Z; line_end : Z }.
Record ColumnRange : Type := { column_start : Z; column_end : Z }.

Record LintingError : Type := mkError {
  id : string;
  severity : Severity;
  title : string;
  message : string;
  file : string;
  properties_path : option string;
  line : option LineRange;
  column : option ColumnRange
}.

(** [LintingError(id=..., severity=..., title=..., message=..., file=...)] *)
Definition finding (i : string) (sev : Severity) (t m f : string)
    (pp : option string) : LintingError :=
  mkError i sev t m f pp None None.

Record LintingResult : Type := mkResult {
  errors : list LintingError;
  success : bool;
  total_errors : Z;
  total_warnings : Z;
  total_info : Z
}.

(** [LintingResult()] *)
Definition empty_result : LintingResult := mkResult [] true 0 0 0.

(** [LintingResult.add_error] *)
Definition add_error (self : LintingResult) (error : LintingError) : LintingResult :=
  let errors' := errors self ++ [error] in
  let success' :=
    if Severity_eqb (severity error) ERROR then false else success self in
  match severity error with
  | ERROR =>
      mkResult errors' success' (total_errors self + 1) (total_warnings self) (total_info self)
  | WARNING =>
      mkResult errors' success' (total_errors self) (total_warnings self + 1) (total_info self)
  | INFO =>
      mkResult errors' success' (total_errors self) (total_warnings self) (total_info self + 1)
  end.

(** [for error in errs: result.add_error(error)] *)
Definition add_errors (self : LintingResult) (errs : list LintingError) : LintingResult :=
  fold_left add_error errs self.

(** [any(error.severity == sev for error in self.errors)] *)
Definition has_severity (sev : Severity) (errs : list LintingError) : bool :=
  existsb (fun e => Severity_eqb (severity e) sev) errs.

Definition has_errors (self : LintingResult) : bool := has_severity ERROR (errors self).
Definition has_warnings (self : LintingResult) : bool := has_severity WARNING (errors self).
Definition has_info (self : LintingResult) : bool := has_severity INFO (errors self).

(** The number of findings of one severity in a list. *)
Definition count_severity (sev : Severity) (errs : list LintingError) : Z :=
  Z.of_nat (length (filter (fun e => Severity_eqb (severity e) sev = true) errs)).

(** The invariant of a report: the counters count the findings of each
    severity, and the flag tells whether there is no [ERROR] finding. *)
Definition flag_consistent (r : LintingResult) : Prop :=
  success r = negb (has_severity ERROR (errors r)).

Definition counters_consistent (r : LintingResult) : Prop :=
  total_errors r = count_severity ERROR (errors r)
  /\ total_warnings r = count_severity WARNING (errors r)
  /\ total_info r = count_severity INFO (errors r).

End Models.

(* ===================================================================== *)
(** * validators/variable_mocker.py *)
(* ===================================================================== *)

Module VariableMocker.

(** The class [[a-zA-Z0-9_\-:]] of the placeholder pattern. *)
Definition name_char (c : ascii) : bool :=
  Py.is_lower c || Py.is_upper c || Py.is_digit c
  || Ascii.eqb c "_" || Ascii.eqb c "-" || Ascii.eqb c ":".

(** The greedy run [[a-zA-Z0-9_\-:]*] at the head of a text, and the rest. *)
Fixpoint take_name (s : string) : string * string :=
  match s with
  | "" => ("", "")
  | String c s' =>
      if name_char c
      then let (v, r) := take_name s' in (String c v, r)
      else ("", s)
  end.

(** One attempt of
    [\$(?:([a-zA-Z0-9_\-:]+)|\{([a-zA-Z0-9_\-:]+)\})]
    at the head of [s]: the two groups (the one that took no part is
    empty, as [re.findall] reports it) and the length of the match. *)
Definition match_here (s : string) : option (string * string * nat) :=
  match s with
  | "" => None
  | String c s1 =>
      if negb (Ascii.eqb c "$") then None
      else
        match fst (take_name s1) with
        | String _ _ as v1 => Some (v1, "", S (String.length v1))
        | "" =>
            match s1 with
            | "" => None
            | String b s2 =>
                if negb (Ascii.eqb b "{") then None
                else
                  match take_name s2 with
                  | (String _ _ as v2, String e _) =>
                      if Ascii.eqb e "}"
                      then Some ("", v2, 3 + String.length v2)%nat
                      else None
                  | _ => None
                  end
            end
        end
  end.

(** [re.findall(pattern, content)]: the non-overlapping matches from left
    to right.  [skip] counts the characters of the last match still to
    be passed over. *)
Fixpoint findall_from (skip : nat) (s : string) : list (string * string) :=
  match s with
  | "" => []
  | String _ s' =>
      match skip with
      | S k => findall_from k s'
      | O =>
          match match_here s with
          | Some (g1, g2, n) => (g1, g2) :: findall_from (n - 1) s'
          | None => findall_from O s'
          end
      end
  end.

Definition findall (content : string) : list (string * string) :=
  findall_from O content.

(** The dictionaries [{"full_variable": .., "variable": .., "mock": ..}]. *)
Record MockVar : Type := mkVar {
  full_variable : string;
  variable : string;
  mock : string
}.

(** [VariableMocker._extract_variables] *)
Definition extract_one (content : string) (m : string * string) : MockVar :=
  let variable := if Py.nonempty (fst m) then fst m else snd m in
  let needle := "$" +:+ variable in
  let i := Py.find content needle in
  let window := Py.slice content i (i + Py.len needle + 1) in
  let full_variable :=
    if Py.contains "{" window then "${" +:+ variable +:+ "}" else needle in
  mkVar full_variable variable "".

Definition _extract_variables (content : string) : list MockVar :=
  map (extract_one content) (findall content).

(** The state of Python's [random] module: the stream of raw draws still
    to come.  [random.randint(lo, hi)] consumes one draw and returns a
    value of [lo..hi]; every sequence of values in range arises from some
    stream. *)
Record Random : Type := mkRandom {
  draws : nat -> Z;
  position : nat
}.

Definition randint (lo hi : Z) (g : Random) : Z * Random :=
  (lo + (draws g (position g)) mod (hi - lo + 1),
   mkRandom (draws g) (S (position g))).

(** The [if]/[elif] chain of [VariableMocker._find_mocks] for one variable. *)
Definition find_mock (variable : string) (g : Random) : string * Random :=
  if Py.contains "_IP" variable then ("10.10.10.10", g)
  else if Py.contains "_PORT" variable then
    let (n, g') := randint 1024 65535 g in (Py.str_of_int n, g')
  else if Py.contains "_PASS" variable then ("password", g)
  else if Py.contains "_USER" variable then ("username", g)
  else if Py.contains "_DIR" variable then ("/path/to/dir", g)
  else if Py.contains "_PATH" variable then ("/some/path", g)
  else if Py.contains "_SERVICE" variable then ("service", g)
  else if Py.contains "_SEED" variable then ("seed", g)
  else if Py.contains "_CONFIG" variable then ("/path/to/config", g)
  else if Py.contains "_MODE" variable then ("production", g)
  else if Py.contains "_NETWORK" variable then ("network", g)
  else if Py.contains "_DOMAIN" variable then ("domain.com", g)
  else if Py.contains "_NAME" variable then ("name", g)
  else if Py.contains "_VERSION" variable then ("1.0.0", g)
  else if Py.contains "_ROOT" variable then ("/path/to/root", g)
  else if Py.contains "_KEY" variable then ("key", g)
  else if Py.contains "_SECRET" variable then ("secret", g)
  else if Py.contains "_TOKEN" variable then ("token", g)
  else if Py.contains "_HOST" variable then ("host", g)
  else ("mocked", g).

(** [VariableMocker._find_mocks]: the loop over the variables, in order. *)
Fixpoint _find_mocks (variables : list MockVar) (g : Random) : list MockVar * Random :=
  match variables with
  | [] => ([], g)
  | var :: rest =>
      let (m, g1) := find_mock (variable var) g in
      let (rest', g2) := _find_mocks rest g1 in
      (mkVar (full_variable var) (variable var) m :: rest', g2)
  end.

(** [VariableMocker._replace_variables] *)
Definition _replace_variables (content : string) (variables : list MockVar) : string :=
  fold_left (fun c var => Py.replace c (full_variable var) (mock var)) variables content.

(** [VariableMocker.mock_variables] *)
Definition mock_variables (content : string) (g : Random) : string * Random :=
  let variables := _extract_variables content in
  let (mocked_variables, g') := _find_mocks variables g in
  (_replace_variables content mocked_variables, g').

(** The keyword tests of [_find_mocks] in the order the source makes them
    ([None] stands for the pseudo-random port). *)
Definition keyword_table : list (string * option string) :=
  [ ("_IP", Some "10.10.10.10"); ("_PORT", None); ("_PASS", Some "password");
    ("_USER", Some "username"); ("_DIR", Some "/path/to/dir");
    ("_PATH", Some "/some/path"); ("_SERVICE", Some "service");
    ("_SEED", Some "seed"); ("_CONFIG", Some "/path/to/config");
    ("_MODE", Some "production"); ("_NETWORK", Some "network");
    ("_DOMAIN", Some "domain.com"); ("_NAME", Some "name");
    ("_VERSION", Some "1.0.0"); ("_ROOT", Some "/path/to/root");
    ("_KEY", Some "key"); ("_SECRET", Some "secret"); ("_TOKEN", Some "token");
    ("_HOST", Some "host") ].

(** The first row of a table whose keyword occurs in the variable name. *)
Fixpoint first_keyword (table : list (string * option string)) (variable : string)
  : option (string * option string) :=
  match table with
  | [] => None
  | (k, m) :: rest =>
      if Py.contains k variable then Some (k, m) else first_keyword rest variable
  end.

(** The occurrences [$NAME] and [${NAME}] of a placeholder in a text,
    [NAME] being a non-empty run of name characters. *)
Definition is_name (name : string) : Prop :=
  name <> "" /\ forallb name_char (list_ascii_of_string name) = true.

Definition placeholder_occurs (s : string) : Prop :=
  exists before name after,
    is_name name
    /\ (s = before +:+ "$" +:+ name +:+ after
        \/ s = before +:+ "${" +:+ name +:+ "}" +:+ after).

(** The same as a test: the pattern matches somewhere in the text. *)
Fixpoint has_placeholder (s : string) : bool :=
  match s with
  | "" => false
  | String _ s' =>
      match match_here s with
      | Some _ => true
      | None => has_placeholder s'
      end
  end.

(** Two generators that will hand out the same draws from now on. *)
Definition same_draws (g1 g2 : Random) : Prop :=
  forall n, draws g1 (position g1 + n)%nat = draws g2 (position g2 + n)%nat.

(** A variable name that takes the [_PORT] branch of [_find_mocks]. *)
Definition selects_port (name : string) : bool :=
  negb (Py.contains "_IP" name) && Py.contains "_PORT" name.

(** The keywords tested before [_NAME]. *)
Definition before_name : list string :=
  ["_IP"; "_PORT"; "_PASS"; "_USER"; "_DIR"; "_PATH"; "_SERVICE"; "_SEED";
   "_CONFIG"; "_MODE"; "_NETWORK"; "_DOMAIN"].

(** The keywords the specification lists before [_HOST]. *)
Definition listed_before_host : list string :=
  ["_IP"; "_PORT"; "_PASS"; "_USER"; "_DIR"; "_PATH"; "_ROOT"; "_CONFIG"].

Definition none_of (keywords : list string) (name : string) : bool :=
  forallb (fun k => negb (Py.contains k name)) keywords.

End VariableMocker.

(* ===================================================================== *)
(** * validators/docker_image_validator.py *)
(* ===================================================================== *)

Module DockerImageValidator.
Import Models.

(** [class DockerImage] *)
Record DockerImage : Type := mkImage {
  host : string;
  path : string;
  tag : option string;
  digest : option string
}.

(** [DockerImage.from_string].  The tests ["@" in image_string] and
    [":" in image_part] are the [Some] cases of [Py.rsplit1]. *)
Definition from_string (image_string : string) : DockerImage :=
  let '(image_part, digest) :=
    match Py.rsplit1 "@" image_string with
    | Some (l, r) => (l, Some r)
    | None => (image_string, None)
    end in
  let '(name_part, tag) :=
    match Py.rsplit1 ":" image_part with
    | Some (l, r) => (l, Some r)
    | None => (image_part, None)
    end in
  let parts := Py.split "/" name_part in
  match parts with
  | [p0] => mkImage "docker.io" ("library/" +:+ p0) tag digest
  | [p0; p1] =>
      if Py.has_char "." p0 || Py.has_char ":" p0
      then mkImage p0 p1 tag digest
      else mkImage "docker.io" (Py.join "/" parts) tag digest
  | _ => mkImage (hd "" parts) (Py.join "/" (tl parts)) tag digest
  end.

(** [DockerImage.__str__] *)
Definition __str__ (self : DockerImage) : string :=
  let result := host self +:+ "/" +:+ path self in
  let result :=
    if Py.truthy (tag self) then result +:+ ":" +:+ default "" (tag self) else result in
  if Py.truthy (digest self) then result +:+ "@" +:+ default "" (digest self) else result.

(** [DockerImage.api_host] *)
Definition api_host (self : DockerImage) : string :=
  if String.eqb (host self) "docker.io" || String.eqb (host self) "www.docker.com"
  then "registry-1.docker.io"
  else host self.

(** One platform of a manifest list. *)
Record Platform : Type := mkPlatform {
  os : string;
  architecture : string;
  variant : option string
}.

(** The registries as the client meets them.  [v2_probe host] is the
    answer to [GET https://host/v2/]: the status code and the
    [Docker-Distribution-Api-Version] header, or [None] when the request
    raises.  [manifest_platforms image] is the outcome of
    [DockerRegistryClient.get_architectures]: the platforms, or the message
    of the exception it raises. *)
Record Registries : Type := mkRegistries {
  v2_probe : string -> option (Z * option string);
  manifest_platforms : DockerImage -> string + list Platform
}.

(** Requests sent to a registry, for the record. *)
Inductive Request : Type :=
| GetV2 (host : string)
| GetManifest (image : DockerImage).

(** [class DockerRegistryClient]: the host cache, and the requests sent so
    far (most recent last). *)
Record Client : Type := mkClient {
  _cache : gmap string bool;
  requests : list Request
}.

Definition new_client : Client := mkClient ∅ [].

Definition well_known (h : string) : bool :=
  String.eqb h "docker.io" || String.eqb h "registry-1.docker.io" || String.eqb h "ghcr.io".

(** [DockerRegistryClient.is_registry] *)
Definition is_registry (net : Registries) (h : string) (self : Client) : bool * Client :=
  match _cache self !! h with
  | Some b => (b, self)
  | None =>
      if well_known h then (true, mkClient (<[h := true]> (_cache self)) (requests self))
      else
        let sent := requests self ++ [GetV2 h] in
        match v2_probe net h with
        | Some (status, header) =>
            let is_reg :=
              (Z.eqb status 200 || Z.eqb status 401)
              || match header with
                 | Some v => String.eqb v "registry/2.0"
                 | None => false
                 end in
            (is_reg, mkClient (<[h := is_reg]> (_cache self)) sent)
        | None => (false, mkClient (<[h := false]> (_cache self)) sent)
        end
  end.

Definition has_platform (arch : string) (l : list Platform) : bool :=
  existsb (fun p => String.eqb (os p) "linux" && String.eqb (architecture p) arch) l.

(** [DockerRegistryClient.validate_image] *)
Definition validate_image (net : Registries) (image : DockerImage) (self : Client)
  : list LintingError * Client :=
  let (ok, self1) := is_registry net (api_host image) self in
  if negb ok then
    ([finding "invalid_docker_image_name" ERROR
        ("Invalid registry " +:+ Py.dquote +:+ api_host image +:+ Py.dquote)
        ("The registry " +:+ Py.dquote +:+ api_host image +:+ Py.dquote
           +:+ " is not a valid Docker registry")
        "docker-compose.yml" (Some "services.image")], self1)
  else
    let self2 := mkClient (_cache self1) (requests self1 ++ [GetManifest image]) in
    let shown := Py.dquote +:+ __str__ image +:+ Py.dquote in
    match manifest_platforms net image with
    | inr architectures =>
        if negb (has_platform "arm64" architectures && has_platform "amd64" architectures)
        then
          ([finding "invalid_image_architectures" ERROR
              ("Invalid image architectures for image " +:+ shown)
              ("The image " +:+ shown +:+ " does not support the architectures "
                 +:+ Py.dquote +:+ "arm64" +:+ Py.dquote +:+ " and "
                 +:+ Py.dquote +:+ "amd64" +:+ Py.dquote
                 +:+ ". Please make sure that the image supports both architectures.")
              "docker-compose.yml" (Some "services.image")], self2)
        else ([], self2)
    | inl message =>
        if Py.contains "401" message || Py.contains "Unauthorized" message
        then
          ([finding "image_architecture_unverified" INFO
              ("Could not verify architectures for image " +:+ shown)
              "The registry requires authentication to inspect the image manifest. Skipping architecture verification."
              "docker-compose.yml" (Some "services.image")], self2)
        else
          ([finding "invalid_docker_image_name" ERROR
              ("Invalid image name " +:+ shown) message
              "docker-compose.yml" (Some "services.image")], self2)
    end.

(** The value under a service's ["image"] key: absent, a text, or another
    YAML value (with its truthiness, its [str()] and the message of the
    exception [from_string] raises on it). *)
Inductive ImageValue : Type :=
| NoImage
| ImageText (s : string)
| ImageOther (is_truthy : bool) (shown : string) (exception : string).

(** [[a-zA-Z0-9./:_-]] and [[0-9a-fA-F]] *)
Definition image_name_char (c : ascii) : bool :=
  Py.is_lower c || Py.is_upper c || Py.is_digit c
  || Ascii.eqb c "." || Ascii.eqb c "/" || Ascii.eqb c ":"
  || Ascii.eqb c "_" || Ascii.eqb c "-".

Definition hex_char (c : ascii) : bool :=
  Py.is_digit c || Py.in_range "a" "f" c || Py.in_range "A" "F" c.

(** [^[a-zA-Z0-9./:_-]+:[^@]+@sha256:[0-9a-fA-F]{64}$] *)
Definition image_format : Regex.regex :=
  Regex.Cat (Regex.Plus (Regex.Class image_name_char))
    (Regex.Cat (Regex.Chr ":")
       (Regex.Cat (Regex.Plus (Regex.NotChr "@"))
          (Regex.Cat (Regex.Lit "@sha256:") (Regex.Rep 64 (Regex.Class hex_char))))).

Definition conforms (image_string : string) : bool :=
  Regex.re_match image_format image_string.

(** [error.file = ...; error.properties_path = ...]: a finding of the
    registry client moved to the service it was found for. *)
Definition relocate (app_id service_name : string) (e : LintingError) : LintingError :=
  mkError (id e) (severity e) (title e) (message e)
    (app_id +:+ "/docker-compose.yml")
    (Some ("services." +:+ service_name +:+ ".image")) (line e) (column e).

(** The body of the loop of [DockerImageValidator.validate_images] for one
    service. *)
Definition validate_service (net : Registries) (app_id : string)
    (check_architectures : bool) (service_name : string) (image : ImageValue)
    (client : Client) : list LintingError * Client :=
  let file := app_id +:+ "/docker-compose.yml" in
  let where_ := Some ("services." +:+ service_name +:+ ".image") in
  match image with
  | NoImage => ([], client)
  | ImageOther false _ _ => ([], client)
  | ImageOther true shown exception =>
      ([finding "invalid_docker_image_name" ERROR
          ("Invalid image name " +:+ Py.dquote +:+ shown +:+ Py.dquote)
          exception file where_], client)
  | ImageText image_string =>
      if negb (Py.nonempty image_string) then ([], client)
      else
        let image := from_string image_string in
        let format_errors :=
          if negb (conforms image_string) then
            [finding "invalid_docker_image_name" ERROR
               ("Invalid image name " +:+ Py.dquote +:+ image_string +:+ Py.dquote)
               ("Images must include an immutable digest: " +:+ Py.dquote
                  +:+ "<name>:<version-tag>@sha256:<64-hex>" +:+ Py.dquote)
               file where_]
          else if match tag image with Some t => String.eqb t "latest" | None => false end then
            [finding "invalid_docker_image_name" WARNING
               ("Invalid image tag " +:+ Py.dquote +:+ "latest" +:+ Py.dquote)
               ("Images should not use the " +:+ Py.dquote +:+ "latest"
                  +:+ Py.dquote +:+ " tag")
               file where_]
          else [] in
        if check_architectures then
          let (image_errors, client') := validate_image net image client in
          let relocated :=
            map (fun e => mkError (id e) (severity e) (title e) (message e)
                            file where_ (line e) (column e)) image_errors in
          (format_errors ++ relocated, client')
        else (format_errors, client)
  end.

Section WithValueText.

(** [str()] of a list or a mapping, and the message of the exception
    [DockerImage.from_string] raises on a value that is not a text. *)
Variable repr_container : Py.value -> string.
Variable from_string_error : Py.value -> string.

(** What [service_config.get("image")] found, as the loop treats it. *)
Definition image_value (found : option Py.value) : ImageValue :=
  match found with
  | None => NoImage
  | Some (Py.VStr s) => ImageText s
  | Some v => ImageOther (Py.truth v) (Py.str repr_container v) (from_string_error v)
  end.

(** The loop of [validate_images] over [services.items()], in the order of
    the document.  [service_config.get("image")] raises [AttributeError]
    on a service that is no mapping, which ends the loop and the function:
    the findings gathered so far are lost, the requests sent stay sent. *)
Fixpoint validate_image_items (net : Registries) (service_items : list (string * Py.value))
    (app_id : string) (check_architectures : bool) (client : Client)
  : Py.result (list LintingError) * Client :=
  match service_items with
  | [] => (Py.Returned [], client)
  | (service_name, service_config) :: rest =>
      match Py.get service_config "image" with
      | Py.Raised e => (Py.Raised e, client)
      | Py.Returned found =>
          let (errs, client1) :=
            validate_service net app_id check_architectures service_name
              (image_value found) client in
          match validate_image_items net rest app_id check_architectures client1 with
          | (Py.Raised e, client2) => (Py.Raised e, client2)
          | (Py.Returned errs', client2) => (Py.Returned (errs ++ errs'), client2)
          end
      end
  end.

(** [DockerImageValidator.validate_images] on the value that
    [data.get("services", {})] gave: [services.items()] raises
    [AttributeError] when it is no mapping. *)
Definition validate_images (net : Registries) (services : Py.value)
    (app_id : string) (check_architectures : bool) (client : Client)
  : Py.result (list LintingError) * Client :=
  match services with
  | Py.VDict service_items =>
      validate_image_items net service_items app_id check_architectures client
  | _ =>
      (Py.Raised (Py.AttributeError
                    ("'" +:+ Py.type_name services
                       +:+ "' object has no attribute 'items'")), client)
  end.

End WithValueText.

(** The answer of [is_registry] for a host not yet in the cache. *)
Definition classify (net : Registries) (h : string) : bool :=
  if well_known h then true
  else match v2_probe net h with
       | Some (status, header) =>
           (Z.eqb status 200 || Z.eqb status 401)
           || match header with
              | Some v => String.eqb v "registry/2.0"
              | None => false
              end
       | None => false
       end.

(** Within a run the classification of a host never changes. *)
Definition same_answers (net : Registries) (c c' : Client) : Prop :=
  forall h, fst (is_registry net h c') = fst (is_registry net h c).

Definition extends (c c' : Client) : Prop :=
  exists more, requests c' = requests c ++ more.

(** A registry world in which Docker Hub serves single-platform images. *)
Definition amd64_only : Registries :=
  mkRegistries (fun _ => None) (fun _ => inr [mkPlatform "linux" "amd64" None]).

End DockerImageValidator.

(* ===================================================================== *)
(** * schemas/umbrel_app.py *)
(* ===================================================================== *)

Module Schemas.

(** [^[a-z]+(?:-[a-z]+)*$] *)
Definition store_id_format : Regex.regex :=
  Regex.Cat (Regex.Plus (Regex.Class Py.is_lower))
    (Regex.Star (Regex.Cat (Regex.Chr "-") (Regex.Plus (Regex.Class Py.is_lower)))).

Definition reserved_message : string :=
  "The id of the app can't start with 'umbrel-app-store' as it is the id of the official Umbrel App Store.".

Definition format_message : string :=
  "The id of the app should contain only alphabets ('a' to 'z') and dashes ('-').".

(** [UmbrelAppStoreManifest.validate_id] *)
Definition validate_id (v : string) : Py.result string :=
  if Py.startswith v "umbrel-app-store" then Py.Raised (Py.ValueError reserved_message)
  else if negb (Regex.re_match store_id_format v) then Py.Raised (Py.ValueError format_message)
  else Py.Returned v.

(** The field [id: str = Field(..., min_length=1, max_length=50)] with its
    validator: the length bounds are checked first, then [validate_id]. *)
Definition store_id_field (v : string) : Py.result string :=
  if Py.len v <? 1 then Py.Raised (Py.ValueError "String should have at least 1 character")
  else if 50 <? Py.len v then Py.Raised (Py.ValueError "String should have at most 50 characters")
  else validate_id v.

(** An id that starts with the reserved prefix when letter case is ignored. *)
Definition starts_with_reserved_any_case (v : string) : bool :=
  Py.startswith (Py.lower v) "umbrel-app-store".

(** The characters a store identifier may be made of (the line feed is
    what [$] lets through at the very end). *)
Definition store_id_char (c : ascii) : bool :=
  Py.is_lower c || Ascii.eqb "-" c || Ascii.eqb Py.LF c.

End Schemas.

(* ===================================================================== *)
(** * validators/github_validator.py *)
(* ===================================================================== *)

Module GitHubValidator.
Import Models.

(** What [urllib.parse.urlparse] returns, as far as the validator reads it. *)
Record ParseResult : Type := mkParsed {
  scheme : string;
  hostname : option string;
  url_path : string
}.

(** The end of one HTTP request: a response with its status code, or an
    exception (network error, timeout, ...). *)
Inductive HttpOutcome : Type :=
| Response (status_code : Z)
| RequestFailed.

(** The network at the time of a call: the outcome of a GET of each URL. *)
Definition Network : Type := string -> HttpOutcome.

(** [class GitHubValidator]: the run-scoped cache [self._cache]. *)
Record Validator : Type := mkValidator {
  _cache : gmap string bool
}.

Definition new_validator : Validator := mkValidator ∅.

(** [^/[^/]+/[^/]+/pull/\d+/?$] and [^/[^/]+/[^/]+/?$]; below code point
    256 the decimal digits [\d] matches are [0] to [9]. *)
Definition segment : Regex.regex := Regex.Plus (Regex.NotChr "/").

Definition pr_path_pattern : Regex.regex :=
  Regex.Cat (Regex.Chr "/") (Regex.Cat segment (Regex.Cat (Regex.Chr "/")
    (Regex.Cat segment (Regex.Cat (Regex.Lit "/pull/")
       (Regex.Cat (Regex.Plus (Regex.Class Py.is_digit)) (Regex.Opt (Regex.Chr "/"))))))).

Definition repo_path_pattern : Regex.regex :=
  Regex.Cat (Regex.Chr "/") (Regex.Cat segment (Regex.Cat (Regex.Chr "/")
    (Regex.Cat segment (Regex.Opt (Regex.Chr "/"))))).

Section WithUrlparse.

(** [urlparse(url)]; [None] when it raises. *)
Variable urlparse : string -> option ParseResult.

Definition github_host (h : option string) : bool :=
  match h with
  | Some h => String.eqb h "github.com" || String.eqb h "www.github.com"
  | None => false
  end.

(** [GitHubValidator._is_github_pr_url] *)
Definition _is_github_pr_url (url : string) : bool :=
  match urlparse url with
  | None => false
  | Some parsed =>
      if negb (github_host (hostname parsed)) then false
      else if negb (String.eqb (scheme parsed) "https") then false
      else Regex.re_match pr_path_pattern (url_path parsed)
  end.

(** [GitHubValidator._is_github_repo_url] *)
Definition _is_github_repo_url (url : string) : bool :=
  match urlparse url with
  | None => false
  | Some parsed =>
      if negb (github_host (hostname parsed)) then false
      else if negb (String.eqb (scheme parsed) "https") then false
      else Regex.re_match repo_path_pattern (url_path parsed)
  end.

(** [GitHubValidator._parse_github_pr]: [(owner, repo, number)], or [None]
    for the triple of [None]s. *)
Definition _parse_github_pr (url : string) : option (string * string * string) :=
  match urlparse url with
  | None => None
  | Some parsed =>
      match filter (fun p => Py.nonempty p = true) (Py.split "/" (url_path parsed)) with
      | owner :: repo :: pull :: number :: _ =>
          if String.eqb pull "pull" then Some (owner, repo, number) else None
      | _ => None
      end
  end.

(** The status test shared by both branches of [_pr_exists]. *)
Definition pr_status_exists (status : Z) : bool :=
  if Z.eqb status 200 then true
  else if Z.eqb status 404 then false
  else true.

(** The URL [_pr_exists] requests: the REST API address of the pull
    request when the URL parses into owner, repository and number, otherwise
    the HTML page itself. *)
Definition pr_request_url (pr_url : string) : string :=
  match _parse_github_pr pr_url with
  | Some (owner, repo, number) =>
      if Py.nonempty owner && Py.nonempty repo && Py.nonempty number
      then "https://api.github.com/repos/" +:+ owner +:+ "/" +:+ repo
             +:+ "/pulls/" +:+ number
      else pr_url
  | None => pr_url
  end.

(** [GitHubValidator._pr_exists] *)
Definition _pr_exists (net : Network) (pr_url : string) (self : Validator)
  : bool * Validator :=
  match _cache self !! pr_url with
  | Some known => (known, self)
  | None =>
      match net (pr_request_url pr_url) with
      | Response status =>
          let exists_ := pr_status_exists status in
          (exists_, mkValidator (<[pr_url := exists_]> (_cache self)))
      | RequestFailed => (true, mkValidator (<[pr_url := true]> (_cache self)))
      end
  end.

(** [GitHubValidator._repo_exists] *)
Definition _repo_exists (net : Network) (repo_url : string) (self : Validator)
  : bool * Validator :=
  match _cache self !! repo_url with
  | Some known => (known, self)
  | None =>
      match net repo_url with
      | Response status =>
          let exists_ := Z.eqb status 200 in
          (exists_, mkValidator (<[repo_url := exists_]> (_cache self)))
      | RequestFailed => (true, mkValidator (<[repo_url := true]> (_cache self)))
      end
  end.

Definition pr_not_found (pr_url app_id : string) : LintingError :=
  finding "invalid_submission_field" ERROR
    ("Pull request not found " +:+ Py.dquote +:+ pr_url +:+ Py.dquote)
    "The specified pull request does not exist or is not accessible. Please check the URL and ensure the PR is public."
    (app_id +:+ "/umbrel-app.yml") (Some "submission").

Definition repo_not_found (repo_url app_id : string) : LintingError :=
  finding "invalid_repo_url" WARNING
    ("Repository not found " +:+ Py.dquote +:+ repo_url +:+ Py.dquote)
    "The specified repository does not exist or is not accessible. Please check the URL."
    (app_id +:+ "/umbrel-app.yml") (Some "repo").

(** [GitHubValidator.validate_pull_request] *)
Definition validate_pull_request (net : Network) (pr_url app_id : string)
    (self : Validator) : list LintingError * Validator :=
  if negb (_is_github_pr_url pr_url) then
    ([finding "invalid_submission_field" ERROR
        ("Invalid submission URL " +:+ Py.dquote +:+ pr_url +:+ Py.dquote)
        "Submission URL must be a valid GitHub pull request URL (e.g., https://github.com/owner/repo/pull/123)"
        (app_id +:+ "/umbrel-app.yml") (Some "submission")], self)
  else
    let (found, self') := _pr_exists net pr_url self in
    if negb found then ([pr_not_found pr_url app_id], self') else ([], self').

(** [GitHubValidator._validate_github_repo_url] *)
Definition _validate_github_repo_url (net : Network) (repo_url app_id : string)
    (self : Validator) : list LintingError * Validator :=
  if negb (_is_github_repo_url repo_url) then
    ([finding "invalid_repo_url" WARNING
        ("Invalid repository URL " +:+ Py.dquote +:+ repo_url +:+ Py.dquote)
        "Repository URL should be a valid GitHub repository URL (e.g., https://github.com/owner/repo)"
        (app_id +:+ "/umbrel-app.yml") (Some "repo")], self)
  else
    let (found, self') := _repo_exists net repo_url self in
    if negb found then ([repo_not_found repo_url app_id], self') else ([], self').

(** [str()] of a list or mapping, for [str(submission_url)]. *)
Variable repr_container : Py.value -> string.

(** [GitHubValidator.validate_github_urls] *)
Definition validate_github_urls (net : Network) (manifest_data : Py.value)
    (app_id : string) (self : Validator)
  : Py.result (list LintingError) * Validator :=
  match Py.get manifest_data "submission" with
  | Py.Raised e => (Py.Raised e, self)
  | Py.Returned submission_url =>
      let (pr_errors, self1) :=
        match submission_url with
        | Some u =>
            if Py.truth u
            then validate_pull_request net (Py.str repr_container u) app_id self
            else ([], self)
        | None => ([], self)
        end in
      match Py.get manifest_data "repo" with
      | Py.Raised e => (Py.Raised e, self1)
      | Py.Returned repo_url =>
          let (repo_errors, self2) :=
            match repo_url with
            | Some (Py.VStr u) =>
                if Py.nonempty u && Py.nonempty (Py.strip u)
                then _validate_github_repo_url net u app_id self1
                else ([], self1)
            | _ => ([], self1)
            end in
          (Py.Returned (pr_errors ++ repo_errors), self2)
      end
  end.

End WithUrlparse.

(** A stand-in for [urlparse] on the URLs of the examples: texts of the
    shape [https://github.com/...] parse into scheme, host and path. *)
Definition sample_urlparse (url : string) : option ParseResult :=
  if Py.startswith url "https://github.com/"
  then Some (mkParsed "https" (Some "github.com")
               (String.substring 18 (String.length url - 18) url))
  else Some (mkParsed "" None url).

(** A later state of the validator keeps every answer already cached. *)
Definition keeps (self self' : Validator) : Prop :=
  forall u b, _cache self !! u = Some b -> _cache self' !! u = Some b.

End GitHubValidator.

(* ===================================================================== *)
(** * validators/yaml_validator.py and core/linter.py *)
(* ===================================================================== *)

Module Linter.
Import Models.

(** [class AppStoreType] and [class LintingContext] *)
Inductive AppStoreType : Type := OFFICIAL | COMMUNITY.

Record LintingContext : Type := mkContext {
  app_id : option string;
  app_store_type : AppStoreType;
  is_new_submission : bool;
  pull_request_url : option string;
  all_app_manifests : list string
}.

(** [LintingContext()] *)
Definition default_context : LintingContext :=
  mkContext None COMMUNITY false None [].

(** What [open(path).read()] gives: the message of the [OSError], or the
    text.  (A file that is not UTF-8 makes [read] raise
    [UnicodeDecodeError], which no [except OSError] catches; that outcome
    is not among these.) *)
Inductive ReadOutcome : Type :=
| Unreadable (oserror : string)
| Readable (content : string).

(** What the linter finds at a path: no regular file ([file_exists] is
    false), or a file and the outcome of reading it. *)
Inductive FileState : Type :=
| Missing
| Present (read : ReadOutcome).

(** The attributes of a validated [UmbrelAppManifest] that the linter
    reads (URL fields by their text). *)
Record Manifest : Type := mkManifest {
  submission : string;
  releaseNotes : option string;
  icon : option string;
  gallery : list string;
  port : Z
}.

(** One application directory as [lint_app] sees it.  The compose and
    directory-structure validators enter by their outcome. *)
Record AppDir : Type := mkAppDir {
  dir_name : string;
  dir_exists : bool;
  manifest_file : FileState;
  compose_outcome : Py.result (list LintingError);
  structure_errors : list LintingError
}.

(** One entry of [directory.iterdir()]. *)
Record DirEntry : Type := mkEntry {
  entry_is_dir : bool;
  entry_has_manifest : bool;
  entry_app : AppDir
}.

(** The directory handed to [lint_all_apps]. *)
Record StoreDir : Type := mkStoreDir {
  root_has_manifest : bool;
  root_as_app : AppDir;
  store_manifest_path : string;
  store_manifest_file : FileState;
  readme_exists : bool;
  entries : list DirEntry
}.

Section WithRuntime.

(** [yaml.safe_load]: the message of the [YAMLError], or the data.  (The
    parser can also raise an exception of another class, [ValueError] on
    an impossible date for one, which no [except yaml.YAMLError] catches;
    that outcome is not among these.) *)
Variable safe_load : string -> string + Py.value.
(** [str()] of a list or a mapping. *)
Variable repr_container : Py.value -> string.
(** [int(s)] on a text; [None] when it raises [ValueError]. *)
Variable int_of_text : string -> option Z.
(** [UmbrelAppManifest( **data )]: the message of the exception, or the
    manifest; [UmbrelAppStoreManifest( **data )]: the message, if it raises. *)
Variable UmbrelAppManifest : Py.value -> string + Manifest.
Variable UmbrelAppStoreManifest : Py.value -> option string.
Variable urlparse : string -> option GitHubValidator.ParseResult.

(** [parse_yaml_with_error_handling]: [(None, error)] or [(data, None)]. *)
Definition parse_yaml_with_error_handling (content filename : string)
  : LintingError + Py.value :=
  match safe_load content with
  | inr data => inr data
  | inl e =>
      inl (finding "invalid_yaml_syntax" ERROR
             (filename +:+ " is not a valid YAML file") e filename None)
  end.

(** [int(port)] inside the [try] of [_get_used_ports]; [None] when it
    raises [ValueError] or [TypeError]. *)
Definition int_of_value (v : Py.value) : option Z :=
  match v with
  | Py.VInt n => Some n
  | Py.VBool b => Some (if b then 1 else 0)
  | Py.VStr s => int_of_text s
  | _ => None
  end.

(** [app_id != current_app_id] for a loaded value and a text. *)
Definition differs (v : Py.value) (s : string) : bool :=
  match v with
  | Py.VStr t => negb (String.eqb t s)
  | _ => true
  end.

Definition truthy_entry (o : option Py.value) : bool :=
  match o with
  | Some v => Py.truth v
  | None => false
  end.

(** The body of the loop of [UmbrelLinter._get_used_ports]. *)
Definition used_ports_step (current_app_id : string) (used_ports : gmap Z string)
    (manifest_content : string) : gmap Z string :=
  match parse_yaml_with_error_handling manifest_content "manifest" with
  | inr (Py.VDict d) =>
      if Py.truth (Py.VDict d) then
        match Py.dict_get d "id", Py.dict_get d "name", Py.dict_get d "port" with
        | Some app_id, Some name, Some port =>
            if Py.truth app_id && Py.truth name && Py.truth port
               && differs app_id current_app_id
            then
              match int_of_value port with
              | Some port_int =>
                  <[port_int := Py.str repr_container name +:+ " ("
                                  +:+ Py.str repr_container app_id +:+ ")"]> used_ports
              | None => used_ports
              end
            else used_ports
        | _, _, _ => used_ports
        end
      else used_ports
  | _ => used_ports
  end.

(** [UmbrelLinter._get_used_ports] *)
Definition _get_used_ports (all_manifests : list string) (current_app_id : string)
  : gmap Z string :=
  fold_left (used_ports_step current_app_id) all_manifests ∅.

(** The keywords that mark the detail line of a schema error. *)
Definition has_detail_keyword (line : string) : bool :=
  existsb (fun keyword => Py.contains keyword (Py.lower line))
    ["input should"; "field required"; "value error"].

(** The loop over the lines of the schema error message: the field name
    and the error detail it ends with. *)
Fixpoint scan_error_lines (lines : list string) (field_name : option string)
  : option string * option string :=
  match lines with
  | [] => (field_name, None)
  | raw :: rest =>
      let line := Py.strip raw in
      if Py.contains "validation error" (Py.lower line) || negb (Py.nonempty line)
      then scan_error_lines rest field_name
      else if negb (Py.startswith line "For further information")
              && negb (has_detail_keyword line)
      then scan_error_lines rest
             (if Py.truthy field_name then field_name else Some line)
      else if has_detail_keyword line then (field_name, Some line)
      else scan_error_lines rest field_name
  end.

Definition generic_schema_error (error_message app : string) : LintingError :=
  finding "schema_validation_error" ERROR "umbrel-app.yml validation failed"
    error_message (app +:+ "/umbrel-app.yml") None.

(** The [except Exception as e] branch of [_validate_app_manifest]: the
    finding built from [str(e)]. *)
Definition schema_error_finding (error_message app : string) : LintingError :=
  if Py.contains "validation error" (Py.lower error_message) then
    match scan_error_lines (Py.split Py.LF error_message) None with
    | (Some field_name, Some error_detail) =>
        if Py.nonempty field_name && Py.nonempty error_detail then
          let quoted := Py.dquote +:+ field_name +:+ Py.dquote in
          let (title, message) :=
            if Py.contains "tagline" (Py.lower error_message)
               && Py.contains "period" (Py.lower error_message)
            then ("Invalid tagline", "Taglines should not end with a period")
            else if Py.contains "input should be a valid string" (Py.lower error_detail)
            then ("Invalid field " +:+ quoted,
                  "The field " +:+ quoted
                    +:+ " must be a string, but received an invalid value")
            else if Py.contains "field required" (Py.lower error_detail)
            then ("Missing required field " +:+ quoted,
                  "The required field " +:+ quoted +:+ " is missing")
            else ("Invalid field " +:+ quoted, error_detail) in
          finding "schema_validation_error" ERROR title message
            (app +:+ "/umbrel-app.yml") (Some field_name)
        else generic_schema_error error_message app
    | _ => generic_schema_error error_message app
    end
  else generic_schema_error error_message app.

(** The block guarded by [context.is_new_submission and manifest is not None].
    [manifest.submission != context.pull_request_url] is taken on the text
    of the URL, as the schema library does when its URL type is a text
    type. *)
Definition new_submission_errors (context : LintingContext) (manifest : Manifest)
    (app : string) : list LintingError :=
  let file := app +:+ "/umbrel-app.yml" in
  (match pull_request_url context with
   | Some pr =>
       if Py.nonempty pr && negb (String.eqb (submission manifest) pr) then
         [finding "invalid_submission_field" ERROR
            ("Invalid submission field " +:+ Py.dquote +:+ submission manifest +:+ Py.dquote)
            ("The submission field must be set to the URL of this pull request: " +:+ pr)
            file (Some "submission")]
       else []
   | None => []
   end)
  ++ (if Py.truthy (releaseNotes manifest) then
        [finding "filled_out_release_notes_on_first_submission" ERROR
           (Py.dquote +:+ "releaseNotes" +:+ Py.dquote
              +:+ " needs to be empty for new app submissions")
           ("The " +:+ Py.dquote +:+ "releaseNotes" +:+ Py.dquote
              +:+ " field must be empty for new app submissions as it is being displayed to the user only in case of an update.")
           file (Some "releaseNotes")]
      else [])
  ++ (if Py.truthy (icon manifest)
         || match gallery manifest with [] => false | _ => true end
      then
        [finding "filled_out_icon_or_gallery_on_first_submission" WARNING
           (Py.dquote +:+ "icon" +:+ Py.dquote +:+ " and " +:+ Py.dquote +:+ "gallery"
              +:+ Py.dquote +:+ " needs to be empty for new app submissions")
           ("The " +:+ Py.dquote +:+ "icon" +:+ Py.dquote +:+ " and " +:+ Py.dquote
              +:+ "gallery" +:+ Py.dquote
              +:+ " fields must be empty for new app submissions as it is being created by the Umbrel team.")
           file
           (Some (if Py.truthy (icon manifest) then "icon" else "gallery"))]
      else []).

(** [manifest.port] when [manifest] may be [None]. *)
Definition manifest_port (manifest : option Manifest) : Py.result Z :=
  match manifest with
  | Some m => Py.Returned (port m)
  | None => Py.Raised (Py.AttributeError "'NoneType' object has no attribute 'port'")
  end.

(** The block [# Check for duplicate ports]. *)
Definition duplicate_port_errors (context : LintingContext)
    (manifest : option Manifest) (app : string) : Py.result (list LintingError) :=
  match all_app_manifests context with
  | [] => Py.Returned []
  | _ :: _ =>
      let used_ports := _get_used_ports (all_app_manifests context) app in
      Py.bind (manifest_port manifest) (fun p =>
        match used_ports !! p with
        | Some app_name =>
            Py.Returned
              [finding "duplicate_ui_port" ERROR
                 ("Port " +:+ Py.str_of_int p +:+ " is already used by " +:+ app_name)
                 "Each app must use a unique port"
                 (app +:+ "/umbrel-app.yml") (Some "port")]
        | None => Py.Returned []
        end)
  end.

(** [UmbrelLinter._validate_app_manifest] *)
Definition _validate_app_manifest (net : GitHubValidator.Network)
    (manifest_file : FileState) (app : string) (context : LintingContext)
    (github : GitHubValidator.Validator)
  : Py.result (list LintingError) * GitHubValidator.Validator :=
  let file := app +:+ "/umbrel-app.yml" in
  match manifest_file with
  | Missing =>
      (Py.Returned
         [finding "missing_umbrel_app_yml" ERROR "umbrel-app.yml does not exist"
            ("Every app needs a manifest file called " +:+ Py.dquote +:+ "umbrel-app.yml"
               +:+ Py.dquote +:+ " at the root of the app directory")
            file None], github)
  | Present (Unreadable e) =>
      (Py.Returned
         [finding "file_read_error" ERROR "Failed to read umbrel-app.yml" e file None],
       github)
  | Present (Readable content) =>
      match parse_yaml_with_error_handling content file with
      | inl parse_error => (Py.Returned [parse_error], github)
      | inr data =>
          match GitHubValidator.validate_github_urls urlparse repr_container
                  net data app github with
          | (Py.Raised e, github') => (Py.Raised e, github')
          | (Py.Returned github_errors, github') =>
              let (schema_errors, manifest) :=
                match UmbrelAppManifest data with
                | inr m => ([], Some m)
                | inl error_message => ([schema_error_finding error_message app], None)
                end in
              let submission_errors :=
                match manifest with
                | Some m =>
                    if is_new_submission context
                    then new_submission_errors context m app else []
                | None => []
                end in
              (Py.bind (duplicate_port_errors context manifest app) (fun port_errors =>
                 Py.Returned (github_errors ++ schema_errors ++ submission_errors
                                ++ port_errors)),
               github')
          end
      end
  end.

(** [UmbrelLinter._validate_app_store_manifest] *)
Definition _validate_app_store_manifest (manifest_path : string) (read : ReadOutcome)
  : list LintingError :=
  match read with
  | Unreadable e =>
      [finding "file_read_error" ERROR "Failed to read umbrel-app-store.yml"
         e manifest_path None]
  | Readable content =>
      match parse_yaml_with_error_handling content "umbrel-app-store.yml" with
      | inl parse_error => [parse_error]
      | inr data =>
          match UmbrelAppStoreManifest data with
          | Some e =>
              [finding "schema_validation_error" ERROR
                 "umbrel-app-store.yml validation failed" e "umbrel-app-store.yml" None]
          | None => []
          end
      end
  end.

(** [UmbrelLinter.lint_app_store] *)
Definition lint_app_store (store : StoreDir) (context : LintingContext) : LintingResult :=
  let result := empty_result in
  let result :=
    match store_manifest_file store with
    | Missing =>
        match app_store_type context with
        | COMMUNITY =>
            add_error result
              (finding "missing_umbrel_app_store_yml" ERROR
                 "umbrel-app-store.yml does not exist"
                 "For community app stores, the file umbrel-app-store.yml is required"
                 "umbrel-app-store.yml" None)
        | OFFICIAL => result
        end
    | Present read =>
        add_errors result (_validate_app_store_manifest (store_manifest_path store) read)
    end in
  if negb (readme_exists store) then
    add_error result
      (finding "missing_readme" WARNING "README.md does not exist"
         "A README.md file is highly recommended to tell users, how to install your App Store and what apps are available"
         "README.md" None)
  else result.

(** [UmbrelLinter.lint_app] *)
Definition lint_app (net : GitHubValidator.Network) (app : AppDir)
    (context : LintingContext) (github : GitHubValidator.Validator)
  : Py.result LintingResult * GitHubValidator.Validator :=
  let result := empty_result in
  if negb (dir_exists app) then
    (Py.Returned
       (add_error result
          (finding "app_directory_not_found" ERROR
             ("App directory not found: " +:+ dir_name app)
             ("App with id " +:+ dir_name app +:+ " does not exist")
             (dir_name app) None)), github)
  else
    match _validate_app_manifest net (manifest_file app) (dir_name app) context github with
    | (Py.Raised e, github') => (Py.Raised e, github')
    | (Py.Returned manifest_errors, github') =>
        let result := add_errors result manifest_errors in
        match compose_outcome app with
        | Py.Raised e => (Py.Raised e, github')
        | Py.Returned compose_errors =>
            let result := add_errors result compose_errors in
            (Py.Returned (add_errors result (structure_errors app)), github')
        end
    end.

(** [result.errors.extend(other.errors)] followed by
    [result.success = result.success and other.success]. *)
Definition merge (result other : LintingResult) : LintingResult :=
  mkResult (errors result ++ errors other) (success result && success other)
    (total_errors result) (total_warnings result) (total_info result).

(** The loop [for app_id in app_directories] of [lint_all_apps]. *)
Fixpoint lint_each (net : GitHubValidator.Network) (apps : list AppDir)
    (context : LintingContext) (result : LintingResult)
    (github : GitHubValidator.Validator)
  : Py.result LintingResult * GitHubValidator.Validator :=
  match apps with
  | [] => (Py.Returned result, github)
  | app :: rest =>
      match lint_app net app context github with
      | (Py.Raised e, github') => (Py.Raised e, github')
      | (Py.Returned app_result, github') =>
          lint_each net rest context (merge result app_result) github'
      end
  end.

(** The directories of the store kept as applications. *)
Definition app_directories (store : StoreDir) : list AppDir :=
  map entry_app
    (filter (fun item =>
               (entry_is_dir item
                && negb (Py.startswith (dir_name (entry_app item)) ".")
                && entry_has_manifest item) = true)
       (entries store)).

(** [UmbrelLinter.lint_all_apps] *)
Definition lint_all_apps (net : GitHubValidator.Network) (store : StoreDir)
    (context : LintingContext) (github : GitHubValidator.Validator)
  : Py.result LintingResult * GitHubValidator.Validator :=
  if root_has_manifest store then lint_app net (root_as_app store) context github
  else
    let store_result := lint_app_store store context in
    let result := merge empty_result store_result in
    lint_each net (app_directories store) context result github.

End WithRuntime.

(** Stand-ins for the runtime in the examples: a YAML loader that knows
    two manifest texts, and a schema that rejects a manifest without a
    [name] the way the schema library words it. *)
Definition sample_safe_load (content : string) : string + Py.value :=
  if String.eqb content "id: my-app"
  then inr (Py.VDict [("id", Py.VStr "my-app")])
  else if String.eqb content "id: other-app, name: Other, port: 3000"
  then inr (Py.VDict [("id", Py.VStr "other-app"); ("name", Py.VStr "Other");
                      ("port", Py.VInt 3000)])
  else inr Py.VNone.

Definition sample_schema_message : string :=
  "1 validation error for UmbrelAppManifest" +:+ String Py.LF "name"
    +:+ String Py.LF "  Field required [type=missing, input_type=dict]"
    +:+ String Py.LF "    For further information visit https://errors.pydantic.dev/2.5/v/missing".

Definition sample_schema (data : Py.value) : string + Manifest :=
  match Py.get data "name" with
  | Py.Returned (Some _) => inr (mkManifest "" None None [] 3000)
  | _ => inl sample_schema_message
  end.

(** An application directory holding the manifest [id: my-app] only. *)
Definition sample_app : AppDir :=
  mkAppDir "my-app" true (Present (Readable "id: my-app")) (Py.Returned []) [].

(** A context that supplies the manifest text of one other application. *)
Definition context_with_other_app : LintingContext :=
  mkContext None COMMUNITY false None ["id: other-app, name: Other, port: 3000"].

(** A community store directory without store manifest, README or
    applications. *)
Definition bare_store : StoreDir :=
  mkStoreDir false (mkAppDir "store" true Missing (Py.Returned []) [])
    "store/umbrel-app-store.yml" Missing false [].

End Linter.

(* ===================================================================== *)
(** * Further code of the linter: directory structure, port collisions *)
(* ===================================================================== *)

Module Structure.
Import Models.

(** [class FileEntry] *)
Record FileEntry : Type := mkFileEntry {
  path : string;
  type : string
}.

(** The finding of [_validate_directory_structure] for one directory. *)
Definition empty_directory_finding (directory : string) : LintingError :=
  finding "empty_app_data_directory" ERROR
    ("Empty directory " +:+ Py.dquote +:+ directory +:+ Py.dquote)
    ("Please add a " +:+ Py.dquote +:+ ".gitkeep" +:+ Py.dquote
       +:+ " file to the directory " +:+ Py.dquote +:+ directory +:+ Py.dquote
       +:+ ". This is necessary to ensure the correct permissions of the directory after cloning!")
    directory None.

(** [any(f.path.startswith(directory + "/") for f in files)] *)
Definition has_content (files : list FileEntry) (directory : string) : bool :=
  existsb (fun f => Py.startswith (path f) (directory +:+ "/")) files.

Section WithSetOrder.

(** The order in which Python iterates over the set built from a list of
    texts: some list without repetition that holds the same texts. *)
Variable set_order : list string -> list string.

(** [UmbrelLinter._validate_directory_structure] *)
Definition _validate_directory_structure (files : list FileEntry) : list LintingError :=
  let directories :=
    set_order (map path (filter (fun f => String.eqb (type f) "directory" = true) files)) in
  flat_map (fun directory =>
              if negb (has_content files directory)
              then [empty_directory_finding directory]
              else [])
    directories.

End WithSetOrder.

(** One possible iteration order: the order of first occurrence. *)
Fixpoint first_occurrences (l : list string) : list string :=
  match l with
  | [] => []
  | x :: rest =>
      x :: filter (fun y => negb (String.eqb x y) = true) (first_occurrences rest)
  end.

End Structure.

Module PortCollisions.
Import Models.

(** The findings of a list that carry a given identifier. *)
Definition has_id (i : string) (errs : list LintingError) : bool :=
  existsb (fun e => String.eqb (id e) i) errs.

(** A manifest text of the store that [_get_used_ports] records for a
    port: it loads to a non-empty mapping whose [id], [name] and [port] are
    truthy, the [id] is not the one of the application being linted, and
    [int(port)] is the port. *)
Definition declares_port (safe_load : string -> string + Py.value)
    (int_of_text : string -> option Z) (current_app_id content : string) (p : Z) : Prop :=
  exists d app_id name port,
    safe_load content = inr (Py.VDict d)
    /\ Py.dict_get d "id" = Some app_id
    /\ Py.dict_get d "name" = Some name
    /\ Py.dict_get d "port" = Some port
    /\ Py.truth app_id = true /\ Py.truth name = true /\ Py.truth port = true
    /\ Linter.differs app_id current_app_id = true
    /\ Linter.int_of_value int_of_text port = Some p.

(** Stand-ins for the runtime in the examples: a loader that knows the
    manifests of two applications, and a schema that accepts a mapping with
    an integer [port]. *)
Definition two_apps_load (content : string) : string + Py.value :=
  if String.eqb content "id: my-app, name: Mine, port: 3000"
  then inr (Py.VDict [("id", Py.VStr "my-app"); ("name", Py.VStr "Mine");
                      ("port", Py.VInt 3000)])
  else if String.eqb content "id: other-app, name: Other, port: 3000"
  then inr (Py.VDict [("id", Py.VStr "other-app"); ("name", Py.VStr "Other");
                      ("port", Py.VInt 3000)])
  else inl "could not find expected ':'".

Definition port_schema (data : Py.value) : string + Linter.Manifest :=
  match Py.get data "port" with
  | Py.Returned (Some (Py.VInt p)) => inr (Linter.mkManifest "" None None [] p)
  | _ => inl "1 validation error for UmbrelAppManifest"
  end.

End PortCollisions.

Module PortExamples.

(** A stand-in for the YAML loader that knows the manifests of two
    applications, written as flow mappings. *)
Definition flow_load (content : string) : string + Py.value :=
  if String.eqb content "{id: my-app, name: Mine, port: 3000}"
  then inr (Py.VDict [("id", Py.VStr "my-app"); ("name", Py.VStr "Mine");
                      ("port", Py.VInt 3000)])
  else if String.eqb content "{id: other-app, name: Other, port: 3000}"
  then inr (Py.VDict [("id", Py.VStr "other-app"); ("name", Py.VStr "Other");
                      ("port", Py.VInt 3000)])
  else inl "could not find expected ':'".

(** A context that supplies the manifest text of one other application. *)
Definition context_with_flow_manifest : Linter.LintingContext :=
  Linter.mkContext None Linter.COMMUNITY false None
    ["{id: other-app, name: Other, port: 3000}"].

End PortExamples.

(* ===================================================================== *)
(** * Further code of the image validator: references, registry traffic, manifests *)
(* ===================================================================== *)

Module ImageReference.
Import DockerImageValidator.

(** The last step of [DockerImage.from_string]: registry and path from the
    name, once the digest and the tag are split off. *)
Definition parse_name (name_part : string) (tag digest : option string) : DockerImage :=
  let parts := Py.split "/" name_part in
  match parts with
  | [p0] => mkImage "docker.io" ("library/" +:+ p0) tag digest
  | [p0; p1] =>
      if Py.has_char "." p0 || Py.has_char ":" p0
      then mkImage p0 p1 tag digest
      else mkImage "docker.io" (Py.join "/" parts) tag digest
  | _ => mkImage (hd "" parts) (Py.join "/" (tl parts)) tag digest
  end.

(** [f":{tag}"] and [f"@{digest}"] where the part is present. *)
Definition suffix (sep : ascii) (part : option string) : string :=
  match part with
  | Some t => String sep t
  | None => ""
  end.

End ImageReference.

Module RegistryTraffic.
Import DockerImageValidator.

(** The [GET https://host/v2/] requests for one host among the requests
    sent. *)
Definition is_probe_of (h : string) (r : Request) : bool :=
  match r with
  | GetV2 h' => String.eqb h' h
  | GetManifest _ => false
  end.

Definition probes (h : string) (reqs : list Request) : nat :=
  length (List.filter (is_probe_of h) reqs).

(** A client that has probed no host twice, no well-known host at all, and
    remembers the answer of every probe. *)
Definition probed_once (c : Client) : Prop :=
  forall h,
    (probes h (requests c) <= 1)%nat
    /\ (well_known h = true -> probes h (requests c) = 0%nat)
    /\ (_cache c !! h = None -> probes h (requests c) = 0%nat).

End RegistryTraffic.

Module Architectures.
Import DockerImageValidator.

(** The [platform] object of one entry of a manifest list, with the keys
    the code reads. *)
Record PlatformObject : Type := mkPlatformObject {
  platform_os : option string;
  platform_architecture : option string;
  platform_variant : option string
}.

(** One entry of the [manifests] array: its [platform] object, if any. *)
Record ManifestRef : Type := mkManifestRef {
  platform : option PlatformObject
}.

(** How the manifest request of [get_architectures] ends (after the token
    exchange, if there was one): [raise_for_status] raises for the status,
    anything else raises (transport error, body that is not JSON), or a
    manifest arrives with its [Content-Type] and its [manifests] array
    ([None] when the key is absent). *)
Inductive ManifestResponse : Type :=
| StatusError (status : Z) (reason_phrase : string)
| RequestError (e : string)
| ManifestBody (content_type : string) (manifests : option (list ManifestRef)).

(** [platform.get(key, default)] on [manifest_ref.get("platform", {})] *)
Definition platform_of (manifest_ref : ManifestRef) : Platform :=
  let p := default (mkPlatformObject None None None) (platform manifest_ref) in
  mkPlatform (default "linux" (platform_os p))
             (default "amd64" (platform_architecture p))
             (platform_variant p).

(** The truth value of [manifest.get("manifests")]. *)
Definition manifests_truthy (manifests : option (list ManifestRef)) : bool :=
  match manifests with
  | Some (_ :: _) => true
  | _ => false
  end.

(** [DockerRegistryClient.get_architectures], from the response on: the
    platforms, or the message of the exception raised. *)
Definition get_architectures (image : DockerImage) (response : ManifestResponse)
  : string + list Platform :=
  match response with
  | StatusError status reason_phrase =>
      inl (Py.str_of_int status +:+ " " +:+ reason_phrase)
  | RequestError e =>
      inl ("Failed to get architectures for " +:+ __str__ image +:+ ": " +:+ e)
  | ManifestBody content_type manifests =>
      if Py.contains "manifest.list" content_type
         || Py.contains "image.index" content_type
         || manifests_truthy manifests
      then inr (map platform_of (default [] manifests))
      else inr [mkPlatform "linux" "amd64" None]
  end.

End Architectures.

Module TrafficExamples.
Import DockerImageValidator.

(** A registry world in which every host answers [200] on [/v2/] and every
    image is built for both platforms. *)
Definition multi_platform : Registries :=
  mkRegistries (fun _ => Some (200, None))
    (fun _ => inr [mkPlatform "linux" "amd64" None; mkPlatform "linux" "arm64" (Some "v8")]).

Definition two_services : Py.value :=
  Py.VDict
    [("web", Py.VDict [("image", Py.VStr "registry.example.com/team/web:1.0")]);
     ("db", Py.VDict [("image", Py.VStr "registry.example.com/team/db:2.0")])].

End TrafficExamples.

Module FailingRegistry.
Import DockerImageValidator Architectures.
(** A registry world in which every manifest request times out. *)
Definition unreachable : Registries :=
  mkRegistries (fun _ => None)
    (fun image => get_architectures image (RequestError "timed out")).
End FailingRegistry.

(* ===================================================================== *)
(** * Languages of the patterns, and the texts they accept *)
(* ===================================================================== *)

Module RegexLanguage.
Import Regex.

(** The texts a pattern denotes. *)
Inductive lang : regex -> string -> Prop :=
| lang_Eps : lang Eps ""
| lang_Class (p : ascii -> bool) (c : ascii) :
    p c = true -> lang (Class p) (String c "")
| lang_Cat (r1 r2 : regex) (s1 s2 : string) :
    lang r1 s1 -> lang r2 s2 -> lang (Cat r1 r2) (s1 +:+ s2)
| lang_Alt_l (r1 r2 : regex) (s : string) : lang r1 s -> lang (Alt r1 r2) s
| lang_Alt_r (r1 r2 : regex) (s : string) : lang r2 s -> lang (Alt r1 r2) s
| lang_Star_nil (r : regex) : lang (Star r) ""
| lang_Star_cons (r : regex) (s1 s2 : string) :
    lang r s1 -> lang (Star r) s2 -> lang (Star r) (s1 +:+ s2).

(** Every character of a text satisfies [p]. *)
Definition all_chars (p : ascii -> bool) (s : string) : bool :=
  forallb p (list_ascii_of_string s).

End RegexLanguage.

Module StoreIds.
Import RegexLanguage.

(** A non-empty run of lower-case letters. *)
Definition lower_word (w : string) : Prop :=
  w <> "" /\ all_chars Py.is_lower w = true.

(** One or more such words, joined by dashes. *)
Definition dashed_words (v : string) : Prop :=
  exists words, words <> [] /\ Forall lower_word words /\ v = Py.join "-" words.

End StoreIds.

Module GitHubPaths.

(** What may follow the last segment of a path the patterns accept: an
    optional [/] (the [/?] of the pattern) and an optional line feed (let
    through by [$]). *)
Definition path_tail (t : string) : Prop :=
  t = "" \/ t = "/" \/ t = String Py.LF "" \/ t = String "/" (String Py.LF "").

(** The path [/owner/repo/pull/number] followed by [t]. *)
Definition pr_path (owner repo number t : string) : string :=
  String "/" (owner +:+ String "/" (repo +:+ String "/" ("pull" +:+ String "/" (number +:+ t)))).

(** The path [/owner/repo] followed by [t]. *)
Definition repo_path (owner repo t : string) : string :=
  String "/" (owner +:+ String "/" (repo +:+ t)).

(** A non-empty text without [/]. *)
Definition is_segment (s : string) : Prop :=
  s <> "" /\ Py.has_char "/" s = false.

End GitHubPaths.

Module ImageFormat.
Import Models DockerImageValidator.

(** The two format findings of [validate_images]. *)
Definition missing_digest_finding (app_id service_name image_string : string)
  : LintingError :=
  finding "invalid_docker_image_name" ERROR
    ("Invalid image name " +:+ Py.dquote +:+ image_string +:+ Py.dquote)
    ("Images must include an immutable digest: " +:+ Py.dquote
       +:+ "<name>:<version-tag>@sha256:<64-hex>" +:+ Py.dquote)
    (app_id +:+ "/docker-compose.yml")
    (Some ("services." +:+ service_name +:+ ".image")).

Definition latest_tag_finding (app_id service_name : string) : LintingError :=
  finding "invalid_docker_image_name" WARNING
    ("Invalid image tag " +:+ Py.dquote +:+ "latest" +:+ Py.dquote)
    ("Images should not use the " +:+ Py.dquote +:+ "latest" +:+ Py.dquote +:+ " tag")
    (app_id +:+ "/docker-compose.yml")
    (Some ("services." +:+ service_name +:+ ".image")).

End ImageFormat.

(* ===================================================================== *)
(** * cli/main.py and cli/fixer.py: display, exit status, grouping, tagline *)
(* ===================================================================== *)

Module Cli.
Import Models.

(** [error.severity.upper()] *)
Definition severity_upper (s : Severity) : string :=
  match s with
  | ERROR => "ERROR"
  | WARNING => "WARNING"
  | INFO => "INFO"
  end.

(** The log-level filter of the display functions. *)
Definition shown_at (log_level : Severity) (error : LintingError) : bool :=
  (Severity_eqb log_level ERROR && Severity_eqb (severity error) ERROR)
  || (Severity_eqb log_level WARNING
      && (Severity_eqb (severity error) ERROR || Severity_eqb (severity error) WARNING))
  || Severity_eqb log_level INFO.

(** What [_display_plain_output] prints for one finding, one text per call
    of [print]. *)
Definition plain_block (error : LintingError) : list string :=
  [severity_upper (severity error) +:+ ": " +:+ title error;
   "  File: " +:+ file error]
  ++ (if Py.truthy (properties_path error)
      then ["  Path: " +:+ default "" (properties_path error)]
      else [])
  ++ ["  Message: " +:+ message error]
  ++ match line error with
     | Some l =>
         ["  Line: " +:+ Py.str_of_int (line_start l) +:+ "-"
            +:+ Py.str_of_int (line_end l)]
     | None => []
     end
  ++ [""].

(** [_display_plain_output] *)
Definition _display_plain_output (result : LintingResult) (log_level : Severity)
  : list string :=
  if success result then ["No linting errors found!"]
  else flat_map plain_block (List.filter (shown_at log_level) (errors result)).

(** The exit status of the [lint] command once the report is there ([1]
    for [typer.Exit(1)], [0] for a normal return). *)
Definition exit_code (strict : bool) (result : LintingResult) : Z :=
  if has_errors result || (strict && has_warnings result) then 1 else 0.

(** [by_file.setdefault(err.file, []).append(err)] on a dictionary, which
    keeps its keys in the order of insertion. *)
Fixpoint setdefault_append (by_file : list (string * list LintingError))
    (key : string) (err : LintingError) : list (string * list LintingError) :=
  match by_file with
  | [] => [(key, [err])]
  | (k, errs) :: rest =>
      if String.eqb k key then (k, errs ++ [err]) :: rest
      else (k, errs) :: setdefault_append rest key err
  end.

(** The grouping of the findings by file at the head of [apply_fixes] (and,
    with the same outcome, in [_display_rich_output]). *)
Definition group_by_file (errs : list LintingError)
  : list (string * list LintingError) :=
  fold_left (fun by_file err => setdefault_append by_file (file err) err) errs [].

End Cli.

Module CliExamples.
Import Models Linter.

(** An application whose manifest is in order and whose compose file draws
    one warning. *)
Definition warned_app : AppDir :=
  mkAppDir "my-app" true (Present (Readable "id: my-app, name: Mine, port: 3000"))
    (Py.Returned
       [finding "invalid_restart_policy" WARNING "Invalid restart policy"
          "The restart policy of the container web should be set to on-failure."
          "my-app/docker-compose.yml" (Some "services.web.restart")])
    [].

End CliExamples.

Module Tagline.

(** [s.endswith(suffix)] *)
Fixpoint endswith (s suffix : string) : bool :=
  String.eqb s suffix
  || match s with
     | "" => false
     | String _ s' => endswith s' suffix
     end.

(** [s.count(c)] for a one-character [c]. *)
Fixpoint count (c : ascii) (s : string) : Z :=
  match s with
  | "" => 0
  | String a s' => (if Ascii.eqb a c then 1 else 0) + count c s'
  end.

(** [UmbrelAppManifest.validate_tagline] *)
Definition validate_tagline (v : string) : Py.result string :=
  if endswith v "." && (count "." v =? 1)
  then Py.Raised (Py.ValueError "Taglines should not end with a period")
  else Py.Returned v.

(** The rule [apply_fixes] applies to the text of the tagline: [if
    inner.endswith(".") and inner.count(".") == 1: inner = inner[:-1]]. *)
Definition fix_tagline (inner : string) : string :=
  if endswith inner "." && (count "." inner =? 1)
  then Py.slice inner 0 (-1)
  else inner.

End Tagline.

(* ===================================================================== *)
(** * validators/docker_compose_validator.py and the compose branch of cli/fixer.py; placeholder shapes *)
(* ===================================================================== *)

Module Compose.
Import Models.

(** [v.get(key, fallback)] *)
Definition get_or (v : Py.value) (key : string) (fallback : Py.value)
  : Py.result Py.value :=
  Py.bind (Py.get v key) (fun found => Py.Returned (default fallback found)).

(** [v.items()]: only a mapping has the attribute. *)
Definition items (v : Py.value) : Py.result (list (string * Py.value)) :=
  match v with
  | Py.VDict d => Py.Returned d
  | _ => Py.Raised (Py.AttributeError
                      ("'" +:+ Py.type_name v +:+ "' object has no attribute 'items'"))
  end.

(** A loop whose body appends findings to [errors]; an exception in the
    body leaves the function at once. *)
Fixpoint for_each {A : Type} (body : A -> Py.result (list LintingError)) (l : list A)
  : Py.result (list LintingError) :=
  match l with
  | [] => Py.Returned []
  | x :: rest =>
      Py.bind (body x) (fun errs =>
      Py.bind (for_each body rest) (fun errs' => Py.Returned (errs ++ errs')))
  end.

(** [restart != "on-failure"], negated. *)
Definition is_on_failure (restart : option Py.value) : bool :=
  match restart with
  | Some (Py.VStr s) => String.eqb s "on-failure"
  | _ => false
  end.

Definition restart_finding (app_id service_name : string) : LintingError :=
  finding "invalid_restart_policy" WARNING "Invalid restart policy"
    ("The restart policy of the container " +:+ Py.dquote +:+ service_name
       +:+ Py.dquote +:+ " should be set to " +:+ Py.dquote +:+ "on-failure"
       +:+ Py.dquote +:+ ".")
    (app_id +:+ "/docker-compose.yml")
    (Some ("services." +:+ service_name +:+ ".restart")).

(** The body of the loop of [_validate_restart_policies]. *)
Definition service_restart (app_id : string) (service : string * Py.value)
  : Py.result (list LintingError) :=
  let '(service_name, service_config) := service in
  if String.eqb service_name "app_proxy" then Py.Returned []
  else
    Py.bind (Py.get service_config "restart") (fun restart =>
    if negb (is_on_failure restart)
    then Py.Returned [restart_finding app_id service_name]
    else Py.Returned []).

(** [DockerComposeValidator._validate_restart_policies] *)
Definition _validate_restart_policies (data : Py.value) (app_id : string)
  : Py.result (list LintingError) :=
  Py.bind (get_or data "services" (Py.VDict [])) (fun services =>
  Py.bind (items services) (fun service_items =>
  for_each (service_restart app_id) service_items)).

(** [str(value)] for a boolean. *)
Definition str_of_bool (b : bool) : string := if b then "True" else "False".

Definition boolean_finding (app_id service_name section key : string) (value : bool)
  : LintingError :=
  finding "invalid_yaml_boolean_value" ERROR
    ("Invalid YAML boolean value for key " +:+ Py.dquote +:+ key +:+ Py.dquote)
    ("Boolean values should be strings like " +:+ Py.dquote
       +:+ Py.lower (str_of_bool value) +:+ Py.dquote +:+ " instead of "
       +:+ str_of_bool value)
    (app_id +:+ "/docker-compose.yml")
    (Some ("services." +:+ service_name +:+ "." +:+ section +:+ "." +:+ key)).

(** [if isinstance(section, dict): for key, value in section.items(): if
    isinstance(value, bool): ...] *)
Definition boolean_findings (app_id service_name section : string)
    (found : option Py.value) : list LintingError :=
  match found with
  | Some (Py.VDict d) =>
      flat_map (fun item =>
                  match snd item with
                  | Py.VBool b => [boolean_finding app_id service_name section (fst item) b]
                  | _ => []
                  end) d
  | _ => []
  end.

(** The body of the loop of [_validate_boolean_values]. *)
Definition service_booleans (app_id : string) (service : string * Py.value)
  : Py.result (list LintingError) :=
  let '(service_name, service_config) := service in
  Py.bind (Py.get service_config "environment") (fun env =>
  let errors1 := boolean_findings app_id service_name "environment" env in
  Py.bind (Py.get service_config "labels") (fun labels =>
  let errors2 := boolean_findings app_id service_name "labels" labels in
  Py.bind (Py.get service_config "extra_hosts") (fun extra_hosts =>
  let errors3 := boolean_findings app_id service_name "extra_hosts" extra_hosts in
  Py.Returned (errors1 ++ errors2 ++ errors3)))).

(** [DockerComposeValidator._validate_boolean_values] *)
Definition _validate_boolean_values (data : Py.value) (app_id : string)
  : Py.result (list LintingError) :=
  Py.bind (get_or data "services" (Py.VDict [])) (fun services =>
  Py.bind (items services) (fun service_items =>
  for_each (service_booleans app_id) service_items)).

End Compose.

Module Fixer.
Import Models Compose.

(** [d[key] = v]: the value of a key already there is replaced in place,
    a new key goes to the end. *)
Fixpoint dict_set (d : list (string * Py.value)) (key : string) (v : Py.value)
  : list (string * Py.value) :=
  match d with
  | [] => [(key, v)]
  | (k, v') :: rest =>
      if String.eqb k key then (k, v) :: rest else (k, v') :: dict_set rest key v
  end.

Definition is_bool (v : Py.value) : bool :=
  match v with Py.VBool _ => true | _ => false end.

(** [for k, v in list(kv.items()): if isinstance(v, bool): kv[k] =
    str(v).lower()], a mapping holding each key once: the mapping
    afterwards, and whether an assignment took place. *)
Definition quote_booleans (kv : list (string * Py.value))
  : list (string * Py.value) * bool :=
  (map (fun item =>
          match snd item with
          | Py.VBool b => (fst item, Py.VStr (Py.lower (str_of_bool b)))
          | _ => item
          end) kv,
   existsb (fun item => is_bool (snd item)) kv).

(** One round of [for key in ("environment", "labels", "extra_hosts")] on
    a service and the flag [changed]. *)
Definition fix_section (state : list (string * Py.value) * bool) (key : string)
  : list (string * Py.value) * bool :=
  let '(svc, changed) := state in
  match Py.dict_get svc key with
  | Some (Py.VDict kv) =>
      let '(kv', assigned) := quote_booleans kv in
      (dict_set svc key (Py.VDict kv'), changed || assigned)
  | _ => (svc, changed)
  end.

(** The body of the loop over the services in [apply_fixes], with
    [fix_secure] off. *)
Definition fix_service (svc_name : string) (svc : Py.value) (changed : bool)
  : Py.value * bool :=
  match svc with
  | Py.VDict d =>
      let '(d1, changed1) :=
        fold_left fix_section ["environment"; "labels"; "extra_hosts"] (d, changed) in
      if negb (String.eqb svc_name "app_proxy")
         && negb (is_on_failure (Py.dict_get d1 "restart"))
      then (Py.VDict (dict_set d1 "restart" (Py.VStr "on-failure")), true)
      else (Py.VDict d1, changed1)
  | _ => (svc, changed)
  end.

Fixpoint fix_services (service_items : list (string * Py.value)) (changed : bool)
  : list (string * Py.value) * bool :=
  match service_items with
  | [] => ([], changed)
  | (svc_name, svc) :: rest =>
      let '(svc', changed1) := fix_service svc_name svc changed in
      let '(rest', changed2) := fix_services rest changed1 in
      ((svc_name, svc') :: rest', changed2)
  end.

(** The docker-compose branch of [apply_fixes] with [fix_secure] off, from
    the loaded document on: the document afterwards and the flag [changed]
    (the file is rewritten from the document when the flag is set). *)
Definition fix_compose (loaded : Py.value) : Py.result (Py.value * bool) :=
  let data := if Py.truth loaded then loaded else Py.VDict [] in
  match data with
  | Py.VDict d =>
      match Py.dict_get d "services" with
      | Some services =>
          Py.bind (items services) (fun service_items =>
          let '(service_items', changed) := fix_services service_items false in
          Py.Returned (Py.VDict (dict_set d "services" (Py.VDict service_items')), changed))
      | None => Py.Returned (data, false)
      end
  | _ => Py.Returned (data, false)
  end.

End Fixer.

Module FixerAnalysis.
Import Models Compose Fixer.

(** A section that holds a boolean value. *)
Definition has_booleans (found : option Py.value) : bool :=
  match found with
  | Some (Py.VDict kv) => existsb (fun item => is_bool (snd item)) kv
  | _ => false
  end.

(** A service for which the two validators have something to report. *)
Definition needs_fix (svc_name : string) (d : list (string * Py.value)) : bool :=
  (negb (String.eqb svc_name "app_proxy")
   && negb (is_on_failure (Py.dict_get d "restart")))
  || has_booleans (Py.dict_get d "environment")
  || has_booleans (Py.dict_get d "labels")
  || has_booleans (Py.dict_get d "extra_hosts").

(** The same for an item of [services]. *)
Definition service_needs_fix (service : string * Py.value) : bool :=
  match snd service with
  | Py.VDict d => needs_fix (fst service) d
  | _ => false
  end.

(** A document the fixer can be shown at work on. *)
Definition sample_compose : Py.value :=
  Py.VDict
    [("version", Py.VStr "3.7");
     ("services",
      Py.VDict
        [("app_proxy", Py.VDict [("environment", Py.VDict [("APP_HOST", Py.VStr "web")])]);
         ("web",
          Py.VDict [("image", Py.VStr "nginx");
                    ("restart", Py.VStr "always");
                    ("environment", Py.VDict [("DEBUG", Py.VBool true)])])])].

End FixerAnalysis.

Module MockerAnalysis.
Import VariableMocker.

(** A [$] directly followed by a name character occurs in the text: the
    form [$NAME] of a placeholder. *)
Fixpoint has_bare_placeholder (s : string) : bool :=
  match s with
  | "" => false
  | String c s' =>
      (Ascii.eqb c "$" && match s' with
                          | String b _ => name_char b
                          | "" => false
                          end)
      || has_bare_placeholder s'
  end.

(** A text that begins with a name character. *)
Definition starts_with_name_char (v : string) : bool :=
  match v with
  | String b _ => name_char b
  | "" => false
  end.

End MockerAnalysis.

Module MockerShapes.
Import VariableMocker.

(** A text that can follow a bare placeholder without joining it: it is
    empty, or begins with a character that is neither a name character nor
    an opening brace. *)
Definition ends_name (after : string) : bool :=
  match after with
  | "" => true
  | String e _ => negb (name_char e) && negb (Ascii.eqb e "{")
  end.

End MockerShapes.

(* ===================================================================== *)
(** * The tip of the lint command; a sample store *)
(* ===================================================================== *)

Module CliTip.
Import Models.

(** [fixable_ids] of the [lint] command. *)
Definition fixable_ids : list string :=
  ["empty_app_data_directory"; "missing_file_or_directory";
   "invalid_yaml_boolean_value"; "invalid_restart_policy";
   "invalid_tagline"; "invalid_container_user"].

(** [any(err.id in fixable_ids for err in result.errors)]: whether the
    tip about [--fix] is printed. *)
Definition tip_shown (errs : list LintingError) : bool :=
  existsb (fun err => existsb (String.eqb (id err)) fixable_ids) errs.

(** The identifiers under which the manifest of an application is
    reported. *)
Definition manifest_ids : list string :=
  ["missing_umbrel_app_yml"; "file_read_error"; "invalid_yaml_syntax";
   "invalid_submission_field"; "invalid_repo_url"; "schema_validation_error";
   "filled_out_release_notes_on_first_submission";
   "filled_out_icon_or_gallery_on_first_submission"; "duplicate_ui_port"].

Definition id_within (allowed : list string) (err : LintingError) : bool :=
  existsb (String.eqb (id err)) allowed.

End CliTip.

Module StoreExamples.
Import Models Linter.

(** A community store with a README, a hidden directory, a directory
    without manifest and one application. *)
Definition small_store : StoreDir :=
  mkStoreDir false (mkAppDir "store" true Missing (Py.Returned []) [])
    "store/umbrel-app-store.yml" Missing true
    [mkEntry true true (mkAppDir ".git" true Missing (Py.Returned []) []);
     mkEntry true false (mkAppDir "docs" true Missing (Py.Returned []) []);
     mkEntry true true sample_app].

End StoreExamples.

(* ===================================================================== *)
(** * validate_docker_compose and the registry challenge *)
(* ===================================================================== *)

Module ComposeDocument.
Import Models VariableMocker DockerImageValidator Compose.

Section WithValidators.

(** [yaml.safe_load], [str()] of a list or mapping, and the message of the
    exception [DockerImage.from_string] raises on a value that is not a
    text. *)
Variable safe_load : string -> string + Py.value.
Variable repr_container : Py.value -> string.
Variable from_string_error : Py.value -> string.

(** The validators of the class that are not modelled here: the schema
    check, which catches its own exception, and four validators by their
    outcome. *)
Variable _validate_schema : Py.value -> string -> list LintingError.
Variable _validate_volume_mounts :
  Py.value -> string -> list Structure.FileEntry -> Py.result (list LintingError).
Variable _validate_security_settings : Py.value -> string -> Py.result (list LintingError).
Variable _validate_port_mappings : Py.value -> string -> Py.result (list LintingError).
Variable _validate_app_proxy_configuration :
  Py.value -> string -> Py.result (list LintingError).

(** [DockerComposeValidator.validate_docker_compose] *)
Definition validate_docker_compose (net : Registries) (content app_id : string)
    (files : list Structure.FileEntry) (check_image_architectures : bool)
    (g : Random) (client : Client)
  : Py.result (list LintingError) * Random * Client :=
  let filename := app_id +:+ "/docker-compose.yml" in
  let (mocked_content, g') := mock_variables content g in
  match Linter.parse_yaml_with_error_handling safe_load content filename with
  | inl parse_error => (Py.Returned [parse_error], g', client)
  | inr data =>
      match Linter.parse_yaml_with_error_handling safe_load mocked_content filename with
      | inl mocked_parse_error => (Py.Returned [mocked_parse_error], g', client)
      | inr mocked_data =>
          let schema_errors := _validate_schema mocked_data app_id in
          match get_or data "services" (Py.VDict []) with
          | Py.Raised e => (Py.Raised e, g', client)
          | Py.Returned services =>
              let (image_outcome, client') :=
                validate_images repr_container from_string_error net services app_id
                  check_image_architectures client in
              (Py.bind image_outcome (fun image_errors =>
               Py.bind (_validate_boolean_values mocked_data app_id) (fun boolean_errors =>
               Py.bind (_validate_volume_mounts data app_id files) (fun volume_errors =>
               Py.bind (_validate_security_settings mocked_data app_id) (fun security_errors =>
               Py.bind (_validate_port_mappings mocked_data app_id) (fun port_errors =>
               Py.bind (_validate_app_proxy_configuration mocked_data app_id) (fun proxy_errors =>
               Py.bind (_validate_restart_policies mocked_data app_id) (fun restart_errors =>
               Py.Returned
                 (schema_errors ++ image_errors ++ boolean_errors ++ volume_errors
                    ++ security_errors ++ port_errors ++ proxy_errors
                    ++ restart_errors)))))))),
               g', client')
          end
      end
  end.

(** [UmbrelLinter._validate_docker_compose] *)
Definition _validate_docker_compose (net : Registries) (compose_file : Linter.FileState)
    (app_id : string) (files : list Structure.FileEntry)
    (check_image_architectures : bool) (g : Random) (client : Client)
  : Py.result (list LintingError) * Random * Client :=
  let file := app_id +:+ "/docker-compose.yml" in
  match compose_file with
  | Linter.Missing =>
      (Py.Returned
         [finding "missing_docker_compose_yml" ERROR "docker-compose.yml does not exist"
            ("Every app needs a docker compose file called " +:+ Py.dquote
               +:+ "docker-compose.yml" +:+ Py.dquote
               +:+ " at the root of the app directory")
            file None], g, client)
  | Linter.Present (Linter.Unreadable e) =>
      (Py.Returned
         [finding "file_read_error" ERROR "Failed to read docker-compose.yml" e file None],
       g, client)
  | Linter.Present (Linter.Readable content) =>
      validate_docker_compose net content app_id files check_image_architectures g client
  end.

End WithValidators.

End ComposeDocument.

Module WwwAuthenticate.

(** [s.split(c, 1)] when [c] occurs in [s]: the texts before and after the
    first occurrence, [None] when it does not occur. *)
Fixpoint split1 (c : ascii) (s : string) : option (string * string) :=
  match s with
  | "" => None
  | String a s' =>
      if Ascii.eqb a c then Some ("", s')
      else match split1 c s' with
           | Some (l, r) => Some (String a l, r)
           | None => None
           end
  end.

(** [s.strip(c)] for a one-character [c]. *)
Fixpoint lstrip_char (c : ascii) (s : string) : string :=
  match s with
  | "" => ""
  | String a s' => if Ascii.eqb a c then lstrip_char c s' else s
  end.

Fixpoint rstrip_char (c : ascii) (s : string) : string :=
  match s with
  | "" => ""
  | String a s' =>
      match rstrip_char c s' with
      | "" => if Ascii.eqb a c then "" else String a ""
      | r => String a r
      end
  end.

Definition strip_char (c : ascii) (s : string) : string :=
  rstrip_char c (lstrip_char c s).

(** The body of the loop over the items of the challenge. *)
Definition parse_item (params : gmap string string) (item : string)
  : gmap string string :=
  match split1 "=" item with
  | Some (k, v) => <[Py.strip k := strip_char "034" (Py.strip v)]> params
  | None => params
  end.

(** [DockerRegistryClient._parse_www_authenticate] *)
Definition _parse_www_authenticate (header : string) : gmap string string :=
  if negb (Py.nonempty header) then ∅
  else
    match split1 " " header with
    | Some (_, rest) => fold_left parse_item (Py.split "," rest) ∅
    | None => ∅
    end.

(** The text [key="value"] of one parameter of a challenge. *)
Definition parameter_text (parameter : string * string) : string :=
  fst parameter +:+ String "=" (String "034" (snd parameter +:+ String "034" "")).

(** A parameter the parser reads back as it is: the key has no comma, no
    equals sign and no white space around it, the value no comma and no
    double quote. *)
Definition plain_parameter (parameter : string * string) : Prop :=
  Py.has_char "," (fst parameter) = false
  /\ Py.has_char "=" (fst parameter) = false
  /\ Py.strip (fst parameter) = fst parameter
  /\ Py.has_char "," (snd parameter) = false
  /\ Py.has_char "034" (snd parameter) = false.

End WwwAuthenticate.

(* ===================================================================== *)
(** * Proof automation *)
(* ===================================================================== *)

(** Splits the goal along the keyword tests of [find_mock], first to last. *)
Ltac keyword_cases name :=
  repeat match goal with
         | |- context [Py.contains ?k name] =>
             let E := fresh "E" in destruct (Py.contains k name) eqn:E
         end.

(* ===================================================================== *)
(** * Properties of the report ([core/models.py]) *)
(* ===================================================================== *)

Section ReportFacts.
Import Models.

Lemma Severity_eqb_eq (a b : Severity) : Severity_eqb a b = true <-> a = b.
Proof. destruct a, b; simpl; split; congruence. Qed.

(** One insertion appends the finding and leaves the earlier ones alone. *)
Lemma add_error_errors (r : LintingResult) (e : LintingError) :
  errors (add_error r e) = errors r ++ [e].
Proof. unfold add_error. destruct (severity e); reflexivity. Qed.

Lemma add_error_success (r : LintingResult) (e : LintingError) :
  success (add_error r e) = success r && negb (Severity_eqb (severity e) ERROR).
Proof.
  unfold add_error. destruct (severity e); simpl;
    rewrite ?andb_true_r, ?andb_false_r; reflexivity.
Qed.

Lemma add_errors_errors (l : list LintingError) (r : LintingResult) :
  errors (add_errors r l) = errors r ++ l.
Proof.
  unfold add_errors. revert r.
  induction l as [|e l IH]; intros r; simpl.
  - now rewrite app_nil_r.
  - rewrite IH, add_error_errors, <- app_assoc. reflexivity.
Qed.

Lemma add_errors_success (l : list LintingError) (r : LintingResult) :
  success (add_errors r l) = success r && negb (has_severity ERROR l).
Proof.
  unfold add_errors. revert r.
  induction l as [|e l IH]; intros r; simpl.
  - now rewrite andb_true_r.
  - rewrite IH, add_error_success, negb_orb, andb_assoc. reflexivity.
Qed.

Lemma count_severity_cons (sev : Severity) (e : LintingError) (l : list LintingError) :
  count_severity sev (e :: l)
  = (if Severity_eqb (severity e) sev then 1 else 0) + count_severity sev l.
Proof.
  unfold count_severity. rewrite filter_cons.
  destruct (decide (Severity_eqb (severity e) sev = true)) as [H|H].
  - rewrite H. simpl length. lia.
  - apply not_true_is_false in H. rewrite H. lia.
Qed.

Lemma count_severity_app (sev : Severity) (l1 l2 : list LintingError) :
  count_severity sev (l1 ++ l2) = count_severity sev l1 + count_severity sev l2.
Proof.
  induction l1 as [|e l1 IH]; simpl app.
  - unfold count_severity at 2. simpl. lia.
  - rewrite !count_severity_cons, IH. lia.
Qed.

(** The three counters after a run of insertions. *)
Lemma add_errors_counters (l : list LintingError) (r : LintingResult) :
  total_errors (add_errors r l) = total_errors r + count_severity ERROR l
  /\ total_warnings (add_errors r l) = total_warnings r + count_severity WARNING l
  /\ total_info (add_errors r l) = total_info r + count_severity INFO l.
Proof.
  unfold add_errors. revert r.
  induction l as [|e l IH]; intros r.
  - simpl. unfold count_severity. simpl. lia.
  - simpl fold_left. destruct (IH (add_error r e)) as (He & Hw & Hi).
    rewrite He, Hw, Hi, !count_severity_cons.
    unfold add_error. destruct (severity e); simpl; lia.
Qed.

Lemma has_severity_Exists (sev : Severity) (l : list LintingError) :
  has_severity sev l = true <-> (exists e, In e l /\ severity e = sev).
Proof.
  unfold has_severity. rewrite existsb_exists.
  split; intros (e & Hin & He); exists e; split; auto; now apply Severity_eqb_eq.
Qed.

Lemma has_severity_app (sev : Severity) (l1 l2 : list LintingError) :
  has_severity sev (l1 ++ l2) = has_severity sev l1 || has_severity sev l2.
Proof. apply existsb_app. Qed.

(** Insertions keep the invariant of the report. *)
Lemma add_errors_consistent (l : list LintingError) (r : LintingResult) :
  flag_consistent r -> counters_consistent r ->
  flag_consistent (add_errors r l) /\ counters_consistent (add_errors r l).
Proof.
  unfold flag_consistent, counters_consistent. intros Hf (He & Hw & Hi).
  destruct (add_errors_counters l r) as (He' & Hw' & Hi').
  rewrite add_errors_errors, add_errors_success, He', Hw', Hi'.
  rewrite has_severity_app, !count_severity_app, negb_orb, Hf, He, Hw, Hi.
  auto.
Qed.

Lemma empty_result_consistent :
  flag_consistent empty_result /\ counters_consistent empty_result.
Proof. unfold flag_consistent, counters_consistent. simpl. auto. Qed.

(** C2.  A report built from the empty report by inserting findings one
    at a time with [add_error], in whatever order, has [success = false]
    exactly when one of the inserted findings has severity [ERROR]; in
    particular the flag is the same for every ordering of the findings. *)
Theorem success_false_iff_error_inserted (l : list LintingError) :
  (success (add_errors empty_result l) = false
     <-> exists e, In e l /\ severity e = ERROR)
  /\ (forall l', Permutation l l' ->
        success (add_errors empty_result l') = success (add_errors empty_result l)).
Proof.
  assert (Hiff : forall k, success (add_errors empty_result k) = false
                           <-> exists e, In e k /\ severity e = ERROR).
  { intros k. rewrite add_errors_success, <- has_severity_Exists. simpl.
    destruct (has_severity ERROR k); simpl; split; congruence. }
  split; [apply Hiff|].
  intros l' Hperm.
  destruct (success (add_errors empty_result l)) eqn:Hl;
    destruct (success (add_errors empty_result l')) eqn:Hl'; try reflexivity.
  - apply Hiff in Hl' as (e & Hin & He).
    assert (Hfalse : success (add_errors empty_result l) = false).
    { apply Hiff. exists e. split; [|exact He].
      eapply Permutation_in; [symmetry; exact Hperm | exact Hin]. }
    congruence.
  - apply Hiff in Hl as (e & Hin & He).
    assert (Hfalse : success (add_errors empty_result l') = false).
    { apply Hiff. exists e. split; [|exact He].
      eapply Permutation_in; [exact Hperm | exact Hin]. }
    congruence.
Qed.

(** The theorem at work on a warning followed by an error, and on the
    two in the other order. *)
Lemma success_false_iff_error_inserted_witness :
  let warning := finding "missing_readme" WARNING "README.md does not exist" "" "README.md" None in
  let error := finding "missing_docker_compose_yml" ERROR "docker-compose.yml does not exist" ""
                 "app/docker-compose.yml" None in
  success (add_errors empty_result [warning; error]) = false
  /\ success (add_errors empty_result [error; warning])
     = success (add_errors empty_result [warning; error])
  /\ success (add_errors empty_result [warning]) = true.
Proof.
  intros warning error. split; [|split].
  - apply (proj1 (success_false_iff_error_inserted [warning; error])).
    exists error. split; [right; left|]; reflexivity.
  - apply (proj2 (success_false_iff_error_inserted [warning; error])).
    apply perm_swap.
  - reflexivity.
Defined.

End ReportFacts.

(* ===================================================================== *)
(** * Properties of the variable mocker *)
(* ===================================================================== *)

Section MockerFacts.
Import VariableMocker.

Lemma randint_same_draws (lo hi : Z) (g1 g2 : Random) :
  same_draws g1 g2 ->
  fst (randint lo hi g1) = fst (randint lo hi g2)
  /\ same_draws (snd (randint lo hi g1)) (snd (randint lo hi g2)).
Proof.
  intros H. unfold randint. simpl. split.
  - pose proof (H O) as H0. rewrite !Nat.add_0_r in H0. now rewrite H0.
  - intros n. simpl. specialize (H (S n)).
    now rewrite !Nat.add_succ_r in H.
Qed.

Lemma randint_range (g : Random) :
  1024 <= fst (randint 1024 65535 g) <= 65535.
Proof.
  unfold randint. cbn [fst].
  change (65535 - 1024 + 1) with 64512.
  pose proof (Z.mod_pos_bound (draws g (position g)) 64512 ltac:(lia)). lia.
Qed.

Lemma find_mock_same_draws (name : string) (g1 g2 : Random) :
  same_draws g1 g2 ->
  fst (find_mock name g1) = fst (find_mock name g2)
  /\ same_draws (snd (find_mock name g1)) (snd (find_mock name g2)).
Proof.
  intros H. unfold find_mock.
  destruct (Py.contains "_IP" name); [now split|].
  destruct (Py.contains "_PORT" name).
  - destruct (randint_same_draws 1024 65535 g1 g2 H) as [Hv Hg].
    destruct (randint 1024 65535 g1), (randint 1024 65535 g2).
    simpl in *. subst. now split.
  - keyword_cases name; now split.
Qed.

Lemma find_mock_fixed (name : string) (g g' : Random) :
  selects_port name = false ->
  snd (find_mock name g) = g /\ fst (find_mock name g) = fst (find_mock name g').
Proof.
  unfold selects_port, find_mock. intros H.
  destruct (Py.contains "_IP" name); [now split|].
  destruct (Py.contains "_PORT" name); [discriminate|].
  keyword_cases name; now split.
Qed.

Lemma _find_mocks_same_draws (vars : list MockVar) (g1 g2 : Random) :
  same_draws g1 g2 ->
  fst (_find_mocks vars g1) = fst (_find_mocks vars g2).
Proof.
  revert g1 g2. induction vars as [|v vars IH]; intros g1 g2 H; [reflexivity|].
  simpl. destruct (find_mock_same_draws (variable v) g1 g2 H) as [Hm Hg].
  destruct (find_mock (variable v) g1) as [m1 h1].
  destruct (find_mock (variable v) g2) as [m2 h2]. simpl in Hm, Hg. subst m2.
  specialize (IH h1 h2 Hg).
  destruct (_find_mocks vars h1), (_find_mocks vars h2). simpl in *. now subst.
Qed.

Lemma _find_mocks_fixed (vars : list MockVar) (g g' : Random) :
  forallb (fun v => negb (selects_port (variable v))) vars = true ->
  fst (_find_mocks vars g) = fst (_find_mocks vars g').
Proof.
  revert g g'. induction vars as [|v vars IH]; intros g g' H; [reflexivity|].
  simpl in H. apply andb_prop in H as [Hv Hrest]. apply negb_true_iff in Hv.
  simpl.
  destruct (find_mock_fixed (variable v) g g' Hv) as [Hg Hm].
  destruct (find_mock_fixed (variable v) g' g Hv) as [Hg' _].
  destruct (find_mock (variable v) g) as [m1 h1].
  destruct (find_mock (variable v) g') as [m2 h2]. simpl in *. subst.
  specialize (IH g g' Hrest).
  destruct (_find_mocks vars g), (_find_mocks vars g'). simpl in *. now subst.
Qed.

Lemma mock_variables_fst (content : string) (g : Random) :
  fst (mock_variables content g)
  = _replace_variables content (fst (_find_mocks (_extract_variables content) g)).
Proof.
  unfold mock_variables. now destruct (_find_mocks (_extract_variables content) g).
Qed.

(** C4 (as amended).  The output of [mock_variables] is determined by the
    input text together with the draws of the pseudo-random generator:
    generators that hand out the same draws give byte-identical output,
    and when no placeholder name of the text takes the [_PORT] branch the
    output is the same for all generators.  A name that takes the [_PORT]
    branch is mocked by the decimal text of one draw of
    [random.randint(1024, 65535)]. *)
Theorem mock_determined_by_text_and_draws (content : string) (g1 g2 : Random) :
  (same_draws g1 g2 ->
     fst (mock_variables content g1) = fst (mock_variables content g2))
  /\ (forallb (fun v => negb (selects_port (variable v)))
        (_extract_variables content) = true ->
      fst (mock_variables content g1) = fst (mock_variables content g2))
  /\ (forall name,
        selects_port name = true ->
        find_mock name g1
        = (Py.str_of_int (fst (randint 1024 65535 g1)), snd (randint 1024 65535 g1))
        /\ 1024 <= fst (randint 1024 65535 g1) <= 65535).
Proof.
  rewrite !mock_variables_fst. split; [|split].
  - intros H. now rewrite (_find_mocks_same_draws _ g1 g2 H).
  - intros H. now rewrite (_find_mocks_fixed _ g1 g2 H).
  - intros name H. split; [|apply randint_range].
    unfold selects_port in H. apply andb_prop in H as [Hip Hport].
    apply negb_true_iff in Hip. unfold find_mock. rewrite Hip, Hport.
    now destruct (randint 1024 65535 g1).
Qed.

(** The theorem at work on [host: $APP_HOST], which draws nothing. *)
Lemma mock_determined_by_text_and_draws_witness :
  fst (mock_variables "host: $APP_HOST" (mkRandom (fun _ => 0) 0))
  = fst (mock_variables "host: $APP_HOST" (mkRandom (fun _ => 1) 0)).
Proof.
  apply (proj1 (proj2 (mock_determined_by_text_and_draws "host: $APP_HOST"
                         (mkRandom (fun _ => 0) 0) (mkRandom (fun _ => 1) 0)))).
  vm_compute. reflexivity.
Defined.

(** C4 (as stated) fails: on the text [$APP_PORT] two evaluations whose
    generators draw differently return different outputs. *)
Lemma mock_port_varies_with_draw :
  fst (mock_variables "$APP_PORT" (mkRandom (fun _ => 0) 0)) = "1024"
  /\ fst (mock_variables "$APP_PORT" (mkRandom (fun _ => 1) 0)) = "1025"
  /\ ~ (forall content g1 g2,
          fst (mock_variables content g1) = fst (mock_variables content g2)).
Proof.
  assert (H0 : fst (mock_variables "$APP_PORT" (mkRandom (fun _ => 0) 0)) = "1024")
    by (vm_compute; reflexivity).
  assert (H1 : fst (mock_variables "$APP_PORT" (mkRandom (fun _ => 1) 0)) = "1025")
    by (vm_compute; reflexivity).
  split; [exact H0 | split; [exact H1 |]].
  intros H.
  specialize (H "$APP_PORT" (mkRandom (fun _ => 0) 0) (mkRandom (fun _ => 1) 0)).
  rewrite H0, H1 in H. discriminate.
Qed.

(** The [if]/[elif] chain is the first-match lookup in [keyword_table]. *)
Lemma find_mock_first_keyword (name : string) (g : Random) :
  find_mock name g
  = match first_keyword keyword_table name with
    | Some (_, Some fixed) => (fixed, g)
    | Some (_, None) =>
        (Py.str_of_int (fst (randint 1024 65535 g)), snd (randint 1024 65535 g))
    | None => ("mocked", g)
    end.
Proof.
  unfold find_mock, keyword_table, first_keyword.
  keyword_cases name; try reflexivity.
Qed.

(** C5 (as amended).  The keyword tests run in the order of
    [keyword_table]: [_IP], [_PORT], [_PASS], [_USER], [_DIR], [_PATH],
    [_SERVICE], [_SEED], [_CONFIG], [_MODE], [_NETWORK], [_DOMAIN], [_NAME],
    [_VERSION], [_ROOT], [_KEY], [_SECRET], [_TOKEN], [_HOST].  So a
    variable name that contains both [_HOST] and [_NAME] and none of the
    keywords tested before [_NAME] is mocked by the [_NAME] token, not by
    the [_HOST] token. *)
Theorem host_and_name_mocked_as_name (name : string) (g : Random) :
  Py.contains "_HOST" name = true ->
  Py.contains "_NAME" name = true ->
  none_of before_name name = true ->
  first_keyword keyword_table name = Some ("_NAME", Some "name")
  /\ find_mock name g = ("name", g)
  /\ (forall other g',
        find_mock other g'
        = match first_keyword keyword_table other with
          | Some (_, Some fixed) => (fixed, g')
          | Some (_, None) =>
              (Py.str_of_int (fst (randint 1024 65535 g')),
               snd (randint 1024 65535 g'))
          | None => ("mocked", g')
          end).
Proof.
  intros Hhost Hname Hnone.
  assert (Hk : first_keyword keyword_table name = Some ("_NAME", Some "name")).
  { unfold none_of, before_name in Hnone. simpl in Hnone.
    repeat (apply andb_prop in Hnone as [?%negb_true_iff Hnone]).
    unfold keyword_table, first_keyword.
    repeat match goal with H : Py.contains _ name = _ |- _ => rewrite H; clear H end.
    reflexivity. }
  split; [exact Hk|]. split; [now rewrite find_mock_first_keyword, Hk|].
  intros other g'. apply find_mock_first_keyword.
Qed.

(** The theorem at work on [APP_HOST_NAME]. *)
Lemma host_and_name_mocked_as_name_witness :
  find_mock "APP_HOST_NAME" (mkRandom (fun _ => 0) 0)
  = ("name", mkRandom (fun _ => 0) 0).
Proof.
  apply (host_and_name_mocked_as_name "APP_HOST_NAME" (mkRandom (fun _ => 0) 0));
    vm_compute; reflexivity.
Defined.

(** C5 (as stated) fails: [APP_HOST_NAME] contains [_HOST] and [_NAME] and
    none of the keywords listed before [_HOST], and is not mocked by the
    [_HOST] token. *)
Lemma host_token_not_chosen :
  Py.contains "_HOST" "APP_HOST_NAME" = true
  /\ Py.contains "_NAME" "APP_HOST_NAME" = true
  /\ none_of listed_before_host "APP_HOST_NAME" = true
  /\ fst (find_mock "APP_HOST_NAME" (mkRandom (fun _ => 0) 0)) = "name"
  /\ ~ (forall name g,
          Py.contains "_HOST" name = true ->
          Py.contains "_NAME" name = true ->
          none_of listed_before_host name = true ->
          fst (find_mock name g) = "host").
Proof.
  do 4 (split; [vm_compute; reflexivity |]).
  intros H.
  specialize (H "APP_HOST_NAME" (mkRandom (fun _ => 0) 0)
                ltac:(vm_compute; reflexivity) ltac:(vm_compute; reflexivity)
                ltac:(vm_compute; reflexivity)).
  vm_compute in H. discriminate.
Qed.

(** [take_name] splits off a run of name characters. *)
Lemma take_name_spec (s v r : string) :
  take_name s = (v, r) ->
  s = v +:+ r /\ forallb name_char (list_ascii_of_string v) = true.
Proof.
  revert v r. induction s as [|c s IH]; intros v r H; simpl in H.
  - inversion H. now split.
  - destruct (name_char c) eqn:Ec.
    + destruct (take_name s) as [v' r'] eqn:Et. inversion H; subst.
      destruct (IH v' r eq_refl) as [-> Hv]. split; [reflexivity|].
      simpl. now rewrite Ec.
    + inversion H. now split.
Qed.

(** A run of name characters followed by another character is taken whole. *)
Lemma take_name_run (name : string) (e : ascii) (rest : string) :
  forallb name_char (list_ascii_of_string name) = true ->
  name_char e = false ->
  take_name (name +:+ String e rest) = (name, String e rest).
Proof.
  intros Hname He. induction name as [|a name IH].
  - simpl. now rewrite He.
  - simpl in Hname. apply andb_prop in Hname as [Ha Hname].
    change (String a name +:+ String e rest) with (String a (name +:+ String e rest)).
    simpl. now rewrite Ha, (IH Hname).
Qed.

Lemma take_name_head (c : ascii) (s : string) :
  name_char c = true -> exists v, fst (take_name (String c s)) = String c v.
Proof.
  intros H. simpl. rewrite H. destruct (take_name s) as [v r]. now exists v.
Qed.

(** A match of the pattern at the head of a text is an occurrence there. *)
Lemma match_here_occurs (t : string) :
  is_Some (match_here t) ->
  exists name after,
    is_name name
    /\ (t = "$" +:+ name +:+ after \/ t = "${" +:+ name +:+ "}" +:+ after).
Proof.
  intros [x Hx]. unfold match_here in Hx.
  destruct t as [|c s1]; [discriminate|].
  destruct (Ascii.eqb_spec c "$") as [->|]; [simpl in Hx|discriminate].
  destruct (take_name s1) as [v1 r1] eqn:E1. simpl in Hx.
  destruct (take_name_spec _ _ _ E1) as [Hs1 Hv1].
  destruct v1 as [|a v1].
  - destruct s1 as [|b s2]; [discriminate|].
    destruct (Ascii.eqb_spec b "{") as [->|]; [simpl in Hx|discriminate].
    destruct (take_name s2) as [v2 r2] eqn:E2.
    destruct (take_name_spec _ _ _ E2) as [Hs2 Hv2].
    destruct v2 as [|a2 v2]; [discriminate|].
    destruct r2 as [|e r3]; [discriminate|].
    destruct (Ascii.eqb_spec e "}") as [->|]; [|discriminate].
    exists (String a2 v2), r3. split; [split; [discriminate | exact Hv2]|].
    right. rewrite Hs2. reflexivity.
  - exists (String a v1), r1. split; [split; [discriminate | exact Hv1]|].
    left. rewrite Hs1. reflexivity.
Qed.

Lemma match_here_dollar (name after : string) :
  is_name name -> is_Some (match_here ("$" +:+ name +:+ after)).
Proof.
  intros [Hne Hname]. destruct name as [|a name]; [congruence|].
  simpl in Hname. apply andb_prop in Hname as [Ha _].
  change ("$" +:+ String a name +:+ after) with (String "$" (String a (name +:+ after))).
  unfold match_here. cbn [Ascii.eqb negb].
  destruct (take_name_head a (name +:+ after) Ha) as [v ->].
  change (negb (Ascii.eqb "$" "$")) with false. cbn iota. now eexists.
Qed.

Lemma match_here_brace (name after : string) :
  is_name name -> is_Some (match_here ("${" +:+ name +:+ "}" +:+ after)).
Proof.
  intros [Hne Hname].
  change ("${" +:+ name +:+ "}" +:+ after)
    with (String "$" (String "{" (name +:+ String "}" after))).
  unfold match_here.
  change (negb (Ascii.eqb "$" "$")) with false. cbn iota.
  change (fst (take_name (String "{" (name +:+ String "}" after)))) with "".
  cbn iota.
  change (negb (Ascii.eqb "{" "{")) with false. cbn iota.
  rewrite (take_name_run name "}" after Hname eq_refl).
  destruct name as [|a name]; [congruence|].
  change (Ascii.eqb "}" "}") with true. cbn iota. now eexists.
Qed.

Lemma has_placeholder_cons (c : ascii) (s : string) :
  has_placeholder (String c s)
  = match match_here (String c s) with
    | Some _ => true
    | None => has_placeholder s
    end.
Proof. reflexivity. Qed.

Lemma has_placeholder_suffix (before t : string) :
  has_placeholder t = true -> has_placeholder (before +:+ t) = true.
Proof.
  intros H. induction before as [|c before IH]; [exact H|].
  change (String c before +:+ t) with (String c (before +:+ t)).
  rewrite has_placeholder_cons. now destruct (match_here _).
Qed.

Lemma has_placeholder_here (t : string) :
  is_Some (match_here t) -> has_placeholder t = true.
Proof.
  intros [x Hx]. destruct t as [|c t]; [discriminate|].
  now rewrite has_placeholder_cons, Hx.
Qed.

(** [has_placeholder] decides whether a placeholder occurs in the text. *)
Lemma has_placeholder_spec (s : string) :
  has_placeholder s = true <-> placeholder_occurs s.
Proof.
  split.
  - induction s as [|c s IH]; [discriminate|].
    rewrite has_placeholder_cons.
    destruct (match_here (String c s)) as [x|] eqn:Hm.
    + intros _.
      destruct (match_here_occurs (String c s)) as (name & after & Hn & Hs);
        [rewrite Hm; now eexists|].
      exists "", name, after. split; [exact Hn|]. exact Hs.
    + intros H. destruct (IH H) as (before & name & after & Hn & [->| ->]).
      * exists (String c before), name, after. split; [exact Hn|]. now left.
      * exists (String c before), name, after. split; [exact Hn|]. now right.
  - intros (before & name & after & Hn & [->| ->]);
      apply has_placeholder_suffix, has_placeholder_here.
    + now apply match_here_dollar.
    + now apply match_here_brace.
Qed.

(** No match of the pattern anywhere: [re.findall] returns the empty list,
    and conversely. *)
Lemma findall_nil_iff (s : string) :
  findall s = [] <-> has_placeholder s = false.
Proof.
  unfold findall. induction s as [|c s IH].
  - simpl. tauto.
  - rewrite has_placeholder_cons.
    change (findall_from 0 (String c s))
      with (match match_here (String c s) with
            | Some (g1, g2, n) => (g1, g2) :: findall_from (n - 1) s
            | None => findall_from 0 s
            end).
    destruct (match_here (String c s)) as [[[g1 g2] n]|].
    + split; discriminate.
    + exact IH.
Qed.

Lemma mock_variables_no_placeholder (x : string) (g : Random) :
  ~ placeholder_occurs x -> mock_variables x g = (x, g).
Proof.
  intros H.
  assert (Hx : findall x = []).
  { apply findall_nil_iff. destruct (has_placeholder x) eqn:E; [|reflexivity].
    exfalso. now apply H, has_placeholder_spec. }
  unfold mock_variables, _extract_variables. rewrite Hx. reflexivity.
Qed.

(** C8.  On a text that holds no placeholder occurrence ([$NAME] or
    [${NAME}]) the mocker changes nothing; hence mocking a mocked text
    again changes nothing whenever the mocked text holds no further
    placeholder. *)
Theorem mock_idempotent_without_placeholders :
  (forall x g, ~ placeholder_occurs x -> mock_variables x g = (x, g))
  /\ (forall y g g',
        ~ placeholder_occurs (fst (mock_variables y g)) ->
        fst (mock_variables (fst (mock_variables y g)) g')
        = fst (mock_variables y g)).
Proof.
  split.
  - apply mock_variables_no_placeholder.
  - intros y g g' H. now rewrite (mock_variables_no_placeholder _ g' H).
Qed.

(** The theorem at work: a text without placeholder, and the text
    [user: $WHO], whose mocked form [user: mocked] holds none. *)
Lemma mock_idempotent_without_placeholders_witness :
  mock_variables "image: nginx" (mkRandom (fun _ => 0) 0)
    = ("image: nginx", mkRandom (fun _ => 0) 0)
  /\ fst (mock_variables (fst (mock_variables "user: $WHO" (mkRandom (fun _ => 0) 0)))
            (mkRandom (fun _ => 1) 0))
     = fst (mock_variables "user: $WHO" (mkRandom (fun _ => 0) 0))
  /\ fst (mock_variables "user: $WHO" (mkRandom (fun _ => 0) 0)) = "user: mocked".
Proof.
  split; [|split].
  - apply (proj1 mock_idempotent_without_placeholders).
    intros H%has_placeholder_spec. vm_compute in H. discriminate.
  - apply (proj2 mock_idempotent_without_placeholders).
    intros H%has_placeholder_spec. vm_compute in H. discriminate.
  - vm_compute. reflexivity.
Defined.

End MockerFacts.

(* ===================================================================== *)
(** * Properties of image references and image validation *)
(* ===================================================================== *)

Section ImageFacts.
Import Models DockerImageValidator.

Variable repr_container : Py.value -> string.
Variable from_string_error : Py.value -> string.

Lemma app_cons (a : ascii) (s t : string) : String a s +:+ t = String a (s +:+ t).
Proof. reflexivity. Qed.

Lemma app_empty (t : string) : "" +:+ t = t.
Proof. reflexivity. Qed.

(** [rsplit1] finds nothing exactly when the separator does not occur. *)
Lemma rsplit1_None (c : ascii) (s : string) :
  Py.rsplit1 c s = None <-> Py.has_char c s = false.
Proof.
  induction s as [|a s IH]; simpl; [tauto|].
  destruct (Py.rsplit1 c s) as [[l r]|].
  - split; [discriminate|].
    intros H. apply orb_false_elim in H as [_ H]. apply IH in H. discriminate.
  - destruct (Ascii.eqb a c); simpl; [split; discriminate|].
    split; intros _; [now apply IH | reflexivity].
Qed.

(** [rsplit1] splits at the last occurrence of the separator. *)
Lemma rsplit1_last (c : ascii) (l r : string) :
  Py.has_char c r = false -> Py.rsplit1 c (l +:+ String c r) = Some (l, r).
Proof.
  intros Hr. induction l as [|a l IH].
  - rewrite app_empty. simpl.
    apply rsplit1_None in Hr. rewrite Hr, Ascii.eqb_refl. reflexivity.
  - rewrite app_cons. simpl. rewrite IH. reflexivity.
Qed.

Lemma hex_char_not_at (c : ascii) : hex_char c = true -> Ascii.eqb c "@" = false.
Proof.
  intros H. destruct (Ascii.eqb_spec c "@") as [->|]; [|reflexivity].
  vm_compute in H. discriminate.
Qed.

Lemma hex_digits_no_at (h : string) :
  forallb hex_char (list_ascii_of_string h) = true -> Py.has_char "@" h = false.
Proof.
  induction h as [|c h IH]; simpl; [reflexivity|].
  intros H. apply andb_prop in H as [Hc Hh].
  rewrite (hex_char_not_at c Hc), (IH Hh). reflexivity.
Qed.

(** C7.  For every text of 64 hexadecimal digits [h], parsing
    [registry.example.com/ns/app:1.2.3@sha256:h] into host, path, tag and
    digest and printing the image reference again gives back exactly the
    original text. *)
Theorem image_reference_round_trip (h : string) :
  String.length h = 64%nat ->
  forallb hex_char (list_ascii_of_string h) = true ->
  from_string ("registry.example.com/ns/app:1.2.3@sha256:" +:+ h)
    = mkImage "registry.example.com" "ns/app" (Some "1.2.3") (Some ("sha256:" +:+ h))
  /\ __str__ (from_string ("registry.example.com/ns/app:1.2.3@sha256:" +:+ h))
     = "registry.example.com/ns/app:1.2.3@sha256:" +:+ h.
Proof.
  intros _ Hhex.
  assert (Hparse :
    from_string ("registry.example.com/ns/app:1.2.3@sha256:" +:+ h)
    = mkImage "registry.example.com" "ns/app" (Some "1.2.3") (Some ("sha256:" +:+ h))).
  { unfold from_string.
    change ("registry.example.com/ns/app:1.2.3@sha256:" +:+ h)
      with ("registry.example.com/ns/app:1.2.3" +:+ String "@" ("sha256:" +:+ h)).
    rewrite rsplit1_last.
    - vm_compute. reflexivity.
    - change ("sha256:" +:+ h)
        with (String "s" (String "h" (String "a" (String "2" (String "5" (String "6"
                (String ":" h))))))).
      simpl. now apply hex_digits_no_at. }
  split; [exact Hparse|].
  rewrite Hparse. vm_compute. reflexivity.
Qed.

(** The theorem at work on one digest. *)
Lemma image_reference_round_trip_witness :
  __str__ (from_string
    ("registry.example.com/ns/app:1.2.3@sha256:"
       +:+ "0123456789abcdef0123456789ABCDEF0123456789abcdef0123456789abcdef"))
  = "registry.example.com/ns/app:1.2.3@sha256:"
      +:+ "0123456789abcdef0123456789ABCDEF0123456789abcdef0123456789abcdef".
Proof.
  apply (image_reference_round_trip
           "0123456789abcdef0123456789ABCDEF0123456789abcdef0123456789abcdef");
    vm_compute; reflexivity.
Defined.

Lemma is_registry_answer (net : Registries) (h : string) (c : Client) :
  fst (is_registry net h c)
  = match _cache c !! h with Some b => b | None => classify net h end.
Proof.
  unfold is_registry, classify.
  destruct (_cache c !! h); [reflexivity|].
  destruct (well_known h); [reflexivity|].
  destruct (v2_probe net h) as [[status header]|]; reflexivity.
Qed.

Lemma is_registry_step (net : Registries) (h0 : string) (c : Client) :
  same_answers net c (snd (is_registry net h0 c))
  /\ extends c (snd (is_registry net h0 c)).
Proof.
  pose proof (is_registry_answer net h0 c) as Hans.
  unfold same_answers, extends.
  unfold is_registry in *.
  destruct (_cache c !! h0) as [b|] eqn:Hc.
  - simpl. split; [reflexivity | exists []; now rewrite app_nil_r].
  - assert (Hupd : forall b reqs h,
              classify net h0 = b ->
              fst (is_registry net h (mkClient (<[h0:=b]> (_cache c)) reqs))
              = fst (is_registry net h c)).
    { intros b reqs h Hb. rewrite !is_registry_answer. simpl.
      destruct (decide (h0 = h)) as [<-|Hne].
      - rewrite lookup_insert_eq, Hc. now symmetry.
      - now rewrite lookup_insert_ne. }
    destruct (well_known h0) eqn:Hwk.
    + simpl in *. split; [|exists []; now rewrite app_nil_r].
      intros h. apply Hupd. unfold classify. now rewrite Hwk.
    + destruct (v2_probe net h0) as [[status header]|] eqn:Hp; simpl in *.
      * split; [|now eexists].
        intros h. apply Hupd. unfold classify. now rewrite Hwk, Hp.
      * split; [|now eexists].
        intros h. apply Hupd. unfold classify. now rewrite Hwk, Hp.
Qed.

Lemma extends_trans (a b c : Client) : extends a b -> extends b c -> extends a c.
Proof.
  intros [m1 H1] [m2 H2]. exists (m1 ++ m2). now rewrite H2, H1, app_assoc.
Qed.

Lemma same_answers_trans (net : Registries) (a b c : Client) :
  same_answers net a b -> same_answers net b c -> same_answers net a c.
Proof. intros H1 H2 h. now rewrite H2, H1. Qed.

Lemma same_answers_requests (net : Registries) (c : Client) (reqs : list Request) :
  same_answers net c (mkClient (_cache c) reqs).
Proof. intros h. now rewrite !is_registry_answer. Qed.

(** What one call of [validate_image] does to the client: the host
    classification is kept, requests are only added, and an accepted host
    has the manifest of the image requested. *)
Lemma validate_image_step (net : Registries) (image : DockerImage) (c : Client) :
  let c' := snd (validate_image net image c) in
  same_answers net c c' /\ extends c c'
  /\ (fst (is_registry net (api_host image) c) = true ->
      In (GetManifest image) (requests c')).
Proof.
  simpl. unfold validate_image.
  destruct (is_registry_step net (api_host image) c) as [Hsame Hext].
  destruct (is_registry net (api_host image) c) as [ok c1]. simpl in *.
  destruct ok; simpl.
  - set (c2 := mkClient (_cache c1) (requests c1 ++ [GetManifest image])).
    assert (H2 : same_answers net c c2 /\ extends c c2
                 /\ In (GetManifest image) (requests c2)).
    { split; [|split].
      - eapply same_answers_trans; [exact Hsame|]. apply same_answers_requests.
      - eapply extends_trans; [exact Hext|]. now eexists.
      - simpl. apply in_or_app. right. now left. }
    destruct H2 as (Ha & Hb & Hc).
    destruct (manifest_platforms net image) as [message|platforms].
    + destruct (Py.contains "401" message || Py.contains "Unauthorized" message);
        simpl; auto.
    + destruct (negb (has_platform "arm64" platforms && has_platform "amd64" platforms));
        simpl; auto.
  - split; [exact Hsame|]. split; [exact Hext|]. discriminate.
Qed.

Lemma validate_service_step (net : Registries) (app name : string) (flag : bool)
    (image : ImageValue) (c : Client) :
  let c' := snd (validate_service net app flag name image c) in
  same_answers net c c' /\ extends c c'.
Proof.
  assert (Hrefl : same_answers net c c /\ extends c c).
  { split; [intros h; reflexivity | exists []; now rewrite app_nil_r]. }
  simpl. unfold validate_service.
  destruct image as [|s|[|] shown exception]; simpl; try exact Hrefl.
  destruct (Py.nonempty s); simpl; [|exact Hrefl].
  destruct flag; [|exact Hrefl].
  destruct (validate_image_step net (from_string s) c) as (Ha & Hb & _).
  destruct (validate_image net (from_string s) c). simpl in *. auto.
Qed.

(** The findings of [validate_image] depend on the client through the
    classification of the host only. *)
Lemma validate_image_findings (net : Registries) (image : DockerImage) (c c' : Client) :
  same_answers net c c' ->
  fst (validate_image net image c') = fst (validate_image net image c).
Proof.
  intros H. unfold validate_image. specialize (H (api_host image)).
  destruct (is_registry net (api_host image) c') as [ok' c1'].
  destruct (is_registry net (api_host image) c) as [ok c1]. cbn [fst] in H. subst ok'.
  destruct ok; cbn [negb]; [|reflexivity].
  destruct (manifest_platforms net image) as [message|platforms].
  - now destruct (Py.contains "401" message || Py.contains "Unauthorized" message).
  - now destruct (negb (has_platform "arm64" platforms && has_platform "amd64" platforms)).
Qed.

Lemma validate_service_findings (net : Registries) (app name : string) (flag : bool)
    (image : ImageValue) (c c' : Client) :
  same_answers net c c' ->
  fst (validate_service net app flag name image c')
  = fst (validate_service net app flag name image c).
Proof.
  intros H. unfold validate_service.
  destruct image as [|s|[|] shown exception]; try reflexivity.
  destruct (negb (Py.nonempty s)); [reflexivity|].
  destruct flag; [|reflexivity].
  pose proof (validate_image_findings net (from_string s) c c' H) as Hf.
  destruct (validate_image net (from_string s) c') as [e' k'].
  destruct (validate_image net (from_string s) c) as [e k]. cbn [fst] in *. now subst.
Qed.

(** With the flag on, a service with a non-empty image text reports its
    format finding and then the findings of the registry client, moved to
    the service. *)
Lemma validate_service_text (net : Registries) (app name s : string) (c : Client) :
  Py.nonempty s = true ->
  incl ((if negb (conforms s) then [ImageFormat.missing_digest_finding app name s] else [])
          ++ map (relocate app name) (fst (validate_image net (from_string s) c)))
       (fst (validate_service net app true name (ImageText s) c)).
Proof.
  intros Hs. unfold validate_service. rewrite Hs. cbn [negb].
  destruct (validate_image net (from_string s) c) as [image_errors c1]. cbn [fst].
  apply incl_app; [|apply incl_appr, incl_refl].
  destruct (conforms s); cbn [negb]; [intros e []|].
  apply incl_appl, incl_refl.
Qed.

Lemma validate_image_items_step (net : Registries) (app : string) (flag : bool)
    (service_items : list (string * Py.value)) (c : Client) :
  let c' := snd (validate_image_items repr_container from_string_error net
                   service_items app flag c) in
  same_answers net c c' /\ extends c c'.
Proof.
  assert (Hrefl : forall k, same_answers net k k /\ extends k k).
  { intros k. split; [intros h; reflexivity | exists []; now rewrite app_nil_r]. }
  simpl. revert c. induction service_items as [|[name config] rest IH]; intros c.
  - apply Hrefl.
  - cbn [validate_image_items].
    destruct (Py.get config "image") as [found|e]; [|apply Hrefl].
    destruct (validate_service_step net app name flag
                (image_value repr_container from_string_error found) c) as [Ha Hb].
    destruct (validate_service net app flag name
                (image_value repr_container from_string_error found) c) as [errs c1].
    cbn [snd] in *.
    destruct (IH c1) as [Ha' Hb'].
    destruct (validate_image_items repr_container from_string_error net rest app flag c1)
      as [[errs'|e] c2]; cbn [snd] in *;
      (split; [eapply same_answers_trans | eapply extends_trans]; eauto).
Qed.

(** [validate_images] returns exactly when the services are a mapping of
    mappings. *)
Lemma validate_image_items_returns (net : Registries) (app : string) (flag : bool)
    (service_items : list (string * Py.value)) (c : Client) :
  Py.returns (fst (validate_image_items repr_container from_string_error net
                     service_items app flag c)) = true
  <-> Forall (fun item => exists config, snd item = Py.VDict config) service_items.
Proof.
  revert c. induction service_items as [|[name config] rest IH]; intros c.
  - split; [constructor | reflexivity].
  - cbn [validate_image_items].
    destruct config as [| | | | |d];
      try (split; [discriminate | intros H; inversion H as [|? ? [d Hd] _]; discriminate]).
    cbn [Py.get].
    destruct (validate_service net app flag name
                (image_value repr_container from_string_error (Py.dict_get d "image")) c)
      as [errs c1].
    specialize (IH c1).
    destruct (validate_image_items repr_container from_string_error net rest app flag c1)
      as [[errs'|e] c2]; cbn [fst Py.returns] in *.
    + split; [|reflexivity]. intros _. constructor; [now eexists | now apply IH].
    + split; [discriminate|]. intros H. inversion H; subst. now apply IH.
Qed.

(** With the flag off nothing is asked of any registry, and every finding
    returned is a format finding. *)
Lemma validate_image_items_flag_off (net : Registries) (app : string)
    (service_items : list (string * Py.value)) (c : Client) :
  snd (validate_image_items repr_container from_string_error net
         service_items app false c) = c
  /\ forall errs,
       fst (validate_image_items repr_container from_string_error net
              service_items app false c) = Py.Returned errs ->
       Forall (fun e => id e = "invalid_docker_image_name") errs.
Proof.
  induction service_items as [|[name config] rest IH]; cbn [validate_image_items].
  - split; [reflexivity|]. intros errs H. inversion H. constructor.
  - destruct (Py.get config "image") as [found|e];
      [|split; [reflexivity | discriminate]].
    set (image := image_value repr_container from_string_error found).
    assert (Hs : snd (validate_service net app false name image c) = c
                 /\ Forall (fun e => id e = "invalid_docker_image_name")
                      (fst (validate_service net app false name image c))).
    { unfold validate_service.
      destruct image as [|s|[|] shown exception]; simpl; auto.
      destruct (Py.nonempty s); simpl; auto.
      destruct (conforms s); simpl; auto.
      destruct (tag (from_string s)) as [t|]; simpl; auto.
      destruct (String.eqb t "latest"); simpl; auto. }
    destruct Hs as [Hc Hf].
    destruct (validate_service net app false name image c) as [errs c1].
    cbn [fst snd] in *. subst c1. destruct IH as [IHc IHf].
    destruct (validate_image_items repr_container from_string_error net rest app false c)
      as [[errs'|e] c2]; cbn [fst snd] in *.
    + split; [exact IHc|]. intros l H. inversion H; subst.
      apply Forall_app. split; [exact Hf | now apply IHf].
    + split; [exact IHc | discriminate].
Qed.

(** When the loop returns, the findings of every service are among the
    findings returned, and with the flag on the manifest of every image
    text on an accepted host has been requested. *)
Lemma validate_image_items_returned (net : Registries) (app : string) (flag : bool)
    (service_items : list (string * Py.value)) (c c0 c' : Client)
    (errs : list LintingError) :
  same_answers net c c0 ->
  validate_image_items repr_container from_string_error net service_items app flag c0
  = (Py.Returned errs, c') ->
  forall name config,
    In (name, Py.VDict config) service_items ->
    incl (fst (validate_service net app flag name
                 (image_value repr_container from_string_error
                    (Py.dict_get config "image")) c)) errs
    /\ (forall s,
          flag = true ->
          Py.dict_get config "image" = Some (Py.VStr s) ->
          Py.nonempty s = true ->
          fst (is_registry net (api_host (from_string s)) c) = true ->
          In (GetManifest (from_string s)) (requests c')).
Proof.
  revert c0 errs.
  induction service_items as [|[name0 config0] rest IH]; intros c0 errs Hsame H name config Hin;
    [destruct Hin|].
  cbn [validate_image_items] in H.
  destruct (Py.get config0 "image") as [found|e] eqn:Hget; [|discriminate].
  pose proof (validate_service_findings net app name0 flag
                (image_value repr_container from_string_error found) c c0 Hsame) as Hfind.
  destruct (validate_service_step net app name0 flag
              (image_value repr_container from_string_error found) c0) as [Ha Hb].
  assert (Hreq : forall s, flag = true -> found = Some (Py.VStr s) ->
                   Py.nonempty s = true ->
                   fst (is_registry net (api_host (from_string s)) c) = true ->
                   In (GetManifest (from_string s))
                      (requests (snd (validate_service net app flag name0
                         (image_value repr_container from_string_error found) c0)))).
  { intros s -> -> Hs Hok. cbn [image_value]. unfold validate_service. rewrite Hs.
    cbn [negb].
    destruct (validate_image_step net (from_string s) c0) as (_ & _ & Hr).
    destruct (validate_image net (from_string s) c0) as [image_errors c1].
    cbn [snd] in *. apply Hr. now rewrite Hsame. }
  destruct (validate_service net app flag name0
              (image_value repr_container from_string_error found) c0) as [errs0 c1].
  cbn [fst snd] in *.
  pose proof (validate_image_items_step net app flag rest c1) as [_ [more Hmore]].
  destruct (validate_image_items repr_container from_string_error net rest app flag c1)
    as [[errs'|e] c2] eqn:Hrest; [|discriminate].
  cbn [snd] in Hmore. inversion H; subst errs c'. clear H.
  destruct Hin as [Heq|Hin].
  - inversion Heq; subst name0 config0. cbn [Py.get] in Hget. inversion Hget; subst found.
    split.
    + rewrite <- Hfind. apply incl_appl, incl_refl.
    + intros s Hflag Himage Hs Hok. rewrite Hmore. apply in_or_app. left.
      now apply Hreq.
  - destruct (IH c1 errs' (same_answers_trans net c c0 c1 Hsame Ha) Hrest name config Hin)
      as [Hincl Hr].
    split; [now apply incl_appr | exact Hr].
Qed.

(** C3 (as amended).  Architecture resolution is gated by the flag alone.
    With architecture checking disabled, [validate_images] sends no request
    to any registry and returns format findings only.  It returns its
    findings exactly when the services are a mapping whose entries are
    mappings.  With architecture checking enabled, whenever it returns, for
    every service whose image is a non-empty text (which always parses),
    conforming to the required format or not: the manifest of the image is
    requested if its registry host is accepted, the format finding is
    returned if the text does not conform, and every finding
    [validate_image] makes for the image is returned, moved to the
    service. *)
Theorem architecture_resolution_gated_by_flag (net : Registries) (app : string)
    (services : Py.value) (c : Client) :
  (snd (validate_images repr_container from_string_error net services app false c) = c
   /\ forall errs,
        fst (validate_images repr_container from_string_error net services app false c)
        = Py.Returned errs ->
        Forall (fun e => id e = "invalid_docker_image_name") errs)
  /\ (forall flag,
        Py.returns (fst (validate_images repr_container from_string_error net
                           services app flag c)) = true
        <-> exists service_items,
              services = Py.VDict service_items
              /\ Forall (fun item => exists config, snd item = Py.VDict config)
                   service_items)
  /\ (forall errs service_items name config s,
        fst (validate_images repr_container from_string_error net services app true c)
        = Py.Returned errs ->
        services = Py.VDict service_items ->
        In (name, Py.VDict config) service_items ->
        Py.dict_get config "image" = Some (Py.VStr s) ->
        Py.nonempty s = true ->
        (fst (is_registry net (api_host (from_string s)) c) = true ->
         In (GetManifest (from_string s))
            (requests (snd (validate_images repr_container from_string_error net
                              services app true c))))
        /\ (conforms s = false ->
            In (ImageFormat.missing_digest_finding app name s) errs)
        /\ (forall e,
              In e (fst (validate_image net (from_string s) c)) ->
              In (relocate app name e) errs)).
Proof.
  split; [|split].
  - destruct services as [| | | | |service_items];
      try (split; [reflexivity | discriminate]).
    apply validate_image_items_flag_off.
  - intros flag. unfold validate_images.
    destruct services as [| | | | |service_items]; cbn [fst Py.returns];
      try (split; [discriminate | intros (other & H & _); discriminate]).
    pose proof (validate_image_items_returns net app flag service_items c) as Hret.
    split.
    + intros H. exists service_items. split; [reflexivity | now apply Hret].
    + intros (other & H & Hall). inversion H; subst. now apply Hret.
  - intros errs service_items name config s H -> Hin Himage Hs.
    cbn [validate_images] in *.
    destruct (validate_image_items repr_container from_string_error net service_items
                app true c) as [outcome c'] eqn:Hrun.
    cbn [fst snd] in *. subst outcome.
    destruct (validate_image_items_returned net app true service_items c c c' errs
                ltac:(intros h; reflexivity) Hrun name config Hin) as [Hincl Hreq].
    rewrite Himage in Hincl. cbn [image_value] in Hincl.
    pose proof (validate_service_text net app name s c Hs) as Htext.
    split; [|split].
    + intros Hok. now apply (Hreq s).
    + intros Hconf. apply Hincl, Htext. rewrite Hconf. cbn [negb]. now left.
    + intros e He. apply Hincl, Htext. apply in_or_app. right. now apply in_map.
Qed.

End ImageFacts.

Section ImageExamples.
Import Models DockerImageValidator.

(** The theorem at work on the image [nginx:1.25] of Docker Hub, which
    carries no digest: its manifest is requested, and the format finding
    and the architecture finding are both returned. *)
Lemma architecture_resolution_gated_by_flag_witness :
  exists errs,
    fst (validate_images (fun _ => "") (fun _ => "") amd64_only
           (Py.VDict [("web", Py.VDict [("image", Py.VStr "nginx:1.25")])])
           "app" true new_client) = Py.Returned errs
    /\ In (GetManifest (from_string "nginx:1.25"))
          (requests (snd (validate_images (fun _ => "") (fun _ => "") amd64_only
                            (Py.VDict [("web", Py.VDict [("image", Py.VStr "nginx:1.25")])])
                            "app" true new_client)))
    /\ In (ImageFormat.missing_digest_finding "app" "web" "nginx:1.25") errs
    /\ exists e, In e errs /\ id e = "invalid_image_architectures".
Proof.
  eexists. split; [vm_compute; reflexivity|].
  destruct (proj2 (proj2 (architecture_resolution_gated_by_flag (fun _ => "") (fun _ => "")
                     amd64_only "app"
                     (Py.VDict [("web", Py.VDict [("image", Py.VStr "nginx:1.25")])])
                     new_client))
              _ [("web", Py.VDict [("image", Py.VStr "nginx:1.25")])] "web"
              [("image", Py.VStr "nginx:1.25")] "nginx:1.25"
              ltac:(vm_compute; reflexivity) eq_refl ltac:(left; reflexivity) eq_refl eq_refl)
    as (Hreq & Hformat & Hregistry).
  split; [apply Hreq; vm_compute; reflexivity|].
  split; [apply Hformat; vm_compute; reflexivity|].
  eexists. split; [apply Hregistry; vm_compute; left; reflexivity | reflexivity].
Defined.

(** C3 (as stated) fails: [nginx:latest] parses and does not conform to
    the required format, and with architecture checking enabled its
    manifest is requested and an architecture finding is reported. *)
Lemma nonconforming_image_is_resolved :
  conforms "nginx:latest" = false
  /\ requests (snd (validate_images (fun _ => "") (fun _ => "") amd64_only
                      (Py.VDict [("web", Py.VDict [("image", Py.VStr "nginx:latest")])])
                      "app" true new_client))
     = [GetManifest (from_string "nginx:latest")]
  /\ match fst (validate_images (fun _ => "") (fun _ => "") amd64_only
                  (Py.VDict [("web", Py.VDict [("image", Py.VStr "nginx:latest")])])
                  "app" true new_client) with
     | Py.Returned errs =>
         map id errs = ["invalid_docker_image_name"; "invalid_image_architectures"]
     | Py.Raised _ => False
     end.
Proof. split; [|split]; vm_compute; reflexivity. Qed.

End ImageExamples.

(* ===================================================================== *)
(** * Properties of pattern matching and of the store identifier *)
(* ===================================================================== *)

Section RegexFacts.
Import Regex.

Lemma dead_not_nullable (r : regex) : dead r = true -> nullable r = false.
Proof.
  induction r as [| |p|r1 IH1 r2 IH2|r1 IH1 r2 IH2|r1 IH1]; simpl; try discriminate.
  - reflexivity.
  - intros [H|H]%orb_prop.
    + now rewrite (IH1 H).
    + rewrite (IH2 H). apply andb_false_r.
  - intros [H1 H2]%andb_prop. now rewrite (IH1 H1), (IH2 H2).
Qed.

Lemma dead_deriv (c : ascii) (r : regex) : dead r = true -> dead (deriv c r) = true.
Proof.
  induction r as [| |p|r1 IH1 r2 IH2|r1 IH1 r2 IH2|r1 IH1]; simpl; try discriminate.
  - reflexivity.
  - intros [H|H]%orb_prop.
    + rewrite (IH1 H). simpl.
      rewrite (dead_not_nullable r1 H). reflexivity.
    + rewrite H, orb_true_r. simpl.
      destruct (nullable r1); [now apply IH2 | reflexivity].
  - intros [H1 H2]%andb_prop. now rewrite (IH1 H1), (IH2 H2).
Qed.

Lemma dead_no_match (s : string) (r : regex) : dead r = true -> matches r s = false.
Proof.
  revert r. induction s as [|c s IH]; intros r H; simpl.
  - now apply dead_not_nullable.
  - apply IH. now apply dead_deriv.
Qed.

Lemma deriv_within (P : ascii -> bool) (c : ascii) (r : regex) :
  classes_within P r -> classes_within P (deriv c r).
Proof.
  induction r as [| |p|r1 IH1 r2 IH2|r1 IH1 r2 IH2|r1 IH1]; simpl; auto.
  - intros _. now destruct (p c).
  - intros [H1 H2]. repeat split; auto.
    destruct (nullable r1); simpl; auto.
  - intros [H1 H2]. split; auto.
Qed.

Lemma deriv_outside (P : ascii -> bool) (c : ascii) (r : regex) :
  classes_within P r -> P c = false -> dead (deriv c r) = true.
Proof.
  intros Hr Hc.
  induction r as [| |p|r1 IH1 r2 IH2|r1 IH1 r2 IH2|r1 IH1]; simpl in *; auto.
  - destruct (p c) eqn:E; [|reflexivity].
    apply Hr in E. congruence.
  - destruct Hr as [H1 H2]. rewrite (IH1 H1). simpl.
    destruct (nullable r1); [now apply IH2 | reflexivity].
  - destruct Hr as [H1 H2]. now rewrite (IH1 H1), (IH2 H2).
  - now rewrite (IH1 Hr).
Qed.

(** A text that matches a pattern consists of characters of its classes. *)
Lemma matches_within (P : ascii -> bool) (s : string) (r : regex) :
  classes_within P r -> matches r s = true ->
  forallb P (list_ascii_of_string s) = true.
Proof.
  revert r. induction s as [|c s IH]; intros r Hr Hm; simpl in *; [reflexivity|].
  destruct (P c) eqn:Hc; simpl.
  - apply (IH (deriv c r)); [now apply deriv_within | exact Hm].
  - rewrite (dead_no_match s _ (deriv_outside P c r Hr Hc)) in Hm. discriminate.
Qed.

End RegexFacts.

Section SchemaFacts.
Import Schemas.

Lemma store_id_format_within :
  Regex.classes_within store_id_char (Regex.Cat store_id_format Regex.eol).
Proof.
  unfold store_id_char. simpl.
  repeat split; intros c H; rewrite ?H, ?orb_true_r; try reflexivity; discriminate.
Qed.

Lemma upper_not_store_id_char (c : ascii) :
  Py.is_upper c = true -> store_id_char c = false.
Proof.
  destruct c as [[|] [|] [|] [|] [|] [|] [|] [|]]; vm_compute; congruence.
Qed.

(** Lower-casing changes no character but a capital letter, and turns a
    capital letter outside ASCII into a character outside ASCII. *)
Lemma lower_char_fixed (c : ascii) :
  Py.is_upper c = false ->
  (nat_of_ascii (Py.lower_char c) <? 128)%nat = true ->
  Py.lower_char c = c.
Proof.
  destruct c as [[|] [|] [|] [|] [|] [|] [|] [|]]; vm_compute; congruence.
Qed.

(** A text whose lower-cased form starts with the ASCII text [p] starts
    with [p] itself or holds an upper-case letter [A] to [Z]. *)
Lemma startswith_lower (p v : string) :
  forallb (fun a => (nat_of_ascii a <? 128)%nat) (list_ascii_of_string p) = true ->
  Py.startswith (Py.lower v) p = true ->
  Py.startswith v p = true
  \/ existsb Py.is_upper (list_ascii_of_string v) = true.
Proof.
  revert v. induction p as [|a p IH]; intros v Hp H.
  - left. now destruct v.
  - destruct v as [|b v]; [discriminate|]. simpl in H.
    cbn [list_ascii_of_string forallb] in Hp. apply andb_prop in Hp as [Ha Hp].
    destruct (Ascii.eqb_spec a (Py.lower_char b)) as [Eab|]; [|discriminate].
    simpl. destruct (Py.is_upper b) eqn:Eb; [now right|]. simpl.
    rewrite Eab in Ha. rewrite Eab, (lower_char_fixed b Eb Ha), Ascii.eqb_refl.
    exact (IH v Hp H).
Qed.

Lemma upper_blocks_format (v : string) :
  existsb Py.is_upper (list_ascii_of_string v) = true ->
  Regex.re_match store_id_format v = false.
Proof.
  intros Hup. unfold Regex.re_match.
  destruct (Regex.matches (Regex.Cat store_id_format Regex.eol) v) eqn:Hm; [|reflexivity].
  apply (matches_within store_id_char _ _ store_id_format_within) in Hm.
  apply existsb_exists in Hup as (c & Hin & Hc).
  rewrite forallb_forall in Hm. specialize (Hm c Hin).
  rewrite (upper_not_store_id_char c Hc) in Hm. discriminate.
Qed.

Lemma reserved_any_case_rejected (v : string) :
  starts_with_reserved_any_case v = true -> exists e, validate_id v = Py.Raised e.
Proof.
  unfold starts_with_reserved_any_case, validate_id. intros H.
  destruct (startswith_lower "umbrel-app-store" v eq_refl H) as [Hexact|Hupper].
  - rewrite Hexact. now eexists.
  - destruct (Py.startswith v "umbrel-app-store"); [now eexists|].
    rewrite (upper_blocks_format v Hupper). now eexists.
Qed.

(** C9.  The store identifier [My_Store] is rejected by the format rule,
    [my-store] is accepted, and every identifier that starts with
    [umbrel-app-store] in any letter case is rejected, by the validator
    and so by the field as a whole. *)
Theorem store_id_rules :
  (Regex.re_match store_id_format "My_Store" = false
   /\ validate_id "My_Store" = Py.Raised (Py.ValueError format_message))
  /\ (Regex.re_match store_id_format "my-store" = true
      /\ validate_id "my-store" = Py.Returned "my-store"
      /\ store_id_field "my-store" = Py.Returned "my-store")
  /\ (forall v, starts_with_reserved_any_case v = true ->
        (exists e, validate_id v = Py.Raised e)
        /\ (exists e, store_id_field v = Py.Raised e)).
Proof.
  split; [split; vm_compute; reflexivity|].
  split; [repeat split; vm_compute; reflexivity|].
  intros v H. pose proof (reserved_any_case_rejected v H) as Hv.
  split; [exact Hv|].
  unfold store_id_field.
  destruct (Py.len v <? 1); [now eexists|].
  destruct (50 <? Py.len v); [now eexists | exact Hv].
Qed.

(** The theorem at work on three spellings of the reserved prefix. *)
Lemma store_id_rules_witness :
  (exists e, validate_id "Umbrel-App-Store-Extra" = Py.Raised e)
  /\ (exists e, validate_id "umbrel-app-store" = Py.Raised e)
  /\ (exists e, store_id_field "UMBREL-APP-STORE" = Py.Raised e).
Proof.
  destruct store_id_rules as (_ & _ & H).
  split; [|split].
  - apply (H "Umbrel-App-Store-Extra"). vm_compute. reflexivity.
  - apply (H "umbrel-app-store"). vm_compute. reflexivity.
  - apply (H "UMBREL-APP-STORE"). vm_compute. reflexivity.
Defined.

End SchemaFacts.

(* ===================================================================== *)
(** * Properties of the GitHub existence checks *)
(* ===================================================================== *)

Section GitHubFacts.
Import Models GitHubValidator.

Variable urlparse : string -> option ParseResult.
Variable repr_container : Py.value -> string.

Lemma keeps_refl (self : Validator) : keeps self self.
Proof. intros u b H. exact H. Qed.

Lemma keeps_trans (a b c : Validator) : keeps a b -> keeps b c -> keeps a c.
Proof. intros H1 H2 u v H. apply H2, H1, H. Qed.

Lemma keeps_insert (self : Validator) (url : string) (answer : bool) :
  _cache self !! url = None ->
  keeps self (mkValidator (<[url := answer]> (_cache self))).
Proof.
  intros Hmiss u b Hu. simpl.
  destruct (decide (url = u)) as [<-|Hne]; [congruence|].
  now rewrite lookup_insert_ne.
Qed.

Lemma _pr_exists_keeps (net : Network) (url : string) (self : Validator) :
  keeps self (snd (_pr_exists urlparse net url self)).
Proof.
  unfold _pr_exists. destruct (_cache self !! url) eqn:Hc; [apply keeps_refl|].
  destruct (net (pr_request_url urlparse url)); simpl; now apply keeps_insert.
Qed.

Lemma _repo_exists_keeps (net : Network) (url : string) (self : Validator) :
  keeps self (snd (_repo_exists net url self)).
Proof.
  unfold _repo_exists. destruct (_cache self !! url) eqn:Hc; [apply keeps_refl|].
  destruct (net url); simpl; now apply keeps_insert.
Qed.

Lemma validate_pull_request_keeps (net : Network) (url app : string) (self : Validator) :
  keeps self (snd (validate_pull_request urlparse net url app self)).
Proof.
  unfold validate_pull_request.
  destruct (_is_github_pr_url urlparse url); simpl; [|apply keeps_refl].
  pose proof (_pr_exists_keeps net url self) as H.
  destruct (_pr_exists urlparse net url self) as [[|] self']; exact H.
Qed.

Lemma _validate_github_repo_url_keeps (net : Network) (url app : string)
    (self : Validator) :
  keeps self (snd (_validate_github_repo_url urlparse net url app self)).
Proof.
  unfold _validate_github_repo_url.
  destruct (_is_github_repo_url urlparse url); simpl; [|apply keeps_refl].
  pose proof (_repo_exists_keeps net url self) as H.
  destruct (_repo_exists net url self) as [[|] self']; exact H.
Qed.

Lemma validate_github_urls_keeps (net : Network) (data : Py.value) (app : string)
    (self : Validator) :
  keeps self (snd (validate_github_urls urlparse repr_container net data app self)).
Proof.
  unfold validate_github_urls.
  destruct (Py.get data "submission") as [submission|e]; [|apply keeps_refl].
  assert (H1 : keeps self
            (snd (match submission with
                  | Some u =>
                      if Py.truth u
                      then validate_pull_request urlparse net
                             (Py.str repr_container u) app self
                      else ([], self)
                  | None => ([], self)
                  end))).
  { destruct submission as [u|]; [|apply keeps_refl].
    destruct (Py.truth u); [apply validate_pull_request_keeps | apply keeps_refl]. }
  destruct (match submission with Some _ => _ | None => _ end) as [pr_errors self1].
  simpl in H1.
  destruct (Py.get data "repo") as [repo|e]; [|exact H1].
  assert (H2 : keeps self1
            (snd (match repo with
                  | Some (Py.VStr u) =>
                      if Py.nonempty u && Py.nonempty (Py.strip u)
                      then _validate_github_repo_url urlparse net u app self1
                      else ([], self1)
                  | _ => ([], self1)
                  end))).
  { destruct repo as [[| | |u| |]|]; try apply keeps_refl.
    destruct (Py.nonempty u && Py.nonempty (Py.strip u));
      [apply _validate_github_repo_url_keeps | apply keeps_refl]. }
  destruct (match repo with Some _ => _ | None => _ end) as [repo_errors self2].
  simpl in *. eapply keeps_trans; eauto.
Qed.

Lemma not_found_titles (url app : string) :
  forall e, In e [finding "invalid_submission_field" ERROR
                    ("Invalid submission URL " +:+ Py.dquote +:+ url +:+ Py.dquote)
                    "Submission URL must be a valid GitHub pull request URL (e.g., https://github.com/owner/repo/pull/123)"
                    (app +:+ "/umbrel-app.yml") (Some "submission")] ->
            e <> pr_not_found url app.
Proof.
  intros e [<-|[]] H. apply (f_equal title) in H. vm_compute in H. discriminate.
Qed.

Lemma invalid_repo_title (url app : string) :
  finding "invalid_repo_url" WARNING
    ("Invalid repository URL " +:+ Py.dquote +:+ url +:+ Py.dquote)
    "Repository URL should be a valid GitHub repository URL (e.g., https://github.com/owner/repo)"
    (app +:+ "/umbrel-app.yml") (Some "repo")
  <> repo_not_found url app.
Proof.
  intros H. apply (f_equal title) in H. vm_compute in H. discriminate.
Qed.

(** A pull-request check reports "not found" only when the answer is
    [false]. *)
Lemma pr_finding_only_if_absent (net : Network) (url app : string) (self : Validator) :
  In (pr_not_found url app) (fst (validate_pull_request urlparse net url app self)) ->
  fst (_pr_exists urlparse net url self) = false.
Proof.
  unfold validate_pull_request.
  destruct (_is_github_pr_url urlparse url); simpl.
  - destruct (_pr_exists urlparse net url self) as [[|] self']; simpl; [intros []|reflexivity].
  - intros H. exfalso. now apply (not_found_titles url app _ H).
Qed.

Lemma repo_finding_only_if_absent (net : Network) (url app : string) (self : Validator) :
  In (repo_not_found url app)
     (fst (_validate_github_repo_url urlparse net url app self)) ->
  fst (_repo_exists net url self) = false.
Proof.
  unfold _validate_github_repo_url.
  destruct (_is_github_repo_url urlparse url); simpl.
  - destruct (_repo_exists net url self) as [[|] self']; simpl; [intros []|reflexivity].
  - intros [H|[]]. exfalso. now apply (invalid_repo_title url app).
Qed.

(** The existence checks, case by case.  When the HTTP request behind a
    pull-request or a repository existence check fails, the check answers
    "exists", reports no "not found" finding and caches the answer; a
    cached "exists" answer is returned again under any later network state,
    with no finding, and cached answers survive every other check of the
    run.  For the pull-request check only a 404 response yields an
    existence finding; for the repository check every response other than
    200 does. *)
Lemma existence_checks_cases (net : Network) (url app : string)
    (self : Validator) :
  (_cache self !! url = None ->
   net (pr_request_url urlparse url) = RequestFailed ->
     _pr_exists urlparse net url self
       = (true, mkValidator (<[url := true]> (_cache self)))
     /\ ~ In (pr_not_found url app)
            (fst (validate_pull_request urlparse net url app self)))
  /\ (_cache self !! url = None ->
      net url = RequestFailed ->
        _repo_exists net url self
          = (true, mkValidator (<[url := true]> (_cache self)))
        /\ ~ In (repo_not_found url app)
               (fst (_validate_github_repo_url urlparse net url app self)))
  /\ (_cache self !! url = Some true ->
        _pr_exists urlparse net url self = (true, self)
        /\ _repo_exists net url self = (true, self)
        /\ ~ In (pr_not_found url app)
               (fst (validate_pull_request urlparse net url app self))
        /\ ~ In (repo_not_found url app)
               (fst (_validate_github_repo_url urlparse net url app self)))
  /\ (forall other data,
        keeps self (snd (_pr_exists urlparse net other self))
        /\ keeps self (snd (_repo_exists net other self))
        /\ keeps self
             (snd (validate_github_urls urlparse repr_container net data app self)))
  /\ (_cache self !! url = None ->
      In (pr_not_found url app)
         (fst (validate_pull_request urlparse net url app self)) ->
      net (pr_request_url urlparse url) = Response 404)
  /\ (_cache self !! url = None ->
      _is_github_repo_url urlparse url = true ->
      forall status, net url = Response status -> status <> 200 ->
        fst (_validate_github_repo_url urlparse net url app self)
        = [repo_not_found url app]).
Proof.
  split; [|split; [|split; [|split; [|split]]]].
  - intros Hmiss Hfail.
    assert (E : _pr_exists urlparse net url self
                = (true, mkValidator (<[url := true]> (_cache self)))).
    { unfold _pr_exists. now rewrite Hmiss, Hfail. }
    split; [exact E|].
    intros Hin. apply pr_finding_only_if_absent in Hin. rewrite E in Hin. discriminate.
  - intros Hmiss Hfail.
    assert (E : _repo_exists net url self
                = (true, mkValidator (<[url := true]> (_cache self)))).
    { unfold _repo_exists. now rewrite Hmiss, Hfail. }
    split; [exact E|].
    intros Hin. apply repo_finding_only_if_absent in Hin. rewrite E in Hin. discriminate.
  - intros Hhit.
    assert (E1 : _pr_exists urlparse net url self = (true, self))
      by (unfold _pr_exists; now rewrite Hhit).
    assert (E2 : _repo_exists net url self = (true, self))
      by (unfold _repo_exists; now rewrite Hhit).
    repeat split; auto.
    + intros Hin. apply pr_finding_only_if_absent in Hin. rewrite E1 in Hin. discriminate.
    + intros Hin. apply repo_finding_only_if_absent in Hin. rewrite E2 in Hin. discriminate.
  - intros other data. split; [|split].
    + apply _pr_exists_keeps.
    + apply _repo_exists_keeps.
    + apply validate_github_urls_keeps.
  - intros Hmiss Hin. apply pr_finding_only_if_absent in Hin.
    unfold _pr_exists in Hin. rewrite Hmiss in Hin.
    destruct (net (pr_request_url urlparse url)) as [status|]; [|discriminate].
    simpl in Hin. unfold pr_status_exists in Hin.
    destruct (Z.eqb_spec status 200); [discriminate|].
    destruct (Z.eqb_spec status 404); [now subst | discriminate].
  - intros Hmiss Hurl status Hnet Hstatus.
    unfold _validate_github_repo_url, _repo_exists.
    rewrite Hurl, Hmiss, Hnet. simpl.
    destruct (Z.eqb_spec status 200); [contradiction | reflexivity].
Qed.

(** For the pull-request check every answer other than 404 counts as
    "exists". *)
Lemma pr_exists_unless_404 (net : Network) (url app : string) (self : Validator)
    (status : Z) :
  _cache self !! url = None ->
  net (pr_request_url urlparse url) = Response status ->
  status <> 404 ->
  fst (_pr_exists urlparse net url self) = true
  /\ ~ In (pr_not_found url app)
         (fst (validate_pull_request urlparse net url app self)).
Proof.
  intros Hmiss Hnet Hstatus.
  assert (E : fst (_pr_exists urlparse net url self) = true).
  { unfold _pr_exists. rewrite Hmiss, Hnet. cbn [fst]. unfold pr_status_exists.
    destruct (Z.eqb_spec status 200); [reflexivity|].
    destruct (Z.eqb_spec status 404); [contradiction | reflexivity]. }
  split; [exact E|].
  intros Hin. apply pr_finding_only_if_absent in Hin. congruence.
Qed.

End GitHubFacts.

Section GitHubExamples.
Import Models GitHubValidator.

(** C10.  The specification wants only a definite 404 answer to yield an
    existence finding.  The pull-request check does so: a failed request
    and every answer other than 404 count as "exists", and the answer is
    cached.  The repository check treats a failed request the same way,
    but reports "Repository not found" for every answer other than 200:
    answered with status 500, the check of
    [https://github.com/owner/repo] reports the finding and caches "does
    not exist", where the pull-request check under the same answer reports
    nothing. *)
Theorem existence_checks_on_failure :
  (forall urlparse repr_container net url app self,
      (_cache self !! url = None ->
       net (pr_request_url urlparse url) = RequestFailed ->
         _pr_exists urlparse net url self
           = (true, mkValidator (<[url := true]> (_cache self)))
         /\ ~ In (pr_not_found url app)
                (fst (validate_pull_request urlparse net url app self)))
      /\ (_cache self !! url = None ->
          net url = RequestFailed ->
            _repo_exists net url self
              = (true, mkValidator (<[url := true]> (_cache self)))
            /\ ~ In (repo_not_found url app)
                   (fst (_validate_github_repo_url urlparse net url app self)))
      /\ (_cache self !! url = Some true ->
            _pr_exists urlparse net url self = (true, self)
            /\ _repo_exists net url self = (true, self)
            /\ ~ In (pr_not_found url app)
                   (fst (validate_pull_request urlparse net url app self))
            /\ ~ In (repo_not_found url app)
                   (fst (_validate_github_repo_url urlparse net url app self)))
      /\ (forall other data,
            keeps self (snd (_pr_exists urlparse net other self))
            /\ keeps self (snd (_repo_exists net other self))
            /\ keeps self
                 (snd (validate_github_urls urlparse repr_container net data app self)))
      /\ (_cache self !! url = None ->
          In (pr_not_found url app)
             (fst (validate_pull_request urlparse net url app self)) ->
          net (pr_request_url urlparse url) = Response 404)
      /\ (_cache self !! url = None ->
          _is_github_repo_url urlparse url = true ->
          forall status, net url = Response status -> status <> 200 ->
            fst (_validate_github_repo_url urlparse net url app self)
            = [repo_not_found url app]))
  /\ (forall urlparse net url app self status,
        _cache self !! url = None ->
        net (pr_request_url urlparse url) = Response status ->
        status <> 404 ->
        fst (_pr_exists urlparse net url self) = true
        /\ ~ In (pr_not_found url app)
               (fst (validate_pull_request urlparse net url app self)))
  /\ (_is_github_repo_url sample_urlparse "https://github.com/owner/repo" = true
      /\ fst (_validate_github_repo_url sample_urlparse (fun _ => Response 500)
                "https://github.com/owner/repo" "app" new_validator)
         = [repo_not_found "https://github.com/owner/repo" "app"]
      /\ _repo_exists (fun _ => Response 500) "https://github.com/owner/repo" new_validator
         = (false, mkValidator (<["https://github.com/owner/repo" := false]> ∅)))
  /\ (_is_github_pr_url sample_urlparse "https://github.com/owner/repo/pull/123" = true
      /\ fst (validate_pull_request sample_urlparse (fun _ => Response 500)
                "https://github.com/owner/repo/pull/123" "app" new_validator) = [])
  /\ _pr_exists sample_urlparse (fun _ => RequestFailed)
       "https://github.com/owner/repo/pull/123" new_validator
     = (true, mkValidator (<["https://github.com/owner/repo/pull/123" := true]> ∅)).
Proof.
  split; [|split; [|split; [|split]]].
  - intros. apply existence_checks_cases.
  - intros. eapply pr_exists_unless_404; eassumption.
  - split; [|split]; vm_compute; reflexivity.
  - split; vm_compute; reflexivity.
  - vm_compute. reflexivity.
Qed.

End GitHubExamples.

(* ===================================================================== *)
(** * Properties of the orchestrator ([core/linter.py]) *)
(* ===================================================================== *)

Section LinterFacts.
Import Models GitHubValidator Linter.

Variable safe_load : string -> string + Py.value.
Variable repr_container : Py.value -> string.
Variable int_of_text : string -> option Z.
Variable UmbrelAppManifest : Py.value -> string + Manifest.
Variable UmbrelAppStoreManifest : Py.value -> option string.
Variable urlparse : string -> option ParseResult.

(** On a mapping the GitHub checks return findings; they do not raise. *)
Lemma validate_github_urls_dict (net : Network) (d : list (string * Py.value))
    (app : string) (github : Validator) :
  exists errs github',
    validate_github_urls urlparse repr_container net (Py.VDict d) app github
    = (Py.Returned errs, github').
Proof.
  unfold validate_github_urls. simpl.
  destruct (match Py.dict_get d "submission" with Some _ => _ | None => _ end)
    as [pr_errors self1].
  destruct (match Py.dict_get d "repo" with Some _ => _ | None => _ end)
    as [repo_errors self2].
  now eexists _, _.
Qed.

(** With a manifest that failed schema validation the duplicate-port block
    raises as soon as the context holds a manifest text. *)
Lemma duplicate_port_errors_None (context : LintingContext) (app : string) :
  all_app_manifests context <> [] ->
  duplicate_port_errors safe_load repr_container int_of_text context None app
  = Py.Raised (Py.AttributeError "'NoneType' object has no attribute 'port'").
Proof.
  unfold duplicate_port_errors.
  destruct (all_app_manifests context); [congruence | reflexivity].
Qed.

Lemma _validate_app_manifest_schema_failure (net : Network) (content app : string)
    (context : LintingContext) (github : Validator)
    (d : list (string * Py.value)) (message : string) :
  safe_load content = inr (Py.VDict d) ->
  UmbrelAppManifest (Py.VDict d) = inl message ->
  all_app_manifests context <> [] ->
  fst (_validate_app_manifest safe_load repr_container int_of_text UmbrelAppManifest
         urlparse net (Present (Readable content)) app context github)
  = Py.Raised (Py.AttributeError "'NoneType' object has no attribute 'port'").
Proof.
  intros Hload Hschema Hothers.
  unfold _validate_app_manifest, parse_yaml_with_error_handling.
  rewrite Hload.
  destruct (validate_github_urls_dict net d app github) as (errs & github' & ->).
  rewrite Hschema, (duplicate_port_errors_None context app Hothers). reflexivity.
Qed.

(** The exception leaves [lint_app] as well. *)
Lemma lint_app_schema_failure (net : Network) (a : AppDir) (content : string)
    (context : LintingContext) (github : Validator)
    (d : list (string * Py.value)) (message : string) :
  dir_exists a = true ->
  manifest_file a = Present (Readable content) ->
  safe_load content = inr (Py.VDict d) ->
  UmbrelAppManifest (Py.VDict d) = inl message ->
  all_app_manifests context <> [] ->
  fst (lint_app safe_load repr_container int_of_text UmbrelAppManifest urlparse
         net a context github)
  = Py.Raised (Py.AttributeError "'NoneType' object has no attribute 'port'").
Proof.
  intros Hdir Hfile Hload Hschema Hothers.
  pose proof (_validate_app_manifest_schema_failure net content (dir_name a)
                context github d message Hload Hschema Hothers) as H.
  unfold lint_app. rewrite Hdir, Hfile. cbn [negb].
  destruct (_validate_app_manifest _ _ _ _ _ _ _ _ _ _) as [[errs|e] github'];
    cbn [fst] in *; [discriminate|]. now inversion H.
Qed.

(** [merge] never touches the counters. *)
Lemma merge_counters (r other : LintingResult) :
  total_errors (merge r other) = total_errors r
  /\ total_warnings (merge r other) = total_warnings r
  /\ total_info (merge r other) = total_info r.
Proof. unfold merge. simpl. auto. Qed.

Lemma lint_each_counters (net : Network) (apps : list AppDir)
    (context : LintingContext) (result r : LintingResult) (github github' : Validator) :
  lint_each safe_load repr_container int_of_text UmbrelAppManifest urlparse
    net apps context result github = (Py.Returned r, github') ->
  total_errors r = total_errors result
  /\ total_warnings r = total_warnings result
  /\ total_info r = total_info result
  /\ exists added, errors r = errors result ++ added.
Proof.
  revert result github. induction apps as [|a rest IH]; intros result github H.
  - simpl in H. inversion H; subst. repeat split; auto.
    exists []. now rewrite app_nil_r.
  - simpl in H.
    destruct (lint_app _ _ _ _ _ _ _ _ _) as [[app_result|e] github1]; [|discriminate].
    apply IH in H as (He & Hw & Hi & added & Hadd).
    repeat split; auto.
    exists (errors app_result ++ added).
    rewrite Hadd. unfold merge. simpl. now rewrite app_assoc.
Qed.

(** In the whole-store branch the returned report has all three counters
    at zero, whatever findings it holds. *)
Lemma lint_all_apps_counters (net : Network) (store : StoreDir)
    (context : LintingContext) (r : LintingResult) (github github' : Validator) :
  root_has_manifest store = false ->
  lint_all_apps safe_load repr_container int_of_text UmbrelAppManifest
    UmbrelAppStoreManifest urlparse net store context github
  = (Py.Returned r, github') ->
  total_errors r = 0 /\ total_warnings r = 0 /\ total_info r = 0
  /\ exists added,
       errors r
       = errors (lint_app_store safe_load UmbrelAppStoreManifest store context) ++ added.
Proof.
  intros Hroot H. unfold lint_all_apps in H. rewrite Hroot in H.
  apply lint_each_counters in H as (He & Hw & Hi & added & Hadd).
  repeat split; auto. exists added. exact Hadd.
Qed.

(** Reports assembled with [add_error] alone satisfy the invariant. *)
Lemma lint_app_store_consistent (store : StoreDir) (context : LintingContext) :
  let r := lint_app_store safe_load UmbrelAppStoreManifest store context in
  flag_consistent r /\ counters_consistent r.
Proof.
  simpl. unfold lint_app_store.
  destruct empty_result_consistent as [Hf Hc].
  assert (H1 : forall r l, flag_consistent r /\ counters_consistent r ->
                 flag_consistent (add_errors r l) /\ counters_consistent (add_errors r l)).
  { intros r l [? ?]. now apply add_errors_consistent. }
  assert (H2 : forall r e, flag_consistent r /\ counters_consistent r ->
                 flag_consistent (add_error r e) /\ counters_consistent (add_error r e)).
  { intros r e H. exact (H1 r [e] H). }
  destruct (readme_exists store); simpl;
    destruct (store_manifest_file store) as [|read];
    try destruct (app_store_type context); auto 6.
Qed.

Lemma lint_app_consistent (net : Network) (a : AppDir) (context : LintingContext)
    (r : LintingResult) (github github' : Validator) :
  lint_app safe_load repr_container int_of_text UmbrelAppManifest urlparse
    net a context github = (Py.Returned r, github') ->
  flag_consistent r /\ counters_consistent r.
Proof.
  destruct empty_result_consistent as [Hf Hc].
  assert (H1 : forall r l, flag_consistent r /\ counters_consistent r ->
                 flag_consistent (add_errors r l) /\ counters_consistent (add_errors r l)).
  { intros r0 l [? ?]. now apply add_errors_consistent. }
  unfold lint_app. destruct (dir_exists a); cbn [negb].
  - destruct (_validate_app_manifest _ _ _ _ _ _ _ _ _ _) as [[manifest_errors|e] g1];
      [|discriminate].
    destruct (compose_outcome a) as [compose_errors|e]; [|discriminate].
    intros H. inversion H; subst. auto.
  - intros H. inversion H; subst.
    match goal with
    | |- flag_consistent (add_error ?r0 ?e) /\ _ => exact (H1 r0 [e] (conj Hf Hc))
    end.
Qed.

Lemma merge_flag_consistent (r other : LintingResult) :
  flag_consistent r -> flag_consistent other -> flag_consistent (merge r other).
Proof.
  unfold flag_consistent, merge. simpl. intros -> ->.
  now rewrite has_severity_app, negb_orb.
Qed.

Lemma lint_each_flag_consistent (net : Network) (apps : list AppDir)
    (context : LintingContext) (result r : LintingResult) (github github' : Validator) :
  flag_consistent result ->
  lint_each safe_load repr_container int_of_text UmbrelAppManifest urlparse
    net apps context result github = (Py.Returned r, github') ->
  flag_consistent r.
Proof.
  revert result github. induction apps as [|a rest IH]; intros result github Hf H.
  - simpl in H. now inversion H; subst.
  - simpl in H.
    destruct (lint_app _ _ _ _ _ _ _ _ _) as [[app_result|e] github1] eqn:Ha;
      [|discriminate].
    apply lint_app_consistent in Ha as [Hfa _].
    eapply IH; [|exact H]. now apply merge_flag_consistent.
Qed.

(** The flag of the report returned by [lint_all_apps] is right in both
    branches; the counters are right in the single-application branch. *)
Lemma lint_all_apps_flag_consistent (net : Network) (store : StoreDir)
    (context : LintingContext) (r : LintingResult) (github github' : Validator) :
  lint_all_apps safe_load repr_container int_of_text UmbrelAppManifest
    UmbrelAppStoreManifest urlparse net store context github
  = (Py.Returned r, github') ->
  flag_consistent r /\ (root_has_manifest store = true -> counters_consistent r).
Proof.
  unfold lint_all_apps. destruct (root_has_manifest store).
  - intros H. apply lint_app_consistent in H as [Hf Hc]. auto.
  - intros H. split; [|discriminate].
    eapply lint_each_flag_consistent; [|exact H].
    apply merge_flag_consistent.
    + apply empty_result_consistent.
    + apply lint_app_store_consistent.
Qed.

End LinterFacts.

Section LinterExamples.
Import Models GitHubValidator Linter.

(** C1.  The specification wants the duplicate-port check skipped and the
    findings returned when schema validation fails; the code raises.
    Whenever the manifest text loads to a mapping, schema validation fails
    and the context supplies at least one manifest text,
    [_validate_app_manifest] raises [AttributeError] instead of returning
    its findings (and [lint_app] with it); the same manifest is reported
    normally when the context supplies no manifest text. *)
Theorem manifest_validation_raises_after_schema_failure :
  (forall safe_load repr_container int_of_text UmbrelAppManifest urlparse
          net content app context github d message,
      safe_load content = inr (Py.VDict d) ->
      UmbrelAppManifest (Py.VDict d) = inl message ->
      all_app_manifests context <> [] ->
      fst (_validate_app_manifest safe_load repr_container int_of_text
             UmbrelAppManifest urlparse net (Present (Readable content))
             app context github)
      = Py.Raised (Py.AttributeError "'NoneType' object has no attribute 'port'"))
  /\ fst (_validate_app_manifest sample_safe_load (fun _ => "") (fun _ => None)
            sample_schema sample_urlparse (fun _ => RequestFailed)
            (Present (Readable "id: my-app")) "my-app"
            context_with_other_app new_validator)
     = Py.Raised (Py.AttributeError "'NoneType' object has no attribute 'port'")
  /\ fst (lint_app sample_safe_load (fun _ => "") (fun _ => None)
            sample_schema sample_urlparse (fun _ => RequestFailed)
            sample_app context_with_other_app new_validator)
     = Py.Raised (Py.AttributeError "'NoneType' object has no attribute 'port'")
  /\ Py.returns
       (fst (_validate_app_manifest sample_safe_load (fun _ => "") (fun _ => None)
               sample_schema sample_urlparse (fun _ => RequestFailed)
               (Present (Readable "id: my-app")) "my-app"
               default_context new_validator)) = true.
Proof.
  split; [|split; [|split]].
  - intros. eapply _validate_app_manifest_schema_failure; eassumption.
  - vm_compute. reflexivity.
  - vm_compute. reflexivity.
  - vm_compute. reflexivity.
Qed.

(** C6.  The specification wants the counters of the report of a whole
    store to count its findings; the code leaves them untouched.  A report
    returned by the whole-store branch of [lint_all_apps] has its three
    counters at zero whatever findings it holds (only its flag is kept in
    step): on a community store without store manifest and README it holds
    one [ERROR] and one [WARNING] finding while [total_errors] and
    [total_warnings] are both zero. *)
Theorem whole_store_counters_stay_zero :
  (forall safe_load repr_container int_of_text UmbrelAppManifest
          UmbrelAppStoreManifest urlparse net store context github r github',
      root_has_manifest store = false ->
      lint_all_apps safe_load repr_container int_of_text UmbrelAppManifest
        UmbrelAppStoreManifest urlparse net store context github
      = (Py.Returned r, github') ->
      total_errors r = 0 /\ total_warnings r = 0 /\ total_info r = 0
      /\ flag_consistent r)
  /\ (exists r,
        fst (lint_all_apps sample_safe_load (fun _ => "") (fun _ => None)
               sample_schema (fun _ => None) sample_urlparse (fun _ => RequestFailed)
               bare_store default_context new_validator) = Py.Returned r
        /\ map severity (errors r) = [ERROR; WARNING]
        /\ total_errors r = 0 /\ count_severity ERROR (errors r) = 1
        /\ total_warnings r = 0 /\ count_severity WARNING (errors r) = 1).
Proof.
  split.
  - intros until github'. intros Hroot H.
    destruct (lint_all_apps_counters _ _ _ _ _ _ _ _ _ _ _ _ Hroot H)
      as (He & Hw & Hi & _).
    destruct (lint_all_apps_flag_consistent _ _ _ _ _ _ _ _ _ _ _ _ H) as [Hf _].
    auto.
  - eexists. split; [vm_compute; reflexivity|].
    repeat split; vm_compute; reflexivity.
Qed.

End LinterExamples.

(* ===================================================================== *)
(** * Further properties of the report and the orchestrator *)
(* ===================================================================== *)

Section MoreReportFacts.
Import Models.

Lemma count_severity_total (l : list LintingError) :
  count_severity ERROR l + count_severity WARNING l + count_severity INFO l
  = Z.of_nat (length l).
Proof.
  induction l as [|e l IH].
  - reflexivity.
  - rewrite !count_severity_cons. simpl length.
    destruct (severity e); simpl Severity_eqb; lia.
Qed.

(** X1.  A report filled by [add_error] alone holds the findings in the
    order of insertion, its three counters count the findings of each
    severity and add up to the number of findings, and [has_errors()]
    answers the opposite of [success]. *)
Theorem report_filled_by_add_error (l : list LintingError) :
  let r := add_errors empty_result l in
  errors r = l
  /\ total_errors r = count_severity ERROR l
  /\ total_warnings r = count_severity WARNING l
  /\ total_info r = count_severity INFO l
  /\ total_errors r + total_warnings r + total_info r = Z.of_nat (length l)
  /\ has_errors r = negb (success r).
Proof.
  cbv zeta.
  destruct (add_errors_counters l empty_result) as (He & Hw & Hi).
  assert (Herr : errors (add_errors empty_result l) = l)
    by (now rewrite add_errors_errors).
  rewrite He, Hw, Hi. simpl total_errors. simpl total_warnings. simpl total_info.
  repeat split; auto.
  - pose proof (count_severity_total l). lia.
  - unfold has_errors. rewrite Herr, add_errors_success. simpl.
    now rewrite negb_involutive.
Qed.

End MoreReportFacts.

Section MoreLinterFacts.
Import Models GitHubValidator Linter PortCollisions.

Variable safe_load : string -> string + Py.value.
Variable repr_container : Py.value -> string.
Variable int_of_text : string -> option Z.
Variable UmbrelAppManifest : Py.value -> string + Manifest.
Variable UmbrelAppStoreManifest : Py.value -> option string.
Variable urlparse : string -> option ParseResult.

Lemma has_id_app (i : string) (l1 l2 : list LintingError) :
  has_id i (l1 ++ l2) = has_id i l1 || has_id i l2.
Proof. apply existsb_app. Qed.

(** The GitHub checks report under two identifiers only. *)
Lemma validate_pull_request_ids (net : Network) (url app : string) (self : Validator) :
  has_id "duplicate_ui_port" (fst (validate_pull_request urlparse net url app self)) = false.
Proof.
  unfold validate_pull_request.
  destruct (_is_github_pr_url urlparse url); simpl; [|reflexivity].
  destruct (_pr_exists urlparse net url self) as [[|] self']; reflexivity.
Qed.

Lemma _validate_github_repo_url_ids (net : Network) (url app : string) (self : Validator) :
  has_id "duplicate_ui_port"
    (fst (_validate_github_repo_url urlparse net url app self)) = false.
Proof.
  unfold _validate_github_repo_url.
  destruct (_is_github_repo_url urlparse url); simpl; [|reflexivity].
  destruct (_repo_exists net url self) as [[|] self']; reflexivity.
Qed.

Lemma validate_github_urls_ids (net : Network) (d : list (string * Py.value))
    (app : string) (self : Validator) (errs : list LintingError) (self' : Validator) :
  validate_github_urls urlparse repr_container net (Py.VDict d) app self
    = (Py.Returned errs, self') ->
  has_id "duplicate_ui_port" errs = false.
Proof.
  unfold validate_github_urls. simpl.
  assert (H1 : has_id "duplicate_ui_port"
            (fst (match Py.dict_get d "submission" with
                  | Some u =>
                      if Py.truth u
                      then validate_pull_request urlparse net
                             (Py.str repr_container u) app self
                      else ([], self)
                  | None => ([], self)
                  end)) = false).
  { destruct (Py.dict_get d "submission") as [u|]; [|reflexivity].
    destruct (Py.truth u); [apply validate_pull_request_ids | reflexivity]. }
  destruct (match Py.dict_get d "submission" with Some _ => _ | None => _ end)
    as [pr_errors self1]. simpl in H1.
  assert (H2 : has_id "duplicate_ui_port"
            (fst (match Py.dict_get d "repo" with
                  | Some (Py.VStr u) =>
                      if Py.nonempty u && Py.nonempty (Py.strip u)
                      then _validate_github_repo_url urlparse net u app self1
                      else ([], self1)
                  | _ => ([], self1)
                  end)) = false).
  { destruct (Py.dict_get d "repo") as [[| | |u| |]|]; try reflexivity.
    destruct (Py.nonempty u && Py.nonempty (Py.strip u));
      [apply _validate_github_repo_url_ids | reflexivity]. }
  destruct (match Py.dict_get d "repo" with Some _ => _ | None => _ end)
    as [repo_errors self2]. simpl in H2.
  intros H. inversion H; subst. now rewrite has_id_app, H1, H2.
Qed.

Lemma new_submission_errors_ids (context : LintingContext) (m : Manifest) (app : string) :
  has_id "duplicate_ui_port" (new_submission_errors context m app) = false.
Proof.
  unfold new_submission_errors. rewrite !has_id_app.
  destruct (pull_request_url context) as [pr|];
    [destruct (Py.nonempty pr && negb (String.eqb (submission m) pr))|];
    destruct (Py.truthy (releaseNotes m));
    destruct (Py.truthy (icon m) || match gallery m with [] => false | _ => true end);
    reflexivity.
Qed.

(** One round of the loop of [_get_used_ports] records a port exactly when
    the manifest text declares it; recorded ports stay recorded. *)
Lemma used_ports_step_spec (app content : string) (m : gmap Z string) (p : Z) :
  is_Some (used_ports_step safe_load repr_container int_of_text app m content !! p)
  <-> is_Some (m !! p) \/ declares_port safe_load int_of_text app content p.
Proof.
  unfold used_ports_step, parse_yaml_with_error_handling, declares_port.
  split.
  - destruct (safe_load content) as [e|[| | | | |d]] eqn:Hload; auto.
    destruct (Py.truth (Py.VDict d)); auto.
    destruct (Py.dict_get d "id") as [app_id|] eqn:Hid; auto.
    destruct (Py.dict_get d "name") as [name|] eqn:Hname; auto.
    destruct (Py.dict_get d "port") as [port|] eqn:Hport; auto.
    destruct (Py.truth app_id) eqn:T1; simpl; auto.
    destruct (Py.truth name) eqn:T2; simpl; auto.
    destruct (Py.truth port) eqn:T3; simpl; auto.
    destruct (differs app_id app) eqn:Hd; simpl; auto.
    destruct (int_of_value int_of_text port) as [q|] eqn:Hint; auto.
    destruct (decide (q = p)) as [->|Hne].
    + intros _. right. exists d, app_id, name, port. repeat split; auto.
    + rewrite lookup_insert_ne by exact Hne. auto.
  - intros [Hm|(d & app_id & name & port & Hload & Hid & Hname & Hport
                 & T1 & T2 & T3 & Hd & Hint)].
    + destruct (safe_load content) as [e|[| | | | |d]]; auto.
      destruct (Py.truth (Py.VDict d)); auto.
      destruct (Py.dict_get d "id") as [app_id|]; auto.
      destruct (Py.dict_get d "name") as [name|]; auto.
      destruct (Py.dict_get d "port") as [port|]; auto.
      destruct (Py.truth app_id && Py.truth name && Py.truth port
                && differs app_id app); auto.
      destruct (int_of_value int_of_text port) as [q|]; auto.
      destruct (decide (q = p)) as [->|Hne].
      * rewrite lookup_insert_eq. now eexists.
      * now rewrite lookup_insert_ne.
    + rewrite Hload.
      assert (Hne : Py.truth (Py.VDict d) = true).
      { destruct d; [discriminate Hid | reflexivity]. }
      rewrite Hne, Hid, Hname, Hport, T1, T2, T3, Hd, Hint. simpl.
      rewrite lookup_insert_eq. now eexists.
Qed.

Lemma _get_used_ports_spec (manifests : list string) (app : string) (p : Z) :
  is_Some (_get_used_ports safe_load repr_container int_of_text manifests app !! p)
  <-> exists content,
        In content manifests /\ declares_port safe_load int_of_text app content p.
Proof.
  unfold _get_used_ports.
  assert (H : forall m,
             is_Some (fold_left (used_ports_step safe_load repr_container int_of_text app)
                        manifests m !! p)
             <-> is_Some (m !! p)
                 \/ exists content,
                      In content manifests
                      /\ declares_port safe_load int_of_text app content p).
  { induction manifests as [|c rest IH]; intros m; simpl.
    - split; [auto | intros [Hm|(c & [] & _)]; exact Hm].
    - rewrite IH, used_ports_step_spec. split.
      + intros [[Hm|Hd]|(c' & Hin & Hd)]; eauto.
      + intros [Hm|(c' & [<-|Hin] & Hd)]; eauto. }
  rewrite H. rewrite lookup_empty. split.
  - intros [[x Hx]|Hd]; [discriminate | exact Hd].
  - auto.
Qed.

(** X2.  Every report that [lint_app] returns, and the report of
    [lint_app_store], satisfies the invariant of the report: the flag is
    false exactly when an [ERROR] finding is present and the counters count
    the findings of each severity. *)
Theorem lint_app_reports_are_consistent (net : Network) (a : AppDir)
    (store : StoreDir) (context : LintingContext)
    (r : LintingResult) (github github' : Validator) :
  lint_app safe_load repr_container int_of_text UmbrelAppManifest urlparse
    net a context github = (Py.Returned r, github') ->
  (flag_consistent r /\ counters_consistent r)
  /\ (flag_consistent (lint_app_store safe_load UmbrelAppStoreManifest store context)
      /\ counters_consistent
           (lint_app_store safe_load UmbrelAppStoreManifest store context)).
Proof.
  intros H. split.
  - exact (lint_app_consistent safe_load repr_container int_of_text UmbrelAppManifest
             urlparse net a context r github github' H).
  - exact (lint_app_store_consistent safe_load UmbrelAppStoreManifest store context).
Qed.

(** X3.  A manifest that is valid YAML but does not load to a mapping (an
    empty file, a list, a scalar) makes [_validate_app_manifest] raise
    [AttributeError] at [manifest_data.get("submission")], before any
    request to GitHub and before schema validation; [lint_app] raises with
    it and returns no report. *)
Theorem manifest_document_must_be_a_mapping (net : Network) (content app : string)
    (context : LintingContext) (github : Validator) (data : Py.value) :
  safe_load content = inr data ->
  (forall d, data <> Py.VDict d) ->
  _validate_app_manifest safe_load repr_container int_of_text UmbrelAppManifest
    urlparse net (Present (Readable content)) app context github
  = (Py.Raised (Py.AttributeError
                  ("'" +:+ Py.type_name data +:+ "' object has no attribute 'get'")),
     github)
  /\ forall a,
       dir_exists a = true ->
       manifest_file a = Present (Readable content) ->
       lint_app safe_load repr_container int_of_text UmbrelAppManifest urlparse
         net a context github
       = (Py.Raised (Py.AttributeError
                       ("'" +:+ Py.type_name data +:+ "' object has no attribute 'get'")),
          github).
Proof.
  intros Hload Hdata.
  assert (E : forall app0,
             _validate_app_manifest safe_load repr_container int_of_text
               UmbrelAppManifest urlparse net (Present (Readable content)) app0
               context github
             = (Py.Raised (Py.AttributeError
                             ("'" +:+ Py.type_name data
                                +:+ "' object has no attribute 'get'")), github)).
  { intros app0. unfold _validate_app_manifest, parse_yaml_with_error_handling.
    rewrite Hload. unfold validate_github_urls.
    destruct data as [| | | | |d]; try reflexivity.
    exfalso. now apply (Hdata d). }
  split; [apply E|].
  intros a Hdir Hfile. unfold lint_app. rewrite Hdir, Hfile. cbn [negb].
  now rewrite E.
Qed.

(** X4.  When a manifest that passes the schema is validated and the
    findings are returned: if a manifest text of the context declares the
    port of the manifest under another application id, the last finding is
    the [duplicate_ui_port] error, no finding before it carries that
    identifier, and the application it names is the one [_get_used_ports]
    recorded for the port. *)
Theorem declared_port_is_reported (net : Network) (content app : string)
    (context : LintingContext) (github github' : Validator)
    (d : list (string * Py.value)) (m : Manifest) (errs : list LintingError)
    (other : string) :
  safe_load content = inr (Py.VDict d) ->
  UmbrelAppManifest (Py.VDict d) = inr m ->
  _validate_app_manifest safe_load repr_container int_of_text UmbrelAppManifest
    urlparse net (Present (Readable content)) app context github
  = (Py.Returned errs, github') ->
  In other (all_app_manifests context) ->
  declares_port safe_load int_of_text app other (port m) ->
  exists before app_name,
    errs = before
           ++ [finding "duplicate_ui_port" ERROR
                 ("Port " +:+ Py.str_of_int (port m) +:+ " is already used by "
                    +:+ app_name)
                 "Each app must use a unique port"
                 (app +:+ "/umbrel-app.yml") (Some "port")]
    /\ has_id "duplicate_ui_port" before = false
    /\ _get_used_ports safe_load repr_container int_of_text
         (all_app_manifests context) app !! port m = Some app_name.
Proof.
  intros Hload Hschema Hrun Hin Hdecl.
  unfold _validate_app_manifest, parse_yaml_with_error_handling in Hrun.
  rewrite Hload in Hrun.
  destruct (validate_github_urls urlparse repr_container net (Py.VDict d) app github)
    as [[github_errors|e] github1] eqn:Hgh; [|discriminate].
  apply validate_github_urls_ids in Hgh.
  rewrite Hschema in Hrun. unfold duplicate_port_errors in Hrun.
  pose proof (proj2 (_get_used_ports_spec (all_app_manifests context) app (port m))
                (ex_intro _ other (conj Hin Hdecl))) as [app_name Hlook].
  pose proof (new_submission_errors_ids context m app) as Hsub.
  destruct (all_app_manifests context) as [|c0 rest] eqn:Hctx; [destruct Hin|].
  cbn [manifest_port Py.bind] in Hrun. rewrite Hlook in Hrun. cbn [Py.bind] in Hrun.
  inversion Hrun; subst errs github1. clear Hrun.
  exists (github_errors
          ++ (if is_new_submission context then new_submission_errors context m app
              else [])), app_name.
  split; [cbn [List.app]; now rewrite <- app_assoc|].
  split; [|exact Hlook].
  rewrite has_id_app, Hgh. cbn [orb].
  destruct (is_new_submission context); [exact Hsub | reflexivity].
Qed.

End MoreLinterFacts.

Section MoreLinterExamples.
Import Models GitHubValidator Linter PortCollisions PortExamples.

(** The theorem at work on the sample application. *)
Lemma lint_app_reports_are_consistent_witness :
  match fst (lint_app sample_safe_load (fun _ => "") (fun _ => None) sample_schema
               sample_urlparse (fun _ => RequestFailed) sample_app default_context
               new_validator) with
  | Py.Returned r => flag_consistent r /\ counters_consistent r /\ errors r <> []
  | Py.Raised _ => False
  end.
Proof.
  destruct (lint_app sample_safe_load (fun _ => "") (fun _ => None) sample_schema
              sample_urlparse (fun _ => RequestFailed) sample_app default_context
              new_validator) as [[r|e] github'] eqn:E; simpl.
  - destruct (lint_app_reports_are_consistent sample_safe_load (fun _ => "")
                (fun _ => None) sample_schema (fun _ => None) sample_urlparse
                (fun _ => RequestFailed) sample_app bare_store default_context
                r new_validator github' E) as [[Hf Hc] _].
    split; [exact Hf|]. split; [exact Hc|].
    vm_compute in E. inversion E. discriminate.
  - vm_compute in E. discriminate.
Defined.

(** The theorem at work on an empty manifest file, which loads to
    [None]. *)
Lemma manifest_document_must_be_a_mapping_witness :
  lint_app sample_safe_load (fun _ => "") (fun _ => None) sample_schema
    sample_urlparse (fun _ => RequestFailed)
    (mkAppDir "my-app" true (Present (Readable "")) (Py.Returned []) [])
    default_context new_validator
  = (Py.Raised (Py.AttributeError "'NoneType' object has no attribute 'get'"),
     new_validator).
Proof.
  apply (proj2 (manifest_document_must_be_a_mapping sample_safe_load (fun _ => "")
                  (fun _ => None) sample_schema sample_urlparse (fun _ => RequestFailed)
                  "" "my-app" default_context new_validator Py.VNone
                  eq_refl ltac:(discriminate))
           (mkAppDir "my-app" true (Present (Readable "")) (Py.Returned []) [])
           eq_refl eq_refl).
Defined.

(** The theorem at work: the application declares port 3000, and so does
    the manifest of another application of the store. *)
Lemma declared_port_is_reported_witness :
  exists errs,
    fst (_validate_app_manifest flow_load (fun _ => "") (fun _ => None)
           port_schema sample_urlparse (fun _ => RequestFailed)
           (Present (Readable "{id: my-app, name: Mine, port: 3000}")) "my-app"
           context_with_flow_manifest new_validator) = Py.Returned errs
    /\ map id errs = ["duplicate_ui_port"]
    /\ map title errs = ["Port 3000 is already used by Other (other-app)"].
Proof.
  destruct (_validate_app_manifest flow_load (fun _ => "") (fun _ => None)
              port_schema sample_urlparse (fun _ => RequestFailed)
              (Present (Readable "{id: my-app, name: Mine, port: 3000}")) "my-app"
              context_with_flow_manifest new_validator) as [[errs|e] github'] eqn:Hrun;
    [|vm_compute in Hrun; discriminate].
  destruct (declared_port_is_reported flow_load (fun _ => "") (fun _ => None)
              port_schema sample_urlparse (fun _ => RequestFailed)
              "{id: my-app, name: Mine, port: 3000}" "my-app"
              context_with_flow_manifest new_validator github'
              [("id", Py.VStr "my-app"); ("name", Py.VStr "Mine"); ("port", Py.VInt 3000)]
              (mkManifest "" None None [] 3000) errs
              "{id: other-app, name: Other, port: 3000}"
              eq_refl eq_refl Hrun ltac:(left; reflexivity)
              ltac:(exists [("id", Py.VStr "other-app"); ("name", Py.VStr "Other");
                            ("port", Py.VInt 3000)],
                      (Py.VStr "other-app"), (Py.VStr "Other"), (Py.VInt 3000);
                    repeat split; reflexivity))
    as (before & app_name & Herrs & _ & _).
  exists errs. split; [reflexivity|].
  vm_compute in Hrun. inversion Hrun. split; reflexivity.
Defined.

End MoreLinterExamples.

Section StructureFacts.
Import Models Structure.

Lemma str_app_assoc (a b c : string) : (a +:+ b) +:+ c = a +:+ (b +:+ c).
Proof.
  induction a as [|x a IH]; [reflexivity|].
  change ((String x a +:+ b) +:+ c) with (String x ((a +:+ b) +:+ c)).
  now rewrite IH.
Qed.

Lemma startswith_app (s t : string) : Py.startswith (s +:+ t) s = true.
Proof.
  induction s as [|a s IH]; [now destruct t|].
  change (String a s +:+ t) with (String a (s +:+ t)).
  simpl. now rewrite Ascii.eqb_refl.
Qed.

Lemma empty_directory_finding_inj (d1 d2 : string) :
  empty_directory_finding d1 = empty_directory_finding d2 -> d1 = d2.
Proof. intros H. exact (f_equal file H). Qed.

Lemma flat_map_option_NoDup {A B : Type} (keep : A -> bool) (g : A -> B) (l : list A) :
  (forall x y, g x = g y -> x = y) ->
  NoDup l ->
  NoDup (flat_map (fun x => if keep x then [g x] else []) l).
Proof.
  intros Hinj Hnd. induction Hnd as [|x l Hx Hnd IH]; simpl; [constructor|].
  destruct (keep x); simpl; [|exact IH].
  constructor; [|exact IH].
  intros Hin. apply list_elem_of_In, in_flat_map in Hin as (y & Hy & Hg).
  destruct (keep y); [|destruct Hg].
  destruct Hg as [Hg|[]]. apply Hinj in Hg. subst y.
  apply Hx. now apply list_elem_of_In.
Qed.

Lemma first_occurrences_In (l : list string) (x : string) :
  In x (first_occurrences l) <-> In x l.
Proof.
  induction l as [|y l IH]; simpl; [tauto|].
  rewrite <- IH. split.
  - intros [->|H]; [now left|].
    apply list_elem_of_In, list_elem_of_filter in H as [_ H].
    right. now apply list_elem_of_In.
  - intros [->|H]; [now left|].
    destruct (String.eqb_spec y x) as [->|Hne]; [now left|].
    right. apply list_elem_of_In, list_elem_of_filter. split.
    + apply negb_true_iff. now apply String.eqb_neq.
    + now apply list_elem_of_In.
Qed.

Lemma first_occurrences_NoDup (l : list string) : NoDup (first_occurrences l).
Proof.
  induction l as [|y l IH]; simpl; constructor.
  - intros H. apply list_elem_of_filter in H as [H _].
    apply negb_true_iff in H. now rewrite String.eqb_refl in H.
  - now apply NoDup_filter.
Qed.

(** X5.  Whatever the order in which the set of directories is visited,
    [_validate_directory_structure] reports exactly the directory entries
    under which no entry lies, each once; in particular a directory that
    holds a [.gitkeep] file is never reported. *)
Theorem empty_directories_reported (set_order : list string -> list string)
    (files : list FileEntry) :
  (forall l x, In x (set_order l) <-> In x l) ->
  (forall l, NoDup (set_order l)) ->
  (forall e,
     In e (_validate_directory_structure set_order files)
     <-> exists f,
           In f files /\ type f = "directory"
           /\ has_content files (path f) = false
           /\ e = empty_directory_finding (path f))
  /\ NoDup (_validate_directory_structure set_order files)
  /\ (forall d f,
        In f files -> path f = d +:+ "/" +:+ ".gitkeep" ->
        ~ In (empty_directory_finding d)
             (_validate_directory_structure set_order files)).
Proof.
  intros Hsame Hnodup.
  assert (Hchar : forall e,
     In e (_validate_directory_structure set_order files)
     <-> exists f,
           In f files /\ type f = "directory"
           /\ has_content files (path f) = false
           /\ e = empty_directory_finding (path f)).
  { intros e. unfold _validate_directory_structure. rewrite in_flat_map. split.
    - intros (d & Hd & He). apply Hsame, in_map_iff in Hd as (f & <- & Hf).
      apply list_elem_of_In, list_elem_of_filter in Hf as [Hty Hf].
      destruct (has_content files (path f)) eqn:Hc; simpl in He; [destruct He|].
      destruct He as [<-|[]]. exists f. repeat split; auto.
      + now apply list_elem_of_In.
      + now apply String.eqb_eq.
    - intros (f & Hf & Hty & Hc & ->). exists (path f). split.
      + apply Hsame, in_map_iff. exists f. split; [reflexivity|].
        apply list_elem_of_In, list_elem_of_filter. split.
        * now apply String.eqb_eq.
        * now apply list_elem_of_In.
      + rewrite Hc. now left. }
  split; [exact Hchar|]. split.
  - unfold _validate_directory_structure.
    apply (flat_map_option_NoDup (fun d => negb (has_content files d))
             empty_directory_finding).
    + apply empty_directory_finding_inj.
    + apply Hnodup.
  - intros d f Hf Hpath Hin.
    apply Hchar in Hin as (f' & _ & _ & Hc & He).
    apply empty_directory_finding_inj in He. subst d.
    assert (Htrue : has_content files (path f') = true).
    { unfold has_content. apply existsb_exists. exists f. split; [exact Hf|].
      rewrite Hpath.
      rewrite <- str_app_assoc. apply startswith_app. }
    congruence.
Qed.

(** The theorem at work on an application with an empty [logs] directory
    and a [data] directory that holds a [.gitkeep]. *)
Lemma empty_directories_reported_witness :
  In (empty_directory_finding "logs")
     (_validate_directory_structure first_occurrences
        [mkFileEntry "data" "directory"; mkFileEntry "data/.gitkeep" "file";
         mkFileEntry "logs" "directory"])
  /\ ~ In (empty_directory_finding "data")
          (_validate_directory_structure first_occurrences
             [mkFileEntry "data" "directory"; mkFileEntry "data/.gitkeep" "file";
              mkFileEntry "logs" "directory"]).
Proof.
  destruct (empty_directories_reported first_occurrences
              [mkFileEntry "data" "directory"; mkFileEntry "data/.gitkeep" "file";
               mkFileEntry "logs" "directory"]
              first_occurrences_In first_occurrences_NoDup) as (Hchar & _ & Hkeep).
  split.
  - apply Hchar. exists (mkFileEntry "logs" "directory").
    split; [right; right; left; reflexivity|]. repeat split; reflexivity.
  - apply (Hkeep "data" (mkFileEntry "data/.gitkeep" "file")).
    + right. left. reflexivity.
    + reflexivity.
Defined.

End StructureFacts.

(* ===================================================================== *)
(** * Further properties of image references and of the registry client *)
(* ===================================================================== *)

Section MoreStringFacts.

Lemma has_char_app (c : ascii) (a b : string) :
  Py.has_char c (a +:+ b) = Py.has_char c a || Py.has_char c b.
Proof.
  induction a as [|x a IH]; [reflexivity|].
  change (String x a +:+ b) with (String x (a +:+ b)).
  simpl. now rewrite IH, orb_assoc.
Qed.

Lemma rsplit1_Some (c : ascii) (s l r : string) :
  Py.rsplit1 c s = Some (l, r) ->
  s = l +:+ String c r /\ Py.has_char c r = false.
Proof.
  revert l. induction s as [|a s IH]; intros l H; [discriminate|].
  simpl in H. destruct (Py.rsplit1 c s) as [[l' r']|] eqn:E.
  - inversion H; subst. destruct (IH l' eq_refl) as [-> Hr]. now split.
  - destruct (Ascii.eqb_spec a c) as [->|]; [|discriminate].
    inversion H; subst. split; [reflexivity|]. now apply rsplit1_None.
Qed.

Lemma split_not_nil (c : ascii) (s : string) : Py.split c s <> [].
Proof.
  destruct s as [|a s]; simpl; [discriminate|].
  destruct (Ascii.eqb a c); [discriminate|].
  destruct (Py.split c s); discriminate.
Qed.

Lemma split_cons (c a : ascii) (s : string) :
  Py.split c (String a s)
  = if Ascii.eqb a c then "" :: Py.split c s
    else match Py.split c s with
         | w :: ws => String a w :: ws
         | [] => [String a ""]
         end.
Proof. reflexivity. Qed.

Lemma split_no_sep (c : ascii) (s : string) :
  Py.has_char c s = false -> Py.split c s = [s].
Proof.
  induction s as [|a s IH]; [reflexivity|].
  simpl. intros [Ha Hs]%orb_false_elim. now rewrite Ha, (IH Hs).
Qed.

Lemma split_app (c : ascii) (a b : string) :
  Py.has_char c a = false ->
  Py.split c (a +:+ String c b) = a :: Py.split c b.
Proof.
  induction a as [|x a IH]; intros H.
  - change ("" +:+ String c b) with (String c b).
    rewrite split_cons. now rewrite Ascii.eqb_refl.
  - simpl in H. apply orb_false_elim in H as [Hx Ha].
    change (String x a +:+ String c b) with (String x (a +:+ String c b)).
    rewrite split_cons, Hx, (IH Ha). reflexivity.
Qed.

Lemma split_parts (c : ascii) (s : string) :
  Forall (fun w => Py.has_char c w = false) (Py.split c s).
Proof.
  induction s as [|a s IH]; [repeat constructor|].
  rewrite split_cons. destruct (Ascii.eqb a c) eqn:Ea.
  - constructor; [reflexivity | exact IH].
  - destruct (Py.split c s) as [|w ws].
    + repeat constructor. simpl. now rewrite Ea.
    + inversion IH; subst. constructor; [|assumption].
      simpl. now rewrite Ea.
Qed.

Lemma join_cons2 (sep w w' : string) (ws : list string) :
  Py.join sep (w :: w' :: ws) = w +:+ sep +:+ Py.join sep (w' :: ws).
Proof. reflexivity. Qed.

Lemma join_split (c : ascii) (s : string) :
  Py.join (String c "") (Py.split c s) = s.
Proof.
  induction s as [|a s IH]; [reflexivity|].
  rewrite split_cons. destruct (Ascii.eqb_spec a c) as [->|Hne].
  - pose proof (split_not_nil c s) as Hnil.
    destruct (Py.split c s) as [|w ws]; [congruence|].
    rewrite join_cons2, IH. reflexivity.
  - pose proof (split_not_nil c s) as Hnil.
    destruct (Py.split c s) as [|w ws]; [congruence|].
    destruct ws as [|w' ws].
    + simpl in *. now rewrite IH.
    + rewrite join_cons2 in *. rewrite <- IH. reflexivity.
Qed.

Lemma split_join (c : ascii) (l : list string) :
  l <> [] ->
  Forall (fun w => Py.has_char c w = false) l ->
  Py.split c (Py.join (String c "") l) = l.
Proof.
  intros Hnil Hall. induction Hall as [|w ws Hw Hws IH]; [congruence|].
  destruct ws as [|w' ws].
  - simpl. now apply split_no_sep.
  - rewrite join_cons2.
    change (w +:+ String c "" +:+ Py.join (String c "") (w' :: ws))
      with (w +:+ String c (Py.join (String c "") (w' :: ws))).
    rewrite (split_app c w _ Hw), IH; [reflexivity | discriminate].
Qed.

End MoreStringFacts.

Section ParseNameFacts.
Import Models DockerImageValidator ImageReference.

Lemma app_empty_r (s : string) : s +:+ "" = s.
Proof.
  induction s as [|a s IH]; [reflexivity|].
  change (String a s +:+ "") with (String a (s +:+ "")). now rewrite IH.
Qed.

Lemma from_string_parse_name (s : string) :
  from_string s
  = match Py.rsplit1 "@" s with
    | Some (image_part, digest) =>
        match Py.rsplit1 ":" image_part with
        | Some (name_part, tag) => parse_name name_part (Some tag) (Some digest)
        | None => parse_name image_part None (Some digest)
        end
    | None =>
        match Py.rsplit1 ":" s with
        | Some (name_part, tag) => parse_name name_part (Some tag) None
        | None => parse_name s None None
        end
    end.
Proof.
  unfold from_string, parse_name.
  destruct (Py.rsplit1 "@" s) as [[ip dd]|].
  - destruct (Py.rsplit1 ":" ip) as [[np tg]|]; reflexivity.
  - destruct (Py.rsplit1 ":" s) as [[np tg]|]; reflexivity.
Qed.

Lemma suffix_no_char (c sep : ascii) (part : option string) :
  Ascii.eqb sep c = false ->
  match part with Some t => Py.has_char c t = false | None => True end ->
  Py.has_char c (suffix sep part) = false.
Proof.
  intros Hsep H. destruct part as [t|]; [|reflexivity].
  cbn [suffix Py.has_char]. now rewrite Hsep, H.
Qed.

(** Parsing a text put together from a name, a tag and a digest. *)
Lemma from_string_build (np : string) (t d : option string) :
  match t with
  | Some tg => Py.has_char ":" tg = false
  | None => Py.has_char ":" np = false
  end ->
  match d with
  | Some dd => Py.has_char "@" dd = false
  | None => Py.has_char "@" np = false
            /\ match t with Some tg => Py.has_char "@" tg = false | None => True end
  end ->
  from_string (np +:+ suffix ":" t +:+ suffix "@" d) = parse_name np t d.
Proof.
  intros Ht Hd. rewrite from_string_parse_name.
  assert (Htag : Py.rsplit1 ":" (np +:+ suffix ":" t)
                 = match t with Some tg => Some (np, tg) | None => None end).
  { destruct t as [tg|]; simpl.
    - now apply rsplit1_last.
    - rewrite app_empty_r. now apply rsplit1_None. }
  destruct d as [dd|]; simpl.
  - rewrite <- str_app_assoc, (rsplit1_last "@" _ dd Hd), Htag.
    destruct t; cbn [suffix]; now rewrite ?app_empty_r.
  - rewrite app_empty_r. destruct Hd as [Hnp Htt].
    assert (Hno : Py.rsplit1 "@" (np +:+ suffix ":" t) = None).
    { apply rsplit1_None. rewrite has_char_app, Hnp. simpl.
      now apply suffix_no_char. }
    rewrite Hno, Htag. destruct t; cbn [suffix]; now rewrite ?app_empty_r.
Qed.

Lemma parse_name_tag_digest (np : string) (t d : option string) :
  tag (parse_name np t d) = t /\ digest (parse_name np t d) = d.
Proof.
  unfold parse_name.
  destruct (Py.split "/" np) as [|p0 [|p1 [|p2 rest]]]; try (now split).
  now destruct (Py.has_char "." p0 || Py.has_char ":" p0).
Qed.

(** Host and path of a parsed name put together give the name again, up
    to the Docker Hub prefix that was filled in; and the name with that
    prefix parses to the same image. *)
Lemma parse_name_prefix (np : string) (t d : option string) :
  exists prefix,
    (prefix = "" \/ prefix = "docker.io/" \/ prefix = "docker.io/library/")
    /\ host (parse_name np t d) +:+ "/" +:+ path (parse_name np t d) = prefix +:+ np
    /\ forall t' d', parse_name (prefix +:+ np) t' d' 
                     = mkImage (host (parse_name np t d)) (path (parse_name np t d)) t' d'.
Proof.
  pose proof (split_not_nil "/" np) as Hnil.
  pose proof (join_split "/" np) as Hjoin.
  pose proof (split_parts "/" np) as Hparts.
  unfold parse_name at 1 2 4 5.
  destruct (Py.split "/" np) as [|p0 [|p1 [|p2 rest]]] eqn:Es; [congruence| | |].
  - simpl in Hjoin. subst p0. inversion Hparts as [|? ? Hp0 _]; subst.
    exists "docker.io/library/". split; [auto|]. split; [reflexivity|].
    intros t' d'. unfold parse_name.
    change ("docker.io/library/" +:+ np)
      with ("docker.io" +:+ String "/" ("library" +:+ String "/" np)).
    rewrite split_app by reflexivity. rewrite split_app by reflexivity.
    rewrite Es. reflexivity.
  - destruct (Py.has_char "." p0 || Py.has_char ":" p0) eqn:Ereg.
    + exists "". split; [auto|]. split.
      * cbn [host path]. rewrite <- Hjoin. reflexivity.
      * intros t' d'. unfold parse_name. rewrite app_empty, Es, Ereg. reflexivity.
    + exists "docker.io/". split; [auto|]. split.
      * cbn [host path]. rewrite Hjoin. reflexivity.
      * intros t' d'. unfold parse_name.
        change ("docker.io/" +:+ np) with ("docker.io" +:+ String "/" np).
        rewrite split_app by reflexivity. rewrite Es. reflexivity.
  - exists "". split; [auto|]. split.
    + rewrite <- Hjoin. reflexivity.
    + intros t' d'. unfold parse_name. rewrite app_empty, Es. reflexivity.
Qed.

Lemma prefix_no_char (c : ascii) (prefix : string) :
  prefix = "" \/ prefix = "docker.io/" \/ prefix = "docker.io/library/" ->
  Ascii.eqb c ":" || Ascii.eqb c "@" = true ->
  Py.has_char c prefix = false.
Proof.
  intros Hp Hc.
  assert (c = ":"%char \/ c = "@"%char) as [-> | ->].
  { apply orb_prop in Hc as [H|H]; apply Ascii.eqb_eq in H; auto. }
  - destruct Hp as [->|[->| ->]]; reflexivity.
  - destruct Hp as [->|[->| ->]]; reflexivity.
Qed.

Lemma __str___parse_name (np : string) (t d : option string) :
  t <> Some "" -> d <> Some "" ->
  exists prefix,
    (prefix = "" \/ prefix = "docker.io/" \/ prefix = "docker.io/library/")
    /\ __str__ (parse_name np t d) = (prefix +:+ np) +:+ suffix ":" t +:+ suffix "@" d
    /\ forall t' d', parse_name (prefix +:+ np) t' d' 
                     = mkImage (host (parse_name np t d)) (path (parse_name np t d)) t' d'.
Proof.
  intros Ht Hd.
  destruct (parse_name_prefix np t d) as (prefix & Hp & Hstr & Hparse).
  destruct (parse_name_tag_digest np t d) as [Htag Hdig].
  exists prefix. split; [exact Hp|]. split; [|exact Hparse].
  unfold __str__. rewrite Htag, Hdig, Hstr.
  destruct t as [[|a tg]|]; [congruence| |];
    destruct d as [[|b dd]|]; try congruence; simpl;
    rewrite ?app_empty_r, ?str_app_assoc; reflexivity.
Qed.

End ParseNameFacts.

Section ReferenceFacts.
Import Models DockerImageValidator ImageReference RegistryTraffic.

(** What [from_string] splits off: a name, a tag without [:] and a digest
    without [@]. *)
Lemma from_string_cases (s : string) :
  exists np t d,
    from_string s = parse_name np t d
    /\ s = np +:+ suffix ":" t +:+ suffix "@" d
    /\ match t with
       | Some tg => Py.has_char ":" tg = false
       | None => Py.has_char ":" np = false
       end
    /\ match d with
       | Some dd => Py.has_char "@" dd = false
       | None => Py.has_char "@" np = false
                 /\ match t with Some tg => Py.has_char "@" tg = false | None => True end
       end.
Proof.
  rewrite from_string_parse_name.
  destruct (Py.rsplit1 "@" s) as [[ip dd]|] eqn:Ed.
  - apply rsplit1_Some in Ed as [-> Hdd].
    destruct (Py.rsplit1 ":" ip) as [[np tg]|] eqn:Et.
    + apply rsplit1_Some in Et as [-> Htg].
      exists np, (Some tg), (Some dd). cbn [suffix].
      rewrite str_app_assoc. auto.
    + apply rsplit1_None in Et.
      exists ip, None, (Some dd). cbn [suffix]. rewrite app_empty. auto.
  - apply rsplit1_None in Ed.
    destruct (Py.rsplit1 ":" s) as [[np tg]|] eqn:Et.
    + apply rsplit1_Some in Et as [-> Htg].
      rewrite has_char_app in Ed. apply orb_false_elim in Ed as [Hnp Hrest].
      cbn [Py.has_char] in Hrest. apply orb_false_elim in Hrest as [_ Htg'].
      exists np, (Some tg), None. cbn [suffix]. rewrite app_empty_r. auto.
    + apply rsplit1_None in Et.
      exists s, None, None. cbn [suffix]. rewrite app_empty, app_empty_r. auto.
Qed.

(** X6.  A reference without [/] names an image of Docker Hub's [library]
    namespace: the host is [docker.io], the path is [library/] followed by
    the name, and registry calls go to [registry-1.docker.io]. *)
Theorem bare_name_is_docker_hub_library (s : string) :
  Py.has_char "/" s = false ->
  exists name t d,
    s = name +:+ suffix ":" t +:+ suffix "@" d
    /\ from_string s = mkImage "docker.io" ("library/" +:+ name) t d
    /\ api_host (from_string s) = "registry-1.docker.io".
Proof.
  intros Hs. destruct (from_string_cases s) as (np & t & d & Hparse & Hs' & _).
  exists np, t, d. split; [exact Hs'|].
  assert (Hnp : Py.has_char "/" np = false).
  { rewrite Hs', has_char_app in Hs. now apply orb_false_elim in Hs as [Hnp _]. }
  assert (Himg : from_string s = mkImage "docker.io" ("library/" +:+ np) t d).
  { rewrite Hparse. unfold parse_name. now rewrite (split_no_sep "/" np Hnp). }
  split; [exact Himg|]. now rewrite Himg.
Qed.

Lemma bare_name_is_docker_hub_library_witness :
  exists name t d,
    "nginx:1.27" = name +:+ suffix ":" t +:+ suffix "@" d
    /\ from_string "nginx:1.27" = mkImage "docker.io" ("library/" +:+ name) t d
    /\ api_host (from_string "nginx:1.27") = "registry-1.docker.io".
Proof. apply (bare_name_is_docker_hub_library "nginx:1.27"). reflexivity. Defined.

(** X7.  The canonical text of a parsed reference parses to the same
    image, provided the reference has no empty tag and no empty digest. *)
Theorem canonical_reference_is_stable (s : string) :
  tag (from_string s) <> Some "" ->
  digest (from_string s) <> Some "" ->
  from_string (__str__ (from_string s)) = from_string s.
Proof.
  destruct (from_string_cases s) as (np & t & d & Hparse & _ & Ht & Hd).
  rewrite Hparse.
  destruct (parse_name_tag_digest np t d) as [Htag Hdig].
  rewrite Htag, Hdig. intros Hte Hde.
  destruct (__str___parse_name np t d Hte Hde) as (prefix & Hp & Hstr & Hsame).
  rewrite Hstr, from_string_build.
  - rewrite Hsame.
    transitivity (mkImage (host (parse_name np t d)) (path (parse_name np t d))
                    (tag (parse_name np t d)) (digest (parse_name np t d))).
    + now rewrite Htag, Hdig.
    + now destruct (parse_name np t d).
  - destruct t as [tg|]; [exact Ht|].
    rewrite has_char_app, Ht, (prefix_no_char ":" prefix Hp); reflexivity.
  - destruct d as [dd|]; [exact Hd|]. destruct Hd as [Hnp Htg].
    split; [|exact Htg].
    rewrite has_char_app, Hnp, (prefix_no_char "@" prefix Hp); reflexivity.
Qed.

Lemma canonical_reference_is_stable_witness :
  from_string (__str__ (from_string "ghcr.io/owner/app:1.0@sha256:abc"))
  = from_string "ghcr.io/owner/app:1.0@sha256:abc".
Proof.
  apply (canonical_reference_is_stable "ghcr.io/owner/app:1.0@sha256:abc");
    vm_compute; discriminate.
Defined.

(** X8.  A registry address with a port and no tag is not read as a
    registry: the text after the last [:] becomes the tag, and what is left
    is taken for an image of Docker Hub's [library] namespace. *)
Theorem registry_port_without_tag_is_read_as_tag (h p name : string) :
  Py.has_char "/" h = false ->
  Py.has_char ":" p = false -> Py.has_char ":" name = false ->
  Py.has_char "@" h = false -> Py.has_char "@" p = false ->
  Py.has_char "@" name = false ->
  from_string (h +:+ ":" +:+ p +:+ "/" +:+ name)
  = mkImage "docker.io" ("library/" +:+ h) (Some (p +:+ "/" +:+ name)) None.
Proof.
  intros Hh Hp Hn Hh' Hp' Hn'.
  assert (Hc : forall c, Py.has_char c p = false -> Py.has_char c name = false ->
               Ascii.eqb "/" c = false ->
               Py.has_char c (p +:+ "/" +:+ name) = false).
  { intros c H1 H2 H3.
    change (p +:+ "/" +:+ name) with (p +:+ String "/" name).
    rewrite has_char_app, H1. cbn [Py.has_char]. now rewrite H3, H2. }
  assert (Heq : h +:+ ":" +:+ p +:+ "/" +:+ name
                = h +:+ suffix ":" (Some (p +:+ "/" +:+ name)) +:+ suffix "@" None).
  { cbn [suffix]. now rewrite app_empty_r. }
  rewrite Heq, from_string_build.
  - unfold parse_name. now rewrite (split_no_sep "/" h Hh).
  - now apply Hc.
  - split; [exact Hh'|]. now apply Hc.
Qed.

Lemma registry_port_without_tag_is_read_as_tag_witness :
  from_string "localhost:5000/app"
  = mkImage "docker.io" "library/localhost" (Some "5000/app") None.
Proof.
  apply (registry_port_without_tag_is_read_as_tag "localhost" "5000" "app");
    reflexivity.
Defined.

End ReferenceFacts.

Section TrafficFacts.
Import Models DockerImageValidator RegistryTraffic Architectures.

Lemma probes_app (h : string) (l l' : list Request) :
  probes h (l ++ l') = (probes h l + probes h l')%nat.
Proof. unfold probes. now rewrite List.filter_app, length_app. Qed.

Lemma probed_once_requests (c : Client) (image : DockerImage) :
  probed_once c ->
  probed_once (mkClient (_cache c) (requests c ++ [GetManifest image])).
Proof.
  intros H h. destruct (H h) as (H1 & H2 & H3). cbn [requests _cache].
  rewrite probes_app. cbn. rewrite Nat.add_0_r. auto.
Qed.

Lemma is_registry_probed_once (net : Registries) (h0 : string) (c : Client) :
  probed_once c -> probed_once (snd (is_registry net h0 c)).
Proof.
  intros H. unfold is_registry.
  destruct (_cache c !! h0) as [b|] eqn:Hc; [exact H|].
  destruct (well_known h0) eqn:Hwk.
  - intros h. destruct (H h) as (H1 & H2 & H3). cbn [snd requests _cache].
    split; [exact H1|]. split; [exact H2|].
    intros Hnone. apply H3.
    destruct (decide (h0 = h)) as [<-|Hne]; [exact Hc|].
    now rewrite lookup_insert_ne in Hnone.
  - assert (Hgoal : forall b,
              probed_once (mkClient (<[h0:=b]> (_cache c)) (requests c ++ [GetV2 h0]))).
    { intros b h. destruct (H h) as (H1 & H2 & H3). cbn [requests _cache].
      rewrite probes_app. unfold probes at 2 4 6. cbn [List.filter is_probe_of].
      destruct (String.eqb_spec h0 h) as [<-|Hne]; cbn [length].
      - rewrite (H3 Hc). split; [lia|]. split; [congruence|].
        rewrite lookup_insert_eq. discriminate.
      - rewrite Nat.add_0_r. split; [exact H1|]. split; [exact H2|].
        rewrite lookup_insert_ne by exact Hne. exact H3. }
    destruct (v2_probe net h0) as [[status header]|]; apply Hgoal.
Qed.

Lemma validate_image_probed_once (net : Registries) (image : DockerImage) (c : Client) :
  probed_once c -> probed_once (snd (validate_image net image c)).
Proof.
  intros H. unfold validate_image.
  pose proof (is_registry_probed_once net (api_host image) c H) as H1.
  destruct (is_registry net (api_host image) c) as [ok c1]. cbn [snd] in H1.
  destruct ok; cbn [negb]; [|exact H1].
  pose proof (probed_once_requests c1 image H1) as H2.
  destruct (manifest_platforms net image) as [message|platforms].
  - now destruct (Py.contains "401" message || Py.contains "Unauthorized" message).
  - now destruct (negb (has_platform "arm64" platforms && has_platform "amd64" platforms)).
Qed.

Lemma validate_service_probed_once (net : Registries) (app name : string) (flag : bool)
    (image : ImageValue) (c : Client) :
  probed_once c -> probed_once (snd (validate_service net app flag name image c)).
Proof.
  intros H. unfold validate_service.
  destruct image as [|s|[|] shown exception]; try exact H.
  destruct (negb (Py.nonempty s)); [exact H|].
  destruct flag; [|exact H].
  pose proof (validate_image_probed_once net (from_string s) c H) as H1.
  now destruct (validate_image net (from_string s) c).
Qed.

(** X9.  Within a run the client asks each registry host at most once
    whether it is a registry, and never asks the well-known hosts
    [docker.io], [registry-1.docker.io] and [ghcr.io]: this holds of a new
    client and is kept by every call of [validate_images], whether it
    returns its findings or raises. *)
Theorem each_host_probed_at_most_once (repr_container from_string_error : Py.value -> string)
    (net : Registries) (app : string) (flag : bool) (services : Py.value) (c : Client) :
  probed_once c ->
  probed_once (snd (validate_images repr_container from_string_error net
                      services app flag c)).
Proof.
  unfold validate_images. destruct services as [| | | | |service_items]; try (intros H; exact H).
  revert c. induction service_items as [|[name config] rest IH]; intros c H; [exact H|].
  cbn [validate_image_items].
  destruct (Py.get config "image") as [found|e]; [|exact H].
  pose proof (validate_service_probed_once net app name flag
                (image_value repr_container from_string_error found) c H) as H1.
  destruct (validate_service net app flag name
              (image_value repr_container from_string_error found) c) as [errs c1].
  cbn [snd] in H1.
  pose proof (IH c1 H1) as H2.
  now destruct (validate_image_items repr_container from_string_error net rest app flag c1)
    as [[errs'|e] c2].
Qed.

End TrafficFacts.

Section VerdictFacts.
Import Models DockerImageValidator RegistryTraffic Architectures TrafficExamples.

Lemma each_host_probed_at_most_once_witness :
  probes "registry.example.com"
    (requests (snd (validate_images (fun _ => "") (fun _ => "") multi_platform
                      two_services "app" true new_client)))
  = 1%nat
  /\ probed_once (snd (validate_images (fun _ => "") (fun _ => "") multi_platform
                         two_services "app" true new_client)).
Proof.
  split; [vm_compute; reflexivity|].
  apply (each_host_probed_at_most_once (fun _ => "") (fun _ => "") multi_platform "app"
           true two_services new_client).
  intros h. cbn. auto.
Defined.

Lemma startswith_app_l (s t sub : string) :
  Py.startswith s sub = true -> Py.startswith (s +:+ t) sub = true.
Proof.
  revert s. induction sub as [|a sub IH]; intros s H; [now destruct (s +:+ t)|].
  destruct s as [|b s]; [discriminate|].
  change (String b s +:+ t) with (String b (s +:+ t)).
  cbn [Py.startswith] in *.
  destruct (Ascii.eqb a b); [now apply IH | discriminate].
Qed.

Lemma contains_app_l (sub a b : string) :
  Py.contains sub a = true -> Py.contains sub (a +:+ b) = true.
Proof.
  induction a as [|x a IH]; intros H.
  - cbn in H. rewrite orb_false_r in H.
    destruct sub; [|discriminate]. now destruct b.
  - change (String x a +:+ b) with (String x (a +:+ b)).
    cbn [Py.contains] in *. apply orb_prop in H as [H|H].
    + change (String x (a +:+ b)) with (String x a +:+ b).
      now rewrite (startswith_app_l _ b _ H).
    + rewrite (IH H). apply orb_true_r.
Qed.

Lemma contains_app_r (sub a b : string) :
  Py.contains sub b = true -> Py.contains sub (a +:+ b) = true.
Proof.
  intros H. induction a as [|x a IH]; [exact H|].
  change (String x a +:+ b) with (String x (a +:+ b)).
  cbn [Py.contains]. rewrite IH. apply orb_true_r.
Qed.

(** X10.  [validate_image] returns at most one finding, for
    [docker-compose.yml] at [services.image]; it returns none exactly when
    the registry host is accepted and the platforms of the image include
    both [linux/arm64] and [linux/amd64]; and the only finding that is not
    an [ERROR] is the [INFO] finding [image_architecture_unverified]. *)
Theorem validate_image_verdict (net : Registries) (image : DockerImage) (c : Client) :
  let errs := fst (validate_image net image c) in
  (length errs <= 1)%nat
  /\ (errs = []
      <-> fst (is_registry net (api_host image) c) = true
          /\ exists platforms,
               manifest_platforms net image = inr platforms
               /\ has_platform "arm64" platforms = true
               /\ has_platform "amd64" platforms = true)
  /\ (forall e, In e errs ->
        file e = "docker-compose.yml" /\ properties_path e = Some "services.image"
        /\ (severity e = ERROR
            \/ (severity e = INFO /\ id e = "image_architecture_unverified"))).
Proof.
  cbn zeta. unfold validate_image.
  destruct (is_registry net (api_host image) c) as [ok c1]. cbn [fst].
  destruct ok; cbn [negb].
  - destruct (manifest_platforms net image) as [message|platforms].
    + destruct (Py.contains "401" message || Py.contains "Unauthorized" message);
        cbn [fst]; (split; [cbn; lia|]); (split; [split; [discriminate|]|]).
      * intros [_ (l & Hl & _)]. discriminate.
      * intros e [<-|[]]. cbn. auto.
      * intros [_ (l & Hl & _)]. discriminate.
      * intros e [<-|[]]. cbn. auto.
    + destruct (has_platform "arm64" platforms) eqn:Harm;
        destruct (has_platform "amd64" platforms) eqn:Hamd; cbn [andb negb fst];
        (split; [cbn; lia|]); split;
        try (split; [discriminate|];
             intros [_ (l & Hl & H1 & H2)]; inversion Hl; subst; congruence);
        try (intros e [<-|[]]; cbn; auto).
      * split; [|reflexivity]. intros _. split; [reflexivity|].
        exists platforms. auto.
      * intros e [].
  - cbn [fst]. split; [cbn; lia|]. split.
    + split; [discriminate|]. intros [H _]. discriminate.
    + intros e [<-|[]]. cbn. auto.
Qed.

(** X11.  An image with a single-platform manifest never passes the
    architecture check: [get_architectures] takes every such manifest for
    [linux/amd64], so on an accepted registry [validate_image] reports
    [invalid_image_architectures], whatever platform the image is built
    for. *)
Theorem single_platform_image_is_rejected (net : Registries) (image : DockerImage)
    (c : Client) (content_type : string) (manifests : option (list ManifestRef)) :
  fst (is_registry net (api_host image) c) = true ->
  manifest_platforms net image
  = get_architectures image (ManifestBody content_type manifests) ->
  Py.contains "manifest.list" content_type = false ->
  Py.contains "image.index" content_type = false ->
  manifests_truthy manifests = false ->
  get_architectures image (ManifestBody content_type manifests)
  = inr [mkPlatform "linux" "amd64" None]
  /\ exists e,
       fst (validate_image net image c) = [e]
       /\ id e = "invalid_image_architectures" /\ severity e = ERROR.
Proof.
  intros Hreg Hnet H1 H2 H3.
  assert (Hget : get_architectures image (ManifestBody content_type manifests)
                 = inr [mkPlatform "linux" "amd64" None]).
  { unfold get_architectures. now rewrite H1, H2, H3. }
  split; [exact Hget|].
  unfold validate_image.
  destruct (is_registry net (api_host image) c) as [ok c1]. cbn [fst] in Hreg.
  subst ok. cbn [negb]. rewrite Hnet, Hget. cbn.
  eexists. split; [reflexivity|]. now split.
Qed.

(** X12.  When the manifest request fails otherwise than by an HTTP status
    (transport error, timeout, unreadable body), the message of
    [get_architectures] quotes the image reference; so for a reference
    whose text contains [401] (in a digest, a tag, a port) the failure is
    reported as the [INFO] finding [image_architecture_unverified], not as
    an error. *)
Theorem request_error_on_reference_with_401 (net : Registries) (image : DockerImage)
    (c : Client) (e : string) :
  fst (is_registry net (api_host image) c) = true ->
  manifest_platforms net image = get_architectures image (RequestError e) ->
  Py.contains "401" (__str__ image) = true ->
  exists f,
    fst (validate_image net image c) = [f]
    /\ id f = "image_architecture_unverified" /\ severity f = INFO.
Proof.
  intros Hreg Hnet H401.
  unfold validate_image.
  destruct (is_registry net (api_host image) c) as [ok c1]. cbn [fst] in Hreg.
  subst ok. cbn [negb]. rewrite Hnet. cbn [get_architectures].
  assert (Hmsg : Py.contains "401"
            ("Failed to get architectures for " +:+ __str__ image +:+ ": " +:+ e) = true).
  { apply contains_app_r, contains_app_l. exact H401. }
  rewrite Hmsg. cbn.
  eexists. split; [reflexivity|]. now split.
Qed.

End VerdictFacts.

Section VerdictExamples.
Import Models DockerImageValidator RegistryTraffic Architectures TrafficExamples FailingRegistry.

Lemma single_platform_image_is_rejected_witness :
  exists e,
    fst (validate_image amd64_only (from_string "nginx:1.27") new_client) = [e]
    /\ id e = "invalid_image_architectures" /\ severity e = ERROR.
Proof.
  apply (single_platform_image_is_rejected amd64_only (from_string "nginx:1.27")
           new_client "application/vnd.docker.distribution.manifest.v2+json" None);
    reflexivity.
Defined.

Lemma request_error_on_reference_with_401_witness :
  exists f,
    fst (validate_image unreachable
           (from_string "ghcr.io/owner/app:1.0@sha256:401f") new_client) = [f]
    /\ id f = "image_architecture_unverified" /\ severity f = INFO.
Proof.
  apply (request_error_on_reference_with_401 unreachable
           (from_string "ghcr.io/owner/app:1.0@sha256:401f") new_client "timed out");
    reflexivity.
Defined.

End VerdictExamples.

(* ===================================================================== *)
(** * Properties of the patterns: store identifiers, GitHub addresses, image format *)
(* ===================================================================== *)

Section LanguageFacts.
Import Regex RegexLanguage.

Lemma str_app_nil_inv (s1 s2 : string) : s1 +:+ s2 = "" -> s1 = "" /\ s2 = "".
Proof. destruct s1; [now intros <-|discriminate]. Qed.

Lemma str_app_cons_inv (c : ascii) (s s1 s2 : string) :
  s1 +:+ s2 = String c s ->
  (s1 = "" /\ s2 = String c s) \/ exists s1', s1 = String c s1' /\ s = s1' +:+ s2.
Proof.
  destruct s1 as [|a s1]; [left; split; [reflexivity|assumption]|].
  change (String a s1 +:+ s2) with (String a (s1 +:+ s2)).
  intros H. inversion H; subst. right. now exists s1.
Qed.

Lemma lang_Eps_inv (s : string) : lang Eps s <-> s = "".
Proof. split; [intros H; now inversion H | intros ->; constructor]. Qed.

Lemma lang_Class_inv (p : ascii -> bool) (s : string) :
  lang (Class p) s <-> exists c, s = String c "" /\ p c = true.
Proof.
  split.
  - intros H. inversion H; subst. eauto.
  - intros (c & -> & H). now constructor.
Qed.

Lemma lang_Cat_inv (r1 r2 : regex) (s : string) :
  lang (Cat r1 r2) s <-> exists s1 s2, s = s1 +:+ s2 /\ lang r1 s1 /\ lang r2 s2.
Proof.
  split.
  - intros H. inversion H; subst. eauto.
  - intros (s1 & s2 & -> & H1 & H2). now constructor.
Qed.

Lemma lang_Alt_inv (r1 r2 : regex) (s : string) :
  lang (Alt r1 r2) s <-> lang r1 s \/ lang r2 s.
Proof.
  split.
  - intros H. inversion H; subst; auto.
  - intros [H|H]; [now apply lang_Alt_l | now apply lang_Alt_r].
Qed.

Lemma nullable_lang (r : regex) : nullable r = true <-> lang r "".
Proof.
  induction r as [| |p|r1 IH1 r2 IH2|r1 IH1 r2 IH2|r1 IH1]; simpl.
  - split; [discriminate | intros H; inversion H].
  - split; [intros _; constructor | reflexivity].
  - split; [discriminate | intros H; inversion H].
  - rewrite andb_true_iff, IH1, IH2. split.
    + intros [H1 H2]. exact (lang_Cat r1 r2 "" "" H1 H2).
    + intros H. apply lang_Cat_inv in H as (s1 & s2 & Hs & H1 & H2).
      symmetry in Hs. apply str_app_nil_inv in Hs as [-> ->]. now split.
  - rewrite orb_true_iff, IH1, IH2. split.
    + intros [H|H]; [now apply lang_Alt_l | now apply lang_Alt_r].
    + intros H. inversion H; subst; auto.
  - split; [intros _; constructor | reflexivity].
Qed.

Lemma lang_Star_cons_inv (r : regex) (c : ascii) (s : string) :
  lang (Star r) (String c s) ->
  exists s1 s2, s = s1 +:+ s2 /\ lang r (String c s1) /\ lang (Star r) s2.
Proof.
  intros H. remember (Star r) as r' eqn:Er. remember (String c s) as t eqn:Et.
  revert Er Et.
  induction H as [| | | | | |r0 s1 s2 H1 _ H2 IH2]; try discriminate.
  intros Er Et. inversion Er; subst r0.
  apply str_app_cons_inv in Et as [[-> ->]|(s1' & -> & ->)].
  - now apply IH2.
  - now exists s1', s2.
Qed.

Lemma deriv_lang (c : ascii) (r : regex) (s : string) :
  lang (deriv c r) s <-> lang r (String c s).
Proof.
  revert s.
  induction r as [| |p|r1 IH1 r2 IH2|r1 IH1 r2 IH2|r1 IH1]; intros s; simpl.
  - split; intros H; inversion H.
  - split; intros H; inversion H.
  - destruct (p c) eqn:Hp; split; intros H; inversion H; subst.
    + now constructor.
    + constructor.
    + congruence.
  - split.
    + intros H. inversion H as [| | |? ? ? H'|? ? ? H'| |]; subst.
      * inversion H' as [| |? ? s1 s2 H1 H2| | | |]; subst.
        apply IH1 in H1.
        exact (lang_Cat r1 r2 (String c s1) s2 H1 H2).
      * destruct (nullable r1) eqn:Hn; [|inversion H'].
        apply nullable_lang in Hn. apply IH2 in H'.
        exact (lang_Cat r1 r2 "" (String c s) Hn H').
    + intros H. apply lang_Cat_inv in H as (s1 & s2 & Hs & H1 & H2).
      symmetry in Hs. apply str_app_cons_inv in Hs as [[-> ->]|(s1' & -> & ->)].
      * apply lang_Alt_r. apply nullable_lang in H1. rewrite H1. now apply IH2.
      * apply lang_Alt_l. constructor; [now apply IH1 | exact H2].
  - split.
    + intros H. inversion H; subst.
      * apply lang_Alt_l. now apply IH1.
      * apply lang_Alt_r. now apply IH2.
    + intros H. inversion H; subst.
      * apply lang_Alt_l. now apply IH1.
      * apply lang_Alt_r. now apply IH2.
  - split.
    + intros H. inversion H as [| |? ? s1 s2 H1 H2| | | |]; subst.
      apply IH1 in H1.
      exact (lang_Star_cons r1 (String c s1) s2 H1 H2).
    + intros H. apply lang_Star_cons_inv in H as (s1 & s2 & -> & H1 & H2).
      constructor; [now apply IH1 | exact H2].
Qed.

(** The matcher decides the language of the pattern. *)
Lemma matches_lang (r : regex) (s : string) : matches r s = true <-> lang r s.
Proof.
  revert r. induction s as [|c s IH]; intros r; simpl.
  - apply nullable_lang.
  - rewrite IH. apply deriv_lang.
Qed.

Lemma lang_Chr (c : ascii) (s : string) : lang (Chr c) s <-> s = String c "".
Proof.
  unfold Chr. rewrite lang_Class_inv. split.
  - intros (x & -> & H). apply Ascii.eqb_eq in H. now subst.
  - intros ->. exists c. split; [reflexivity | apply Ascii.eqb_refl].
Qed.

Lemma lang_Opt (r : regex) (s : string) : lang (Opt r) s <-> lang r s \/ s = "".
Proof. unfold Opt. now rewrite lang_Alt_inv, lang_Eps_inv. Qed.

Lemma lang_Lit (w s : string) : lang (Lit w) s <-> s = w.
Proof.
  revert s. induction w as [|c w IH]; intros s; simpl.
  - apply lang_Eps_inv.
  - rewrite lang_Cat_inv. split.
    + intros (s1 & s2 & -> & H1 & H2). apply lang_Chr in H1. apply IH in H2.
      now subst.
    + intros ->. exists (String c ""), w. split; [reflexivity|].
      split; [now apply lang_Chr | now apply IH].
Qed.

Lemma all_chars_app (p : ascii -> bool) (s1 s2 : string) :
  all_chars p (s1 +:+ s2) = all_chars p s1 && all_chars p s2.
Proof.
  unfold all_chars. induction s1 as [|c s1 IH]; [reflexivity|].
  change (String c s1 +:+ s2) with (String c (s1 +:+ s2)).
  cbn [list_ascii_of_string forallb]. now rewrite IH, andb_assoc.
Qed.

Lemma lang_Star_Class (p : ascii -> bool) (s : string) :
  lang (Star (Class p)) s <-> all_chars p s = true.
Proof.
  split.
  - intros H. remember (Star (Class p)) as r eqn:Er. revert Er.
    induction H as [| | | | | |r0 s1 s2 H1 _ H2 IH2]; try discriminate.
    + reflexivity.
    + intros Er. inversion Er; subst r0. apply lang_Class_inv in H1 as (c & -> & Hc).
      rewrite all_chars_app, (IH2 eq_refl), andb_true_r.
      unfold all_chars. simpl. now rewrite Hc.
  - induction s as [|c s IH]; [constructor|].
    unfold all_chars. cbn [list_ascii_of_string forallb].
    intros [Hc Hs]%andb_prop.
    exact (lang_Star_cons (Class p) (String c "") s (lang_Class p c Hc) (IH Hs)).
Qed.

Lemma lang_Plus_Class (p : ascii -> bool) (s : string) :
  lang (Plus (Class p)) s <-> s <> "" /\ all_chars p s = true.
Proof.
  unfold Plus. rewrite lang_Cat_inv. split.
  - intros (s1 & s2 & -> & H1 & H2). apply lang_Class_inv in H1 as (c & -> & Hc).
    apply lang_Star_Class in H2. split; [discriminate|].
    rewrite all_chars_app, H2, andb_true_r. unfold all_chars. simpl. now rewrite Hc.
  - intros [Hne H]. destruct s as [|c s]; [congruence|].
    unfold all_chars in H. cbn [list_ascii_of_string forallb] in H.
    apply andb_prop in H as [Hc Hs].
    exists (String c ""), s. split; [reflexivity|].
    split; [now constructor | now apply lang_Star_Class].
Qed.

Lemma lang_Rep_Class (p : ascii -> bool) (n : nat) (s : string) :
  lang (Rep n (Class p)) s <-> String.length s = n /\ all_chars p s = true.
Proof.
  revert s. induction n as [|n IH]; intros s; simpl.
  - rewrite lang_Eps_inv. split.
    + now intros ->.
    + intros [H _]. now destruct s.
  - rewrite lang_Cat_inv. split.
    + intros (s1 & s2 & -> & H1 & H2). apply lang_Class_inv in H1 as (c & -> & Hc).
      apply IH in H2 as [Hlen Hall]. split; [change (String c "" +:+ s2) with (String c s2); simpl; now rewrite Hlen|].
      rewrite all_chars_app, Hall, andb_true_r. unfold all_chars. simpl. now rewrite Hc.
    + intros [Hlen H]. destruct s as [|c s]; [discriminate|].
      unfold all_chars in H. cbn [list_ascii_of_string forallb] in H.
      apply andb_prop in H as [Hc Hs]. simpl in Hlen.
      exists (String c ""), s. split; [reflexivity|].
      split; [now constructor|]. apply IH. split; [lia | exact Hs].
Qed.

(** [re.match("^" R "$", s)]: [s] is a text of [R], possibly followed by
    one line feed. *)
Lemma re_match_lang (r : regex) (s : string) :
  re_match r s = true
  <-> lang r s \/ exists s', s = s' +:+ String Py.LF "" /\ lang r s'.
Proof.
  unfold re_match, eol. rewrite matches_lang, lang_Cat_inv. split.
  - intros (s1 & s2 & -> & H1 & H2). apply lang_Opt in H2 as [H2| ->].
    + apply lang_Chr in H2. subst. right. eauto.
    + left. now rewrite app_empty_r.
  - intros [H|(s' & -> & H)].
    + exists s, "". rewrite app_empty_r. split; [reflexivity|].
      split; [exact H|]. apply lang_Opt. now right.
    + exists s', (String Py.LF ""). split; [reflexivity|].
      split; [exact H|]. apply lang_Opt. left. now apply lang_Chr.
Qed.

End LanguageFacts.

Section StoreIdFacts.
Import Regex RegexLanguage Schemas StoreIds.

Lemma lang_dash_tail (p : ascii -> bool) (s : string) :
  lang (Star (Cat (Chr "-") (Plus (Class p)))) s
  <-> s = ""
      \/ exists ws, ws <> []
           /\ Forall (fun w => w <> "" /\ all_chars p w = true) ws
           /\ s = String "-" (Py.join "-" ws).
Proof.
  split.
  - intros H. remember (Star (Cat (Chr "-") (Plus (Class p)))) as r eqn:Er. revert Er.
    induction H as [| | | | | |r0 s1 s2 H1 _ H2 IH2]; try discriminate; [now left|].
    intros Er. inversion Er; subst r0. right.
    apply lang_Cat_inv in H1 as (d & w & -> & Hd & Hw).
    apply lang_Chr in Hd. subst d. apply lang_Plus_Class in Hw.
    destruct (IH2 eq_refl) as [->|(ws & Hne & Hall & ->)].
    + exists [w]. split; [discriminate|]. split; [now constructor|].
      now rewrite app_empty_r.
    + exists (w :: ws). split; [discriminate|]. split; [now constructor|].
      destruct ws as [|w' ws]; [congruence|].
      rewrite join_cons2.
      change (String "-" "" +:+ w) with (String "-" w).
      change (String "-" w +:+ String "-" (Py.join "-" (w' :: ws)))
        with (String "-" (w +:+ String "-" (Py.join "-" (w' :: ws)))).
      reflexivity.
  - intros [->|(ws & Hne & Hall & ->)]; [constructor|].
    induction Hall as [|w ws Hw Hws IH]; [congruence|].
    assert (Hhead : lang (Cat (Chr "-") (Plus (Class p))) (String "-" w)).
    { apply lang_Cat_inv. exists (String "-" ""), w. split; [reflexivity|].
      split; [now apply lang_Chr | now apply lang_Plus_Class]. }
    destruct ws as [|w' ws].
    + cbn [Py.join]. rewrite <- (app_empty_r (String "-" w)).
      exact (lang_Star_cons _ _ _ Hhead (lang_Star_nil _)).
    + rewrite join_cons2.
      change (String "-" (w +:+ "-" +:+ Py.join "-" (w' :: ws)))
        with (String "-" w +:+ String "-" (Py.join "-" (w' :: ws))).
      apply lang_Star_cons; [exact Hhead|]. apply IH. discriminate.
Qed.

Lemma lang_store_id_format (v : string) :
  lang store_id_format v <-> dashed_words v.
Proof.
  unfold store_id_format, dashed_words, lower_word. rewrite lang_Cat_inv. split.
  - intros (w & t & -> & Hw & Ht). apply lang_Plus_Class in Hw.
    apply lang_dash_tail in Ht as [->|(ws & Hne & Hall & ->)].
    + exists [w]. split; [discriminate|]. split; [now constructor|].
      now rewrite app_empty_r.
    + exists (w :: ws). split; [discriminate|]. split; [now constructor|].
      destruct ws as [|w' ws]; [congruence|]. now rewrite join_cons2.
  - intros (ws & Hne & Hall & ->). destruct Hall as [|w ws Hw Hws]; [congruence|].
    destruct ws as [|w' ws].
    + exists w, "". split; [now rewrite app_empty_r|].
      split; [now apply lang_Plus_Class | constructor].
    + exists w, (String "-" (Py.join "-" (w' :: ws))).
      split; [now rewrite join_cons2|].
      split; [now apply lang_Plus_Class|].
      apply lang_dash_tail. right. exists (w' :: ws). split; [discriminate|]. now split.
Qed.

(** X13.  [UmbrelAppStoreManifest.validate_id] accepts exactly the texts
    made of one or more non-empty words of lower-case letters joined by
    single dashes, possibly followed by one line feed, that do not start
    with [umbrel-app-store]; an accepted id is returned unchanged. *)
Theorem accepted_store_ids (v : string) :
  (forall x, validate_id v = Py.Returned x -> x = v)
  /\ (validate_id v = Py.Returned v
      <-> Py.startswith v "umbrel-app-store" = false
          /\ (dashed_words v
              \/ exists v', v = v' +:+ String Py.LF "" /\ dashed_words v')).
Proof.
  unfold validate_id.
  pose proof (re_match_lang store_id_format v) as Hm.
  setoid_rewrite lang_store_id_format in Hm.
  destruct (Py.startswith v "umbrel-app-store").
  - split; [discriminate|]. split; [discriminate | intros [H _]; discriminate].
  - destruct (re_match store_id_format v); cbn [negb].
    + split; [intros x H; now inversion H|].
      split; [intros _; split; [reflexivity | now apply Hm] | reflexivity].
    + split; [discriminate|]. split; [discriminate|].
      intros [_ H]. apply Hm in H. discriminate.
Qed.

End StoreIdFacts.

Section GitHubPathFacts.
Import Regex RegexLanguage GitHubValidator GitHubPaths.

Lemma all_chars_no_char (c : ascii) (s : string) :
  all_chars (fun x => negb (Ascii.eqb c x)) s = true <-> Py.has_char c s = false.
Proof.
  unfold all_chars. induction s as [|a s IH]; [now split|].
  cbn [list_ascii_of_string forallb Py.has_char].
  rewrite andb_true_iff, orb_false_iff, IH, negb_true_iff, (Ascii.eqb_sym c a).
  reflexivity.
Qed.

Lemma lang_segment (s : string) : lang segment s <-> is_segment s.
Proof.
  unfold segment, NotChr, is_segment. now rewrite lang_Plus_Class, all_chars_no_char.
Qed.

Lemma digit_not_slash (c : ascii) : Py.is_digit c = true -> Ascii.eqb c "/" = false.
Proof.
  intros H. destruct (Ascii.eqb_spec c "/") as [->|]; [|reflexivity].
  vm_compute in H. discriminate.
Qed.

Lemma digits_no_slash (n : string) :
  all_chars Py.is_digit n = true -> Py.has_char "/" n = false.
Proof.
  unfold all_chars. induction n as [|c n IH]; [reflexivity|].
  cbn [list_ascii_of_string forallb Py.has_char].
  intros [Hc Hn]%andb_prop. now rewrite (digit_not_slash c Hc), (IH Hn).
Qed.

Lemma path_tail_cases (q : string) :
  q = "/" \/ q = "" ->
  path_tail q /\ path_tail (q +:+ String Py.LF "").
Proof. intros [->| ->]; unfold path_tail; cbn; auto. Qed.

(** The paths [_is_github_pr_url] lets through. *)
Lemma pr_path_shape (p : string) :
  re_match pr_path_pattern p = true ->
  exists owner repo number t,
    p = pr_path owner repo number t
    /\ is_segment owner /\ is_segment repo
    /\ number <> "" /\ all_chars Py.is_digit number = true
    /\ path_tail t.
Proof.
  intros H. apply re_match_lang in H.
  assert (Hshape : forall s, lang pr_path_pattern s ->
            exists owner repo number q,
              s = pr_path owner repo number q
              /\ is_segment owner /\ is_segment repo
              /\ number <> "" /\ all_chars Py.is_digit number = true
              /\ (q = "/" \/ q = "")).
  { intros s Hs. unfold pr_path_pattern in Hs.
    apply lang_Cat_inv in Hs as (s0 & s1 & -> & H0 & Hs).
    apply lang_Chr in H0. subst s0.
    apply lang_Cat_inv in Hs as (o & s2 & -> & Ho & Hs).
    apply lang_Cat_inv in Hs as (s3 & s4 & -> & H3 & Hs).
    apply lang_Chr in H3. subst s3.
    apply lang_Cat_inv in Hs as (r & s5 & -> & Hr & Hs).
    apply lang_Cat_inv in Hs as (s6 & s7 & -> & H6 & Hs).
    apply lang_Lit in H6. subst s6.
    apply lang_Cat_inv in Hs as (n & q & -> & Hn & Hq).
    apply lang_segment in Ho, Hr. apply lang_Plus_Class in Hn as [Hn1 Hn2].
    apply lang_Opt in Hq. rewrite lang_Chr in Hq.
    exists o, r, n, q. split; [reflexivity|]. tauto. }
  destruct H as [H|(s & -> & H)]; apply Hshape in H
    as (o & r & n & q & -> & Ho & Hr & Hn1 & Hn2 & Hq);
    destruct (path_tail_cases q Hq) as [Ht Ht'].
  - exists o, r, n, q. auto 10.
  - exists o, r, n, (q +:+ String Py.LF ""). split; [|tauto].
    unfold pr_path. repeat (rewrite app_cons || rewrite str_app_assoc). reflexivity.
Qed.

(** The paths [_is_github_repo_url] lets through. *)
Lemma repo_path_shape (p : string) :
  re_match repo_path_pattern p = true ->
  exists owner repo t,
    p = repo_path owner repo t
    /\ is_segment owner /\ is_segment repo /\ path_tail t.
Proof.
  intros H. apply re_match_lang in H.
  assert (Hshape : forall s, lang repo_path_pattern s ->
            exists owner repo q,
              s = repo_path owner repo q
              /\ is_segment owner /\ is_segment repo /\ (q = "/" \/ q = "")).
  { intros s Hs. unfold repo_path_pattern in Hs.
    apply lang_Cat_inv in Hs as (s0 & s1 & -> & H0 & Hs).
    apply lang_Chr in H0. subst s0.
    apply lang_Cat_inv in Hs as (o & s2 & -> & Ho & Hs).
    apply lang_Cat_inv in Hs as (s3 & s4 & -> & H3 & Hs).
    apply lang_Chr in H3. subst s3.
    apply lang_Cat_inv in Hs as (r & q & -> & Hr & Hq).
    apply lang_segment in Ho, Hr.
    apply lang_Opt in Hq. rewrite lang_Chr in Hq.
    exists o, r, q. split; [reflexivity|]. tauto. }
  destruct H as [H|(s & -> & H)]; apply Hshape in H
    as (o & r & q & -> & Ho & Hr & Hq);
    destruct (path_tail_cases q Hq) as [Ht Ht'].
  - exists o, r, q. auto 10.
  - exists o, r, (q +:+ String Py.LF ""). split; [|tauto].
    unfold repo_path. repeat (rewrite app_cons || rewrite str_app_assoc). reflexivity.
Qed.

(** The pieces of a last segment followed by a tail. *)
Lemma split_last_segment (s t : string) :
  Py.has_char "/" s = false -> path_tail t ->
  Py.split "/" (s +:+ t) = [s] \/ Py.split "/" (s +:+ t) = [s +:+ String Py.LF ""]
  \/ exists x, Py.split "/" (s +:+ t) = [s; x] /\ (x = "" \/ x = String Py.LF "").
Proof.
  intros Hs [->|[->|[->| ->]]].
  - left. rewrite app_empty_r. now apply split_no_sep.
  - right. right. exists "". split; [|now left]. now rewrite split_app.
  - right. left. apply split_no_sep. rewrite has_char_app, Hs. reflexivity.
  - right. right. exists (String Py.LF ""). split; [|now right]. now rewrite split_app.
Qed.

Lemma split_pr_path (owner repo number t : string) :
  is_segment owner -> is_segment repo ->
  Py.has_char "/" number = false ->
  Py.split "/" (pr_path owner repo number t)
  = "" :: owner :: repo :: "pull" :: Py.split "/" (number +:+ t).
Proof.
  intros [_ Ho] [_ Hr] Hn. unfold pr_path.
  rewrite split_cons. cbn [Ascii.eqb Bool.eqb].
  rewrite (split_app "/" owner _ Ho), (split_app "/" repo _ Hr).
  now rewrite (split_app "/" "pull" _ eq_refl).
Qed.

Lemma split_repo_path (owner repo t : string) :
  is_segment owner ->
  Py.split "/" (repo_path owner repo t) = "" :: owner :: Py.split "/" (repo +:+ t).
Proof.
  intros [_ Ho]. unfold repo_path.
  rewrite split_cons. cbn [Ascii.eqb Bool.eqb].
  now rewrite (split_app "/" owner _ Ho).
Qed.

Section WithUrlparse.
Variable urlparse : string -> option ParseResult.

Lemma _is_github_pr_url_path (url : string) :
  _is_github_pr_url urlparse url = true ->
  exists parsed,
    urlparse url = Some parsed
    /\ github_host (hostname parsed) = true
    /\ scheme parsed = "https"
    /\ re_match pr_path_pattern (url_path parsed) = true.
Proof.
  unfold _is_github_pr_url. destruct (urlparse url) as [parsed|]; [|discriminate].
  destruct (github_host (hostname parsed)) eqn:Hhost; [|discriminate].
  destruct (String.eqb_spec (scheme parsed) "https"); [|discriminate].
  cbn. intros H. exists parsed. auto.
Qed.

Lemma _is_github_repo_url_path (url : string) :
  _is_github_repo_url urlparse url = true ->
  exists parsed,
    urlparse url = Some parsed
    /\ re_match repo_path_pattern (url_path parsed) = true.
Proof.
  unfold _is_github_repo_url. destruct (urlparse url) as [parsed|]; [|discriminate].
  destruct (github_host (hostname parsed)); [|discriminate].
  destruct (String.eqb (scheme parsed) "https"); [|discriminate].
  cbn. intros H. exists parsed. auto.
Qed.

(** X14.  For every URL that [_is_github_pr_url] accepts, [_parse_github_pr]
    finds owner, repository and number, so [_pr_exists] asks the REST API
    ([https://api.github.com/repos/OWNER/REPO/pulls/NUMBER]); the branch
    that fetches the HTML page is never taken for a URL that
    [validate_pull_request] lets through. *)
Theorem accepted_pull_request_uses_rest_api (url : string) :
  _is_github_pr_url urlparse url = true ->
  exists owner repo number,
    _parse_github_pr urlparse url = Some (owner, repo, number)
    /\ is_segment owner /\ is_segment repo /\ number <> ""
    /\ pr_request_url urlparse url
       = "https://api.github.com/repos/" +:+ owner +:+ "/" +:+ repo
           +:+ "/pulls/" +:+ number.
Proof.
  intros H. apply _is_github_pr_url_path in H as (parsed & Hparse & _ & _ & Hm).
  apply pr_path_shape in Hm as (o & r & n & t & Hp & Ho & Hr & Hn1 & Hn2 & Ht).
  pose proof (digits_no_slash n Hn2) as Hn3.
  assert (Hparts : exists number rest,
            number <> ""
            /\ filter (fun p => Py.nonempty p = true) (Py.split "/" (url_path parsed))
               = o :: r :: "pull" :: number :: rest).
  { rewrite Hp, (split_pr_path o r n t Ho Hr Hn3).
    destruct Ho as [Ho _], Hr as [Hr _].
    destruct o as [|a o]; [congruence|]. destruct r as [|b r]; [congruence|].
    destruct n as [|d n]; [congruence|].
    rewrite filter_cons_False by (cbn; congruence).
    rewrite !filter_cons_True by reflexivity.
    destruct (split_last_segment (String d n) t Hn3 Ht) as [->|[->|(x & -> & Hx)]].
    - exists (String d n), []. split; [discriminate|]. now rewrite filter_cons_True.
    - exists (String d n +:+ String Py.LF ""), []. split; [discriminate|].
      now rewrite filter_cons_True.
    - exists (String d n), (filter (fun p => Py.nonempty p = true) [x]).
      split; [discriminate|]. now rewrite filter_cons_True. }
  destruct Hparts as (number & rest & Hne & Hparts).
  assert (Hpr : _parse_github_pr urlparse url = Some (o, r, number)).
  { unfold _parse_github_pr. now rewrite Hparse, Hparts. }
  exists o, r, number. split; [exact Hpr|]. split; [exact Ho|]. split; [exact Hr|].
  split; [exact Hne|].
  unfold pr_request_url. rewrite Hpr.
  destruct Ho as [Ho _], Hr as [Hr _].
  destruct o; [congruence|]. destruct r; [congruence|]. destruct number; [congruence|].
  reflexivity.
Qed.

(** X15.  No URL is accepted both as a pull-request URL and as a
    repository URL: a [repo] field that holds the address of a pull request
    is reported as an invalid repository URL, and a [submission] field that
    holds the address of a repository as an invalid submission URL. *)
Theorem pull_request_and_repository_urls_are_disjoint (url : string) :
  _is_github_pr_url urlparse url && _is_github_repo_url urlparse url = false.
Proof.
  destruct (_is_github_pr_url urlparse url) eqn:Hpr; [|reflexivity].
  destruct (_is_github_repo_url urlparse url) eqn:Hrepo; [|reflexivity].
  exfalso.
  apply _is_github_pr_url_path in Hpr as (parsed & Hparse & _ & _ & Hm).
  apply _is_github_repo_url_path in Hrepo as (parsed' & Hparse' & Hm').
  rewrite Hparse in Hparse'. inversion Hparse'; subst parsed'.
  apply pr_path_shape in Hm as (o & r & n & t & Hp & Ho & Hr & Hn1 & Hn2 & Ht).
  apply repo_path_shape in Hm' as (o' & r' & t' & Hp' & Ho' & Hr' & Ht').
  pose proof (digits_no_slash n Hn2) as Hn3.
  assert (Hlen : (5 <= length (Py.split "/" (url_path parsed)))%nat).
  { rewrite Hp, (split_pr_path o r n t Ho Hr Hn3). cbn [length].
    pose proof (split_not_nil "/" (n +:+ t)) as Hnil.
    destruct (Py.split "/" (n +:+ t)); [congruence|]. cbn [length]. lia. }
  assert (Hlen' : (length (Py.split "/" (url_path parsed)) <= 4)%nat).
  { rewrite Hp', (split_repo_path o' r' t' Ho'). cbn [length].
    destruct Hr' as [_ Hr'].
    destruct (split_last_segment r' t' Hr' Ht') as [->|[->|(x & -> & _)]];
      cbn [length]; lia. }
  lia.
Qed.

End WithUrlparse.

End GitHubPathFacts.

Section ImageFormatFacts.
Import Regex RegexLanguage Models DockerImageValidator ImageReference ImageFormat.

(** The texts the format pattern of [validate_images] accepts. *)
Lemma conforms_shape (s : string) :
  conforms s = true
  <-> exists name tg h e,
        s = name +:+ String ":" (tg +:+ "@sha256:" +:+ h +:+ e)
        /\ name <> "" /\ all_chars image_name_char name = true
        /\ tg <> "" /\ Py.has_char "@" tg = false
        /\ String.length h = 64%nat /\ all_chars hex_char h = true
        /\ (e = "" \/ e = String Py.LF "").
Proof.
  unfold conforms. rewrite re_match_lang.
  assert (Hshape : forall s, lang image_format s
            <-> exists name tg h,
                  s = name +:+ String ":" (tg +:+ "@sha256:" +:+ h)
                  /\ name <> "" /\ all_chars image_name_char name = true
                  /\ tg <> "" /\ Py.has_char "@" tg = false
                  /\ String.length h = 64%nat /\ all_chars hex_char h = true).
  { intros s0. unfold image_format. split.
    - intros Hs.
      apply lang_Cat_inv in Hs as (name & s1 & -> & Hname & Hs).
      apply lang_Cat_inv in Hs as (c & s2 & -> & Hc & Hs).
      apply lang_Chr in Hc. subst c.
      apply lang_Cat_inv in Hs as (tg & s3 & -> & Htg & Hs).
      apply lang_Cat_inv in Hs as (l & h & -> & Hl & Hh).
      apply lang_Lit in Hl. subst l.
      apply lang_Plus_Class in Hname as [Hn1 Hn2].
      unfold NotChr in Htg. apply lang_Plus_Class in Htg as [Ht1 Ht2].
      apply all_chars_no_char in Ht2.
      apply lang_Rep_Class in Hh as [Hh1 Hh2].
      exists name, tg, h. split; [reflexivity|]. tauto.
    - intros (name & tg & h & -> & Hn1 & Hn2 & Ht1 & Ht2 & Hh1 & Hh2).
      apply lang_Cat_inv. exists name, (String ":" (tg +:+ "@sha256:" +:+ h)).
      split; [reflexivity|]. split; [now apply lang_Plus_Class|].
      apply lang_Cat_inv. exists (String ":" ""), (tg +:+ "@sha256:" +:+ h).
      split; [reflexivity|]. split; [now apply lang_Chr|].
      apply lang_Cat_inv. exists tg, ("@sha256:" +:+ h).
      split; [reflexivity|]. split.
      + unfold NotChr. apply lang_Plus_Class. split; [exact Ht1|].
        now apply all_chars_no_char.
      + apply lang_Cat_inv. exists "@sha256:", h. split; [reflexivity|].
        split; [now apply lang_Lit | now apply lang_Rep_Class]. }
  split.
  - intros [H|(s' & -> & H)]; apply Hshape in H as (name & tg & h & -> & H).
    + exists name, tg, h, "". split; [now rewrite app_empty_r | tauto].
    + exists name, tg, h, (String Py.LF ""). split; [|tauto].
      repeat (rewrite app_cons || rewrite str_app_assoc). reflexivity.
  - intros (name & tg & h & e & -> & Hn1 & Hn2 & Ht1 & Ht2 & Hh1 & Hh2 & [->| ->]).
    + left. apply Hshape. exists name, tg, h. rewrite app_empty_r. tauto.
    + right. exists (name +:+ String ":" (tg +:+ "@sha256:" +:+ h)). split.
      * repeat (rewrite app_cons || rewrite str_app_assoc). reflexivity.
      * apply Hshape. exists name, tg, h. tauto.
Qed.

Lemma all_hex_no_at (h : string) :
  all_chars hex_char h = true -> Py.has_char "@" h = false.
Proof. exact (hex_digits_no_at h). Qed.

(** X16.  With the architecture check off, a reference
    [NAME:latest@sha256:DIGEST] (64 hexadecimal digits) gets exactly one
    finding, the [WARNING] about the [latest] tag, and nothing is asked of
    any registry. *)
Theorem pinned_latest_tag_is_a_warning (net : Registries) (app_id service_name : string)
    (name h : string) (client : Client) :
  name <> "" -> all_chars image_name_char name = true ->
  String.length h = 64%nat -> all_chars hex_char h = true ->
  validate_service net app_id false service_name
    (ImageText (name +:+ ":latest@sha256:" +:+ h)) client
  = ([latest_tag_finding app_id service_name], client).
Proof.
  intros Hn1 Hn2 Hh1 Hh2.
  assert (Hat : Py.has_char "@" ("sha256:" +:+ h) = false).
  { change ("sha256:" +:+ h)
      with (String "s" (String "h" (String "a" (String "2" (String "5" (String "6"
              (String ":" h))))))).
    cbn [Py.has_char Ascii.eqb Bool.eqb orb andb]. now apply all_hex_no_at. }
  assert (Hconf : conforms (name +:+ ":latest@sha256:" +:+ h) = true).
  { apply conforms_shape. exists name, "latest", h, "".
    split; [now rewrite app_empty_r|]. repeat split; auto; discriminate. }
  assert (Htag : tag (from_string (name +:+ ":latest@sha256:" +:+ h)) = Some "latest").
  { change (name +:+ ":latest@sha256:" +:+ h)
      with (name +:+ suffix ":" (Some "latest") +:+ suffix "@" (Some ("sha256:" +:+ h))).
    rewrite from_string_build; [|reflexivity|exact Hat].
    apply parse_name_tag_digest. }
  unfold validate_service.
  destruct name as [|a name]; [congruence|].
  change (Py.nonempty (String a name +:+ ":latest@sha256:" +:+ h)) with true.
  cbn [negb]. rewrite Hconf, Htag. reflexivity.
Qed.

(** X17.  A reference without [@] cannot match the format, so with the
    architecture check off it gets exactly the [ERROR] about the missing
    digest, and no warning about its tag, even when the tag is [latest]. *)
Theorem reference_without_digest_is_an_error (net : Registries)
    (app_id service_name image_string : string) (client : Client) :
  image_string <> "" ->
  Py.has_char "@" image_string = false ->
  conforms image_string = false
  /\ validate_service net app_id false service_name (ImageText image_string) client
     = ([missing_digest_finding app_id service_name image_string], client).
Proof.
  intros Hne Hat.
  assert (Hconf : conforms image_string = false).
  { destruct (conforms image_string) eqn:E; [|reflexivity].
    apply conforms_shape in E as (name & tg & h & e & -> & _).
    rewrite has_char_app in Hat. apply orb_false_elim in Hat as [_ Hat].
    cbn [Py.has_char] in Hat. apply orb_false_elim in Hat as [_ Hat].
    rewrite has_char_app in Hat. apply orb_false_elim in Hat as [_ Hat].
    rewrite has_char_app in Hat. apply orb_false_elim in Hat as [Hat _].
    discriminate. }
  split; [exact Hconf|].
  unfold validate_service. destruct image_string; [congruence|].
  cbn [Py.nonempty negb]. rewrite Hconf. reflexivity.
Qed.

End ImageFormatFacts.

Section PatternExamples.
Import Regex RegexLanguage Models DockerImageValidator ImageReference ImageFormat.
Import GitHubValidator GitHubPaths.

Lemma accepted_pull_request_uses_rest_api_witness :
  exists owner repo number,
    _parse_github_pr sample_urlparse "https://github.com/getumbrel/umbrel-apps/pull/123"
    = Some (owner, repo, number)
    /\ is_segment owner /\ is_segment repo /\ number <> ""
    /\ pr_request_url sample_urlparse "https://github.com/getumbrel/umbrel-apps/pull/123"
       = "https://api.github.com/repos/" +:+ owner +:+ "/" +:+ repo
           +:+ "/pulls/" +:+ number.
Proof.
  apply (accepted_pull_request_uses_rest_api sample_urlparse
           "https://github.com/getumbrel/umbrel-apps/pull/123").
  vm_compute. reflexivity.
Defined.

Lemma pinned_latest_tag_is_a_warning_witness :
  validate_service amd64_only "my-app" false "web"
    (ImageText ("nginx" +:+ ":latest@sha256:"
       +:+ "0123456789abcdef0123456789ABCDEF0123456789abcdef0123456789abcdef"))
    new_client
  = ([latest_tag_finding "my-app" "web"], new_client).
Proof.
  apply (pinned_latest_tag_is_a_warning amd64_only "my-app" "web" "nginx"
           "0123456789abcdef0123456789ABCDEF0123456789abcdef0123456789abcdef");
    try discriminate; vm_compute; reflexivity.
Defined.

Lemma reference_without_digest_is_an_error_witness :
  conforms "nginx:latest" = false
  /\ validate_service amd64_only "my-app" false "web" (ImageText "nginx:latest") new_client
     = ([missing_digest_finding "my-app" "web" "nginx:latest"], new_client).
Proof.
  apply (reference_without_digest_is_an_error amd64_only "my-app" "web" "nginx:latest");
    [discriminate | reflexivity].
Defined.

End PatternExamples.

(* ===================================================================== *)
(** * Properties of the command line: grouping, plain display, tagline fix *)
(* ===================================================================== *)

Section CliFacts.
Import Models GitHubValidator Linter Structure Cli.

Lemma first_occurrences_snoc (l : list string) (x : string) :
  first_occurrences (l ++ [x])
  = first_occurrences l ++ (if existsb (String.eqb x) l then [] else [x]).
Proof.
  induction l as [|y l IH]; [reflexivity|].
  cbn [app first_occurrences existsb]. rewrite IH, filter_app.
  f_equal. f_equal.
  destruct (existsb (String.eqb x) l) eqn:El.
  - rewrite orb_true_r. reflexivity.
  - rewrite orb_false_r. rewrite (String.eqb_sym x y).
    destruct (String.eqb y x) eqn:E.
    + rewrite filter_cons_False; [reflexivity|]. cbn. now rewrite E.
    + rewrite filter_cons_True; [reflexivity|]. cbn. now rewrite E.
Qed.

Lemma setdefault_append_keys (g : list (string * list LintingError)) (k : string)
    (e : LintingError) :
  map fst (setdefault_append g k e)
  = map fst g ++ (if existsb (String.eqb k) (map fst g) then [] else [k]).
Proof.
  induction g as [|[k' l] g IH]; [reflexivity|].
  cbn [setdefault_append map fst existsb app].
  rewrite (String.eqb_sym k k').
  destruct (String.eqb k' k); cbn [orb map fst].
  - now rewrite app_nil_r.
  - now rewrite IH.
Qed.

Lemma setdefault_append_In (g : list (string * list LintingError)) (k : string)
    (e : LintingError) (k' : string) (l' : list LintingError) :
  NoDup (map fst g) ->
  In (k', l') (setdefault_append g k e)
  <-> (k' <> k /\ In (k', l') g)
      \/ (k' = k /\ ((exists l, In (k, l) g /\ l' = l ++ [e])
                     \/ (~ In k (map fst g) /\ l' = [e]))).
Proof.
  induction g as [|[k0 l0] g IH]; intros Hnd.
  - cbn. split.
    + intros [H|[]]. inversion H; subst. right. split; [reflexivity|]. right. tauto.
    + intros [[_ []]|[-> [(l & [] & _)|[_ ->]]]]. now left.
  - cbn [map fst] in Hnd. apply NoDup_cons in Hnd as [Hk0 Hnd].
    rewrite list_elem_of_In in Hk0.
    cbn [setdefault_append]. destruct (String.eqb_spec k0 k) as [->|Hne].
    + cbn [In map fst]. split.
      * intros [H|H].
        -- inversion H; subst. right. split; [reflexivity|]. left. exists l0. auto.
        -- left. split; [|now right]. intros ->. apply Hk0.
           apply in_map_iff. now exists (k, l').
      * intros [[Hk [H|H]]|[-> [(l & [H|H] & ->)|[Hk _]]]].
        -- inversion H; subst. congruence.
        -- now right.
        -- inversion H; subst. now left.
        -- exfalso. apply Hk0. apply in_map_iff. now exists (k, l).
        -- exfalso. apply Hk. now left.
    + cbn [In map fst]. rewrite (IH Hnd). split.
      * intros [H|[[Hk H]|[-> [(l & H & ->)|[Hk ->]]]]].
        -- inversion H; subst. left. split; [assumption | now left].
        -- left. split; [assumption | now right].
        -- right. split; [reflexivity|]. left. exists l. auto.
        -- right. split; [reflexivity|]. right. split; [|reflexivity].
           intros [H|H]; [congruence | contradiction].
      * intros [[Hk [H|H]]|[-> [(l & [H|H] & ->)|[Hk ->]]]].
        -- now left.
        -- right. left. auto.
        -- inversion H; subst. congruence.
        -- right. right. split; [reflexivity|]. left. exists l. auto.
        -- right. right. split; [reflexivity|]. right. split; [|reflexivity].
           intros H. apply Hk. now right.
Qed.

Lemma existsb_eqb_In (x : string) (l : list string) :
  existsb (String.eqb x) l = true <-> In x l.
Proof.
  rewrite existsb_exists. split.
  - intros (y & Hy & E). apply String.eqb_eq in E. now subst.
  - intros H. exists x. split; [exact H | apply String.eqb_refl].
Qed.

(** The groups after the findings [errs] have been filed. *)
Lemma group_by_file_spec (errs : list LintingError) :
  map fst (group_by_file errs) = first_occurrences (map file errs)
  /\ forall k l,
       In (k, l) (group_by_file errs)
       -> l = List.filter (fun e => String.eqb (file e) k) errs.
Proof.
  unfold group_by_file. induction errs as [|e errs IH] using rev_ind.
  - split; [reflexivity|]. intros k l [].
  - destruct IH as [IHk IHl]. rewrite fold_left_app. cbn [fold_left].
    set (g := fold_left (fun by_file err => setdefault_append by_file (file err) err)
                errs []) in *.
    assert (Hnd : NoDup (map fst g)).
    { rewrite IHk. apply first_occurrences_NoDup. }
    split.
    + rewrite setdefault_append_keys, (map_app file errs [e]).
      cbn [map]. rewrite first_occurrences_snoc, IHk.
      destruct (existsb (String.eqb (file e)) (map file errs)) eqn:E1;
        destruct (existsb (String.eqb (file e)) (first_occurrences (map file errs))) eqn:E2;
        try reflexivity; exfalso.
      * apply (proj1 (existsb_eqb_In _ _)) in E1.
        apply (proj2 (first_occurrences_In _ _)) in E1.
        apply (proj2 (existsb_eqb_In _ _)) in E1. congruence.
      * apply (proj1 (existsb_eqb_In _ _)) in E2.
        apply (proj1 (first_occurrences_In _ _)) in E2.
        apply (proj2 (existsb_eqb_In _ _)) in E2. congruence.
    + intros k l Hin. apply (setdefault_append_In g (file e) e k l Hnd) in Hin.
      rewrite List.filter_app. cbn [List.filter].
      destruct Hin as [[Hk Hin]|[-> [(l0 & Hin & ->)|[Hk ->]]]].
      * apply IHl in Hin. subst l.
        destruct (String.eqb_spec (file e) k); [congruence|]. now rewrite app_nil_r.
      * apply IHl in Hin. subst l0. now rewrite String.eqb_refl.
      * rewrite String.eqb_refl.
        assert (Hnone : List.filter (fun e0 => String.eqb (file e0) (file e)) errs = []).
        { rewrite IHk in Hk.
          assert (Hk' : ~ In (file e) (map file errs)).
          { intros H. apply Hk. now apply first_occurrences_In. }
          clear -Hk'. induction errs as [|x errs IH]; [reflexivity|].
          cbn [List.filter]. destruct (String.eqb_spec (file x) (file e)) as [E|E].
          - exfalso. apply Hk'. left. exact E.
          - apply IH. intros H. apply Hk'. now right. }
        now rewrite Hnone.
Qed.

(** X18.  The grouping of the findings by file (in [apply_fixes] and in
    the rich display) visits the files in the order of their first finding,
    each once, and gives each file exactly its findings, in report order;
    so every finding is handled exactly once. *)
Theorem findings_grouped_by_file (errs : list LintingError) :
  map fst (group_by_file errs) = first_occurrences (map file errs)
  /\ NoDup (map fst (group_by_file errs))
  /\ (forall k l,
        In (k, l) (group_by_file errs) ->
        l <> [] /\ l = List.filter (fun e => String.eqb (file e) k) errs)
  /\ (forall e, In e errs ->
        exists l, In (file e, l) (group_by_file errs) /\ In e l).
Proof.
  destruct (group_by_file_spec errs) as [Hk Hl].
  split; [exact Hk|]. split; [rewrite Hk; apply first_occurrences_NoDup|].
  assert (Hne : forall k l, In (k, l) (group_by_file errs) ->
                  exists e, In e errs /\ file e = k).
  { intros k l Hin.
    assert (H : In k (map fst (group_by_file errs))).
    { apply in_map_iff. now exists (k, l). }
    rewrite Hk in H. apply first_occurrences_In, in_map_iff in H as (e & He & Hin').
    eauto. }
  split.
  - intros k l Hin. split; [|now apply Hl].
    destruct (Hne k l Hin) as (e & He & Hf).
    rewrite (Hl k l Hin). intros Hnil.
    assert (H : In e (List.filter (fun e0 => String.eqb (file e0) k) errs)).
    { apply List.filter_In. split; [exact He|]. subst k. apply String.eqb_refl. }
    rewrite Hnil in H. destruct H.
  - intros e He.
    assert (H : In (file e) (map fst (group_by_file errs))).
    { rewrite Hk. apply first_occurrences_In, in_map_iff. now exists e. }
    apply in_map_iff in H as ([k l] & Hkl & Hin). cbn in Hkl. subst k.
    exists l. split; [exact Hin|]. rewrite (Hl _ _ Hin).
    apply List.filter_In. split; [exact He | apply String.eqb_refl].
Qed.

Section WithRuntime.
Variable safe_load : string -> string + Py.value.
Variable repr_container : Py.value -> string.
Variable int_of_text : string -> option Z.
Variable UmbrelAppManifest : Py.value -> string + Manifest.
Variable UmbrelAppStoreManifest : Py.value -> option string.
Variable urlparse : string -> option ParseResult.

(** X19.  For every report the linter returns (one application or a whole
    directory) that holds no [ERROR] finding, the plain display prints only
    [No linting errors found!], whatever the log level and whatever
    warnings the report holds; the exit status is [0] unless [--strict] is
    given and a [WARNING] is present, in which case the command fails while
    printing that no errors were found. *)
Theorem plain_output_hides_warnings (net : Network) (a : AppDir) (store : StoreDir)
    (context : LintingContext) (r : LintingResult) (github github' : Validator) :
  lint_app safe_load repr_container int_of_text UmbrelAppManifest urlparse
    net a context github = (Py.Returned r, github')
  \/ lint_all_apps safe_load repr_container int_of_text UmbrelAppManifest
       UmbrelAppStoreManifest urlparse net store context github
     = (Py.Returned r, github') ->
  has_errors r = false ->
  (forall log_level, _display_plain_output r log_level = ["No linting errors found!"])
  /\ exit_code false r = 0
  /\ (exit_code true r = 1 <-> has_warnings r = true).
Proof.
  intros Hr Herr.
  assert (Hflag : flag_consistent r).
  { destruct Hr as [Hr|Hr].
    - now apply (lint_app_consistent _ _ _ _ _ _ _ _ _ _ _ Hr).
    - now apply (lint_all_apps_flag_consistent _ _ _ _ _ _ _ _ _ _ _ _ Hr). }
  unfold flag_consistent in Hflag. unfold has_errors in Herr. rewrite Herr in Hflag.
  split; [|split].
  - intros log_level. unfold _display_plain_output. now rewrite Hflag.
  - unfold exit_code, has_errors. now rewrite Herr.
  - unfold exit_code, has_errors. rewrite Herr. cbn [orb andb].
    destruct (has_warnings r); split; congruence.
Qed.

End WithRuntime.

End CliFacts.

Section CliExampleFacts.
Import Models GitHubValidator Linter PortCollisions Cli CliExamples.

Lemma plain_output_hides_warnings_witness :
  match fst (lint_app two_apps_load (fun _ => "") (fun _ => None) port_schema
               sample_urlparse (fun _ => RequestFailed) warned_app default_context
               new_validator) with
  | Py.Returned r =>
      _display_plain_output r INFO = ["No linting errors found!"]
      /\ has_warnings r = true /\ exit_code true r = 1
  | Py.Raised _ => False
  end.
Proof.
  destruct (lint_app two_apps_load (fun _ => "") (fun _ => None) port_schema
              sample_urlparse (fun _ => RequestFailed) warned_app default_context
              new_validator) as [[r|e] github'] eqn:E; cbn [fst].
  - assert (Hr : has_errors r = false /\ has_warnings r = true).
    { vm_compute in E. inversion E. split; reflexivity. }
    destruct Hr as [Herr Hwarn].
    destruct (plain_output_hides_warnings two_apps_load (fun _ => "") (fun _ => None)
                port_schema (fun _ => None) sample_urlparse (fun _ => RequestFailed)
                warned_app bare_store default_context r new_validator github'
                (or_introl E) Herr) as (Hout & _ & Hexit).
    split; [apply Hout|]. split; [exact Hwarn|]. now apply Hexit.
  - vm_compute in E. discriminate.
Defined.

End CliExampleFacts.

Section TaglineFacts.
Import Tagline.

Lemma count_nonneg (c : ascii) (s : string) : 0 <= count c s.
Proof.
  induction s as [|a s IH]; cbn [count]; [lia|].
  destruct (Ascii.eqb a c); lia.
Qed.

Lemma count_zero (c : ascii) (s : string) :
  count c s = 0 <-> Py.has_char c s = false.
Proof.
  induction s as [|a s IH]; cbn [count Py.has_char]; [tauto|].
  pose proof (count_nonneg c s).
  destruct (Ascii.eqb a c); cbn [orb].
  - split; [lia | discriminate].
  - rewrite <- IH. split; lia.
Qed.

Lemma count_app (c : ascii) (s t : string) :
  count c (s +:+ t) = count c s + count c t.
Proof.
  induction s as [|a s IH]; [reflexivity|].
  change (String a s +:+ t) with (String a (s +:+ t)).
  cbn [count]. rewrite IH. lia.
Qed.

Lemma endswith_char (s : string) (c : ascii) :
  endswith s (String c "") = true <-> exists t, s = t +:+ String c "".
Proof.
  induction s as [|a s IH]; cbn [endswith].
  - split; [discriminate|]. intros ([|b t] & H); discriminate.
  - rewrite orb_true_iff, IH. split.
    + intros [H|(t & ->)].
      * apply String.eqb_eq in H. inversion H; subst. now exists "".
      * now exists (String a t).
    + intros ([|b t] & H).
      * left. apply String.eqb_eq. exact H.
      * right. inversion H; subst. now exists t.
Qed.

Lemma substring_prefix (t r : string) :
  String.substring 0 (String.length t) (t +:+ r) = t.
Proof.
  induction t as [|a t IH].
  - cbn. now destruct r.
  - change (String a t +:+ r) with (String a (t +:+ r)). cbn. now rewrite IH.
Qed.

Lemma length_app_str (s t : string) :
  String.length (s +:+ t) = (String.length s + String.length t)%nat.
Proof.
  induction s as [|a s IH]; [reflexivity|].
  change (String a s +:+ t) with (String a (s +:+ t)). cbn. now rewrite IH.
Qed.

(** [(t + c)[:-1]] is [t]. *)
Lemma slice_drop_last (t : string) (c : ascii) :
  Py.slice (t +:+ String c "") 0 (-1) = t.
Proof.
  unfold Py.slice, Py.len, Py.clamp_index. rewrite length_app_str. cbn [String.length].
  replace (0 <? 0) with false by reflexivity.
  replace (-1 <? 0) with true by reflexivity.
  replace (Z.to_nat (Z.min 0 (Z.of_nat (String.length t + 1)))) with 0%nat by lia.
  replace (Z.to_nat (Z.max 0 (-1 + Z.of_nat (String.length t + 1))
                     - Z.min 0 (Z.of_nat (String.length t + 1))))
    with (String.length t) by lia.
  apply substring_prefix.
Qed.

(** The taglines the validator rejects. *)
Lemma tagline_rejected_iff (v : string) :
  endswith v "." && (count "." v =? 1) = true
  <-> exists t, v = t +:+ "." /\ Py.has_char "." t = false.
Proof.
  rewrite andb_true_iff, endswith_char, Z.eqb_eq. split.
  - intros [(t & ->) Hc]. exists t. split; [reflexivity|].
    rewrite count_app in Hc. cbn in Hc. apply count_zero. lia.
  - intros (t & -> & Ht). split; [now exists t|].
    rewrite count_app. apply count_zero in Ht. rewrite Ht. reflexivity.
Qed.

(** X20.  [validate_tagline] rejects exactly the taglines that end with
    their only period.  The rule of [apply_fixes] drops that period, leaves
    every accepted tagline as it is, and its result is always accepted by
    the validator. *)
Theorem tagline_fix_satisfies_validator (v : string) :
  (validate_tagline v <> Py.Returned v
   <-> exists t, v = t +:+ "." /\ Py.has_char "." t = false)
  /\ (forall t, v = t +:+ "." -> Py.has_char "." t = false -> fix_tagline v = t)
  /\ (validate_tagline v = Py.Returned v -> fix_tagline v = v)
  /\ validate_tagline (fix_tagline v) = Py.Returned (fix_tagline v).
Proof.
  pose proof (tagline_rejected_iff v) as Hrej.
  assert (Hfix : forall t, v = t +:+ "." -> Py.has_char "." t = false -> fix_tagline v = t).
  { intros t Hv Ht. unfold fix_tagline.
    assert (H : endswith v "." && (count "." v =? 1) = true) by (apply Hrej; eauto).
    rewrite H, Hv. apply slice_drop_last. }
  unfold validate_tagline in *.
  destruct (endswith v "." && (count "." v =? 1)) eqn:E.
  - split; [split; [intros _; now apply Hrej | discriminate]|].
    split; [exact Hfix|]. split; [discriminate|].
    destruct (proj1 Hrej eq_refl) as (t & Hv & Ht).
    rewrite (Hfix t Hv Ht).
    assert (H : endswith t "." && (count "." t =? 1) = false).
    { apply count_zero in Ht. rewrite Ht. apply andb_false_r. }
    now rewrite H.
  - split; [split; [congruence|]|].
    + intros H. apply Hrej in H. discriminate.
    + split; [exact Hfix|]. split.
      * intros _. unfold fix_tagline. now rewrite E.
      * unfold fix_tagline. now rewrite E, E.
Qed.

End TaglineFacts.

(* ===================================================================== *)
(** * Properties of the compose fixes and of the variable mocker *)
(* ===================================================================== *)

Section FixerFacts.
Import Models Compose Fixer FixerAnalysis.

Lemma dict_get_set (d : list (string * Py.value)) (k k' : string) (v : Py.value) :
  Py.dict_get (dict_set d k v) k'
  = if String.eqb k k' then Some v else Py.dict_get d k'.
Proof.
  induction d as [|[k0 v0] d IH]; cbn [dict_set Py.dict_get].
  - destruct (String.eqb k k'); reflexivity.
  - destruct (String.eqb_spec k0 k) as [->|Hne]; cbn [Py.dict_get].
    + destruct (String.eqb k k'); reflexivity.
    + rewrite IH. destruct (String.eqb_spec k0 k') as [->|Hne'].
      * destruct (String.eqb_spec k k'); [congruence | reflexivity].
      * reflexivity.
Qed.

Lemma dict_set_same (d : list (string * Py.value)) (k : string) (v : Py.value) :
  Py.dict_get d k = Some v -> dict_set d k v = d.
Proof.
  induction d as [|[k0 v0] d IH]; cbn [dict_set Py.dict_get]; [discriminate|].
  destruct (String.eqb k0 k).
  - intros H. inversion H. reflexivity.
  - intros H. now rewrite (IH H).
Qed.

Lemma boolean_findings_nil (a n s : string) (found : option Py.value) :
  boolean_findings a n s found = [] <-> has_booleans found = false.
Proof.
  destruct found as [[| | | | |kv]|]; cbn [boolean_findings has_booleans];
    try tauto.
  induction kv as [|[k v] kv IH]; cbn [flat_map existsb snd fst]; [tauto|].
  destruct v; cbn [is_bool orb app]; try exact IH.
  split; discriminate.
Qed.

Lemma quote_booleans_clean (kv : list (string * Py.value)) :
  has_booleans (Some (Py.VDict (fst (quote_booleans kv)))) = false.
Proof.
  cbn [has_booleans quote_booleans fst].
  induction kv as [|[k v] kv IH]; [reflexivity|].
  cbn [map existsb snd fst]. rewrite IH. now destruct v.
Qed.

Lemma quote_booleans_same (kv : list (string * Py.value)) :
  snd (quote_booleans kv) = false -> fst (quote_booleans kv) = kv.
Proof.
  cbn [quote_booleans fst snd].
  induction kv as [|[k v] kv IH]; [reflexivity|].
  cbn [map existsb snd fst]. intros [Hv Hkv]%orb_false_elim.
  rewrite (IH Hkv). now destruct v.
Qed.

(** One round of the loop over the three sections. *)
Lemma fix_section_spec (svc : list (string * Py.value)) (changed : bool) (key : string) :
  (forall k, k <> key ->
     Py.dict_get (fst (fix_section (svc, changed) key)) k = Py.dict_get svc k)
  /\ has_booleans (Py.dict_get (fst (fix_section (svc, changed) key)) key) = false
  /\ snd (fix_section (svc, changed) key)
     = changed || has_booleans (Py.dict_get svc key)
  /\ (has_booleans (Py.dict_get svc key) = false ->
      fst (fix_section (svc, changed) key) = svc).
Proof.
  unfold fix_section.
  destruct (Py.dict_get svc key) as [v|] eqn:Hget.
  - destruct v as [| | | | |kv];
      try (cbn [fst snd has_booleans]; rewrite Hget, orb_false_r; auto).
    pose proof (quote_booleans_clean kv) as Hclean.
    pose proof (quote_booleans_same kv) as Hsame.
    assert (Hflag : snd (quote_booleans kv) = has_booleans (Some (Py.VDict kv)))
      by reflexivity.
    destruct (quote_booleans kv) as [kv' assigned]. cbn [fst snd] in *. subst assigned.
    split; [|split; [|split]].
    + intros k Hk. rewrite dict_get_set.
      destruct (String.eqb_spec key k); [congruence | reflexivity].
    + now rewrite dict_get_set, String.eqb_refl.
    + reflexivity.
    + cbn [has_booleans]. intros H. rewrite (Hsame H). now apply dict_set_same.
  - cbn [fst snd has_booleans]. rewrite Hget, orb_false_r. auto.
Qed.

(** The three rounds together. *)
Lemma fix_sections_spec (d : list (string * Py.value)) (changed : bool) :
  let st := fold_left fix_section ["environment"; "labels"; "extra_hosts"] (d, changed) in
  Py.dict_get (fst st) "restart" = Py.dict_get d "restart"
  /\ has_booleans (Py.dict_get (fst st) "environment") = false
  /\ has_booleans (Py.dict_get (fst st) "labels") = false
  /\ has_booleans (Py.dict_get (fst st) "extra_hosts") = false
  /\ snd st = changed || has_booleans (Py.dict_get d "environment")
              || has_booleans (Py.dict_get d "labels")
              || has_booleans (Py.dict_get d "extra_hosts")
  /\ (has_booleans (Py.dict_get d "environment") = false ->
      has_booleans (Py.dict_get d "labels") = false ->
      has_booleans (Py.dict_get d "extra_hosts") = false ->
      fst st = d).
Proof.
  cbn [fold_left].
  destruct (fix_section_spec d changed "environment") as (A1 & A2 & A3 & A4).
  destruct (fix_section (d, changed) "environment") as [d1 c1]. cbn [fst snd] in *.
  destruct (fix_section_spec d1 c1 "labels") as (B1 & B2 & B3 & B4).
  destruct (fix_section (d1, c1) "labels") as [d2 c2]. cbn [fst snd] in *.
  destruct (fix_section_spec d2 c2 "extra_hosts") as (C1 & C2 & C3 & C4).
  destruct (fix_section (d2, c2) "extra_hosts") as [d3 c3]. cbn [fst snd] in *.
  assert (E1 : Py.dict_get d1 "labels" = Py.dict_get d "labels")
    by (apply A1; discriminate).
  assert (E2 : Py.dict_get d2 "extra_hosts" = Py.dict_get d "extra_hosts")
    by (rewrite B1 by discriminate; apply A1; discriminate).
  split; [|split; [|split; [|split; [|split]]]].
  - rewrite C1, B1, A1 by discriminate. reflexivity.
  - rewrite C1, B1 by discriminate. exact A2.
  - rewrite C1 by discriminate. exact B2.
  - exact C2.
  - rewrite C3, B3, A3, E1, E2. reflexivity.
  - intros H1 H2 H3. rewrite C4, B4, A4; auto; congruence.
Qed.

Lemma service_restart_dict (a n : string) (d : list (string * Py.value)) :
  service_restart a (n, Py.VDict d)
  = Py.Returned
      (if negb (String.eqb n "app_proxy") && negb (is_on_failure (Py.dict_get d "restart"))
       then [restart_finding a n] else []).
Proof.
  unfold service_restart. cbn [Py.get Py.bind].
  destruct (String.eqb n "app_proxy"); [reflexivity|]. cbn [negb andb].
  now destruct (is_on_failure (Py.dict_get d "restart")).
Qed.

Lemma service_booleans_dict (a n : string) (d : list (string * Py.value)) :
  service_booleans a (n, Py.VDict d)
  = Py.Returned
      (boolean_findings a n "environment" (Py.dict_get d "environment")
       ++ boolean_findings a n "labels" (Py.dict_get d "labels")
       ++ boolean_findings a n "extra_hosts" (Py.dict_get d "extra_hosts")).
Proof. reflexivity. Qed.

Lemma service_booleans_returns (a n : string) (v : Py.value) (errs : list LintingError) :
  service_booleans a (n, v) = Py.Returned errs -> exists d, v = Py.VDict d.
Proof. destruct v; try discriminate. eauto. Qed.

Lemma service_findings_nil (a n : string) (d : list (string * Py.value)) :
  needs_fix n d = false
  <-> service_restart a (n, Py.VDict d) = Py.Returned []
      /\ service_booleans a (n, Py.VDict d) = Py.Returned [].
Proof.
  rewrite service_restart_dict, service_booleans_dict. unfold needs_fix.
  pose proof (boolean_findings_nil a n "environment" (Py.dict_get d "environment")) as H1.
  pose proof (boolean_findings_nil a n "labels" (Py.dict_get d "labels")) as H2.
  pose proof (boolean_findings_nil a n "extra_hosts" (Py.dict_get d "extra_hosts")) as H3.
  destruct (negb (String.eqb n "app_proxy")
            && negb (is_on_failure (Py.dict_get d "restart"))); cbn [orb].
  - split; [discriminate | intros [H _]; discriminate].
  - rewrite !orb_false_iff. split.
    + intros [[E1 E2] E3]. apply H1 in E1. apply H2 in E2. apply H3 in E3.
      now rewrite E1, E2, E3.
    + intros [_ H]. inversion H as [H'].
      apply app_eq_nil in H' as [E1 H']. apply app_eq_nil in H' as [E2 E3].
      rewrite E1, E2, E3 in *. tauto.
Qed.

(** What the fixer does to one service that is a mapping. *)
Lemma fix_service_spec (n : string) (d : list (string * Py.value)) (changed : bool) :
  exists d',
    fst (fix_service n (Py.VDict d) changed) = Py.VDict d'
    /\ needs_fix n d' = false
    /\ snd (fix_service n (Py.VDict d) changed) = changed || needs_fix n d
    /\ (needs_fix n d = false -> d' = d).
Proof.
  unfold fix_service.
  destruct (fix_sections_spec d changed) as (Hr & He & Hl & Hx & Hc & Hsame).
  destruct (fold_left fix_section ["environment"; "labels"; "extra_hosts"] (d, changed))
    as [d1 c1]. cbn [fst snd] in *.
  unfold needs_fix. rewrite Hr.
  destruct (negb (String.eqb n "app_proxy")
            && negb (is_on_failure (Py.dict_get d "restart"))) eqn:E.
  - exists (dict_set d1 "restart" (Py.VStr "on-failure")). cbn [fst snd].
    split; [reflexivity|]. split; [|split].
    + rewrite !dict_get_set. cbn [String.eqb Ascii.eqb Bool.eqb is_on_failure].
      rewrite He, Hl, Hx. cbn. now rewrite andb_false_r.
    + cbn [orb]. now rewrite orb_true_r.
    + discriminate.
  - exists d1. cbn [fst snd]. split; [reflexivity|]. split; [|split].
    + rewrite Hr, E, He, Hl, Hx. reflexivity.
    + rewrite Hc. cbn [orb]. now rewrite !orb_assoc.
    + cbn [orb]. rewrite !orb_false_iff. intros [[H1 H2] H3]. auto.
Qed.

End FixerFacts.

Section ComposeFixFacts.
Import Models Compose Fixer FixerAnalysis.

Lemma for_each_cons {A : Type} (body : A -> Py.result (list LintingError)) (x : A)
    (rest : list A) (errs : list LintingError) :
  for_each body (x :: rest) = Py.Returned errs
  <-> exists e1 e2,
        body x = Py.Returned e1 /\ for_each body rest = Py.Returned e2
        /\ errs = e1 ++ e2.
Proof.
  cbn [for_each]. destruct (body x) as [e1|e]; cbn [Py.bind].
  - destruct (for_each body rest) as [e2|e]; cbn [Py.bind].
    + split.
      * intros H. inversion H. eauto.
      * intros (x1 & x2 & H1 & H2 & ->). inversion H1. inversion H2. reflexivity.
    + split; [discriminate|]. intros (x1 & x2 & _ & H & _). discriminate.
  - split; [discriminate|]. intros (x1 & x2 & H & _). discriminate.
Qed.

(** What the fixer does to the services, all of them mappings. *)
Lemma fix_services_spec (a : string) (service_items : list (string * Py.value))
    (changed : bool) (errs1 errs2 : list LintingError) :
  for_each (service_restart a) service_items = Py.Returned errs1 ->
  for_each (service_booleans a) service_items = Py.Returned errs2 ->
  (forall a',
     for_each (service_restart a') (fst (fix_services service_items changed))
     = Py.Returned []
     /\ for_each (service_booleans a') (fst (fix_services service_items changed))
        = Py.Returned [])
  /\ snd (fix_services service_items changed)
     = changed || existsb service_needs_fix service_items
  /\ (existsb service_needs_fix service_items = false
      <-> errs1 = [] /\ errs2 = [])
  /\ (existsb service_needs_fix service_items = false ->
      fst (fix_services service_items changed) = service_items).
Proof.
  revert changed errs1 errs2.
  induction service_items as [|[n v] rest IH]; intros changed errs1 errs2 H1 H2.
  - cbn in *. inversion H1. inversion H2. rewrite orb_false_r. tauto.
  - apply for_each_cons in H1 as (r1 & r2 & Hr1 & Hr2 & ->).
    apply for_each_cons in H2 as (b1 & b2 & Hb1 & Hb2 & ->).
    destruct (service_booleans_returns a n v b1 Hb1) as [d ->].
    cbn [fix_services existsb].
    change (service_needs_fix (n, Py.VDict d)) with (needs_fix n d).
    destruct (fix_service_spec n d changed) as (d' & Hd' & Hclean & Hflag & Hsame).
    destruct (fix_service n (Py.VDict d) changed) as [v' c1]. cbn [fst snd] in *.
    subst v'.
    destruct (IH c1 r2 b2 Hr2 Hb2) as (Hval & Hc & Hiff & Hkeep).
    destruct (fix_services rest c1) as [rest' c2]. cbn [fst snd] in *.
    split; [|split; [|split]].
    + intros a'. destruct (Hval a') as [V1 V2].
      destruct (proj1 (service_findings_nil a' n d') Hclean) as [S1 S2].
      split; apply for_each_cons; exists [], []; auto.
    + rewrite Hc, Hflag. now rewrite orb_assoc.
    + rewrite orb_false_iff, Hiff, (service_findings_nil a n d), Hr1, Hb1. split.
      * intros [[E1 E2] [-> ->]]. inversion E1. inversion E2. now subst.
      * intros [E1 E2]. apply app_eq_nil in E1 as [-> ->].
        apply app_eq_nil in E2 as [-> ->]. auto.
    + intros [E1 E2]%orb_false_elim. now rewrite (Hsame E1), (Hkeep E2).
Qed.

(** X21.  On a document for which [_validate_restart_policies] and
    [_validate_boolean_values] return their findings, the fixer runs
    through, and on the document it leaves both validators return no
    finding.  It sets the flag [changed] (and so rewrites the file) exactly
    when one of the two had a finding, and leaves the document as it was
    otherwise. *)
Theorem compose_fix_clears_restart_and_boolean_findings (data : Py.value)
    (app_id : string) (errs1 errs2 : list LintingError) :
  _validate_restart_policies data app_id = Py.Returned errs1 ->
  _validate_boolean_values data app_id = Py.Returned errs2 ->
  exists data' changed,
    fix_compose data = Py.Returned (data', changed)
    /\ (forall a,
          _validate_restart_policies data' a = Py.Returned []
          /\ _validate_boolean_values data' a = Py.Returned [])
    /\ (changed = false <-> errs1 = [] /\ errs2 = [])
    /\ (changed = false -> data' = data).
Proof.
  unfold _validate_restart_policies, _validate_boolean_values, get_or.
  destruct data as [| | | | |d]; try discriminate.
  cbn [Py.get Py.bind].
  destruct (Py.dict_get d "services") as [services|] eqn:Hs.
  - cbn [default from_option Datatypes.id Py.bind].
    destruct (items services) as [service_items|e] eqn:Hi;
      [|cbn [Py.bind]; intros H; discriminate H].
    cbn [Py.bind]. intros H1 H2.
    destruct (fix_services_spec app_id service_items false errs1 errs2 H1 H2)
      as (Hval & Hflag & Hiff & Hkeep).
    assert (Hserv : services = Py.VDict service_items).
    { destruct services; cbn in Hi; inversion Hi; reflexivity. }
    assert (Hfix : fix_compose (Py.VDict d)
              = Py.Returned
                  (Py.VDict (dict_set d "services"
                               (Py.VDict (fst (fix_services service_items false)))),
                   snd (fix_services service_items false))).
    { unfold fix_compose. destruct d as [|item d]; [discriminate|].
      cbn [Py.truth]. rewrite Hs, Hi. cbn [Py.bind].
      now destruct (fix_services service_items false). }
    eexists _, _. split; [exact Hfix|]. split; [|split].
    + intros a. cbn [Py.get Py.bind]. rewrite dict_get_set, String.eqb_refl.
      cbn [default from_option Datatypes.id items Py.bind]. apply Hval.
    + rewrite Hflag. cbn [orb]. exact Hiff.
    + rewrite Hflag. cbn [orb]. intros H. rewrite (Hkeep H).
      rewrite dict_set_same; [reflexivity|]. now rewrite Hs, Hserv.
  - cbn [default from_option Datatypes.id items Py.bind for_each]. intros H1 H2.
    assert (Hfix : fix_compose (Py.VDict d) = Py.Returned (Py.VDict d, false)).
    { unfold fix_compose. destruct d as [|item d]; [reflexivity|].
      cbn [Py.truth]. now rewrite Hs. }
    inversion H1. inversion H2.
    exists (Py.VDict d), false. split; [exact Hfix|]. split; [|tauto].
    intros a. cbn [Py.get Py.bind]. rewrite Hs. now split.
Qed.

Lemma compose_fix_clears_restart_and_boolean_findings_witness :
  exists data',
    fix_compose sample_compose = Py.Returned (data', true)
    /\ _validate_restart_policies data' "my-app" = Py.Returned []
    /\ _validate_boolean_values data' "my-app" = Py.Returned [].
Proof.
  destruct (compose_fix_clears_restart_and_boolean_findings sample_compose "my-app"
              [restart_finding "my-app" "web"]
              [boolean_finding "my-app" "web" "environment" "DEBUG" true]
              eq_refl eq_refl) as (data' & changed & Hfix & Hval & Hiff & _).
  exists data'. destruct changed.
  - split; [exact Hfix|]. apply Hval.
  - destruct (proj1 Hiff eq_refl) as [H _]. discriminate.
Defined.

End ComposeFixFacts.

Section BracedPlaceholderFacts.
Import VariableMocker MockerAnalysis.

Lemma has_bare_placeholder_tail (c : ascii) (s : string) :
  has_bare_placeholder (String c s) = false -> has_bare_placeholder s = false.
Proof. cbn [has_bare_placeholder]. now intros [_ H]%orb_false_elim. Qed.

Lemma no_bare_startswith (s v : string) :
  has_bare_placeholder s = false -> starts_with_name_char v = true ->
  Py.startswith s (String "$" v) = false.
Proof.
  intros Hs Hv. destruct s as [|c s]; [reflexivity|].
  cbn [Py.startswith]. destruct (Ascii.eqb_spec "$" c) as [<-|]; [|reflexivity].
  cbn [has_bare_placeholder] in Hs. apply orb_false_elim in Hs as [Hs _].
  cbn in Hs. destruct v as [|b v]; [discriminate|]. cbn in Hv.
  destruct s as [|b' s]; [reflexivity|].
  cbn [Py.startswith]. destruct (Ascii.eqb_spec b b') as [<-|]; [congruence|reflexivity].
Qed.

Lemma no_bare_find (s v : string) :
  has_bare_placeholder s = false -> starts_with_name_char v = true ->
  Py.find s (String "$" v) = -1.
Proof.
  intros Hs Hv. induction s as [|c s IH].
  - reflexivity.
  - cbn [Py.find]. rewrite (no_bare_startswith _ _ Hs Hv).
    rewrite (IH (has_bare_placeholder_tail _ _ Hs)). reflexivity.
Qed.

Lemma no_bare_replace (s v new : string) :
  has_bare_placeholder s = false -> starts_with_name_char v = true ->
  Py.replace s (String "$" v) new = s.
Proof.
  intros Hs Hv. unfold Py.replace. induction s as [|c s IH]; [reflexivity|].
  cbn [Py.replace_from]. rewrite (no_bare_startswith _ _ Hs Hv).
  now rewrite (IH (has_bare_placeholder_tail _ _ Hs)).
Qed.

Lemma substring_zero (n : nat) (s : string) : String.substring n 0 s = "".
Proof.
  revert n. induction s as [|c s IH]; intros [|n]; cbn; auto.
Qed.

(** A match at the head of a text without bare placeholder is a braced
    one, and the text is longer than the name by three characters at
    least. *)
Lemma no_bare_match_here (s g1 g2 : string) (n : nat) :
  has_bare_placeholder s = false ->
  match_here s = Some (g1, g2, n) ->
  g1 = "" /\ starts_with_name_char g2 = true
  /\ (String.length g2 + 3 <= String.length s)%nat.
Proof.
  intros Hs Hm. unfold match_here in Hm.
  destruct s as [|c s1]; [discriminate|].
  destruct (Ascii.eqb_spec c "$") as [->|]; [|discriminate]. cbn [negb] in Hm.
  cbn [has_bare_placeholder] in Hs. apply orb_false_elim in Hs as [Hs _]. cbn in Hs.
  assert (Hfst : fst (take_name s1) = "").
  { destruct s1 as [|b s2]; [reflexivity|]. cbn [take_name]. now rewrite Hs. }
  rewrite Hfst in Hm.
  destruct s1 as [|b s2]; [discriminate|].
  destruct (Ascii.eqb_spec b "{") as [->|]; [|discriminate]. cbn [negb] in Hm.
  destruct (take_name s2) as [v2 r2] eqn:Et.
  destruct (take_name_spec _ _ _ Et) as [Hs2 Hv2].
  destruct v2 as [|a v2]; [discriminate|].
  destruct r2 as [|e r2]; [discriminate|].
  destruct (Ascii.eqb e "}"); [|discriminate].
  inversion Hm; subst. split; [reflexivity|].
  cbn in Hv2. apply andb_prop in Hv2 as [Ha _]. split; [exact Ha|].
  cbn [String.length].
  change (String a v2 +:+ String e r2) with (String a (v2 +:+ String e r2)).
  cbn [String.length]. rewrite length_app_str. cbn [String.length]. lia.
Qed.

Lemma no_bare_findall_from (skip : nat) (s : string) :
  has_bare_placeholder s = false ->
  Forall (fun m => fst m = "" /\ starts_with_name_char (snd m) = true
                   /\ (String.length (snd m) + 3 <= String.length s)%nat)
    (findall_from skip s).
Proof.
  revert skip. induction s as [|c s IH]; intros skip Hs; [constructor|].
  pose proof (has_bare_placeholder_tail _ _ Hs) as Hs'.
  assert (Hweak : forall k,
            Forall (fun m => fst m = "" /\ starts_with_name_char (snd m) = true
                     /\ (String.length (snd m) + 3 <= String.length (String c s))%nat)
              (findall_from k s)).
  { intros k. eapply List.Forall_impl; [|apply (IH k Hs')].
    cbn [String.length]. intros m (H1 & H2 & H3). repeat split; auto; lia. }
  cbn [findall_from]. destruct skip as [|k]; [|apply Hweak].
  destruct (match_here (String c s)) as [[[g1 g2] n]|] eqn:Hm; [|apply Hweak].
  constructor; [|apply Hweak].
  cbn [fst snd]. exact (no_bare_match_here _ _ _ _ Hs Hm).
Qed.

Lemma no_bare_extract_one (content : string) (m : string * string) :
  has_bare_placeholder content = false ->
  fst m = "" -> starts_with_name_char (snd m) = true ->
  (String.length (snd m) + 3 <= String.length content)%nat ->
  extract_one content m = mkVar (String "$" (snd m)) (snd m) "".
Proof.
  intros Hc H1 H2 H3. unfold extract_one. rewrite H1. cbn [Py.nonempty].
  change ("$" +:+ snd m) with (String "$" (snd m)).
  rewrite (no_bare_find _ _ Hc H2).
  assert (Hw : Py.slice content (-1) (-1 + Py.len (String "$" (snd m)) + 1) = "").
  { unfold Py.slice, Py.len, Py.clamp_index. cbn [String.length].
    replace (-1 <? 0) with true by reflexivity.
    replace (-1 + Z.of_nat (S (String.length (snd m))) + 1 <? 0) with false
      by (symmetry; apply Z.ltb_ge; lia).
    replace (Z.to_nat (Z.min (-1 + Z.of_nat (S (String.length (snd m))) + 1)
                         (Z.of_nat (String.length content))
                       - Z.max 0 (-1 + Z.of_nat (String.length content))))
      with 0%nat by lia.
    apply substring_zero. }
  rewrite Hw. reflexivity.
Qed.

Lemma _find_mocks_full_variable (vars : list MockVar) (g : Random) :
  map full_variable (fst (_find_mocks vars g)) = map full_variable vars.
Proof.
  revert g. induction vars as [|v vars IH]; intros g; [reflexivity|].
  cbn [_find_mocks]. destruct (find_mock (variable v) g) as [m g1].
  specialize (IH g1). destruct (_find_mocks vars g1) as [rest g2].
  cbn [fst map full_variable] in *. now rewrite IH.
Qed.

Lemma no_bare__replace_variables (content : string) (vars : list MockVar) :
  has_bare_placeholder content = false ->
  Forall (fun full => exists v, full = String "$" v /\ starts_with_name_char v = true)
    (map full_variable vars) ->
  _replace_variables content vars = content.
Proof.
  intros Hc. unfold _replace_variables.
  induction vars as [|x vars IH]; intros Hall; [reflexivity|].
  cbn [map] in Hall. apply Forall_cons in Hall as [(v & Hx & Hv) Hall].
  cbn [fold_left]. rewrite Hx, (no_bare_replace _ _ _ Hc Hv). now apply IH.
Qed.

(** X22.  A text in which no [$] is directly followed by a name character
    comes back from [mock_variables] unchanged, even when it holds
    placeholders of the braced form: a placeholder [${NAME}] is never
    replaced by its mock value unless [$NAME] occurs in the text as well. *)
Theorem braced_placeholders_are_not_replaced (content : string) (g : Random) :
  has_bare_placeholder content = false ->
  fst (mock_variables content g) = content
  /\ Forall (fun var => full_variable var = "$" +:+ variable var)
       (_extract_variables content).
Proof.
  intros Hc.
  pose proof (no_bare_findall_from 0 content Hc) as Hall.
  fold (findall content) in Hall.
  assert (Hvars : Forall (fun var => exists v, var = mkVar (String "$" v) v ""
                                     /\ starts_with_name_char v = true)
                    (_extract_variables content)).
  { unfold _extract_variables. apply Forall_map.
    eapply List.Forall_impl; [|exact Hall]. intros m (H1 & H2 & H3). cbn beta.
    exists (snd m). split; [|exact H2]. now apply no_bare_extract_one. }
  split.
  - rewrite mock_variables_fst. apply no_bare__replace_variables; [exact Hc|].
    rewrite _find_mocks_full_variable. apply Forall_map.
    eapply List.Forall_impl; [|exact Hvars]. intros var (v & -> & Hv). cbn. eauto.
  - eapply List.Forall_impl; [|exact Hvars]. intros var (v & -> & _). reflexivity.
Qed.

Lemma braced_placeholders_are_not_replaced_witness :
  fst (mock_variables "volumes: ${APP_DATA_DIR}/data" (mkRandom (fun _ => 0) 0))
  = "volumes: ${APP_DATA_DIR}/data"
  /\ findall "volumes: ${APP_DATA_DIR}/data" = [("", "APP_DATA_DIR")].
Proof.
  split; [|vm_compute; reflexivity].
  apply (braced_placeholders_are_not_replaced "volumes: ${APP_DATA_DIR}/data"
           (mkRandom (fun _ => 0) 0)).
  vm_compute. reflexivity.
Defined.

End BracedPlaceholderFacts.

Section BarePlaceholderFacts.
Import VariableMocker MockerAnalysis MockerShapes.

Lemma take_name_all (name after : string) :
  forallb name_char (list_ascii_of_string name) = true ->
  ends_name after = true ->
  take_name (name +:+ after) = (name, after).
Proof.
  intros Hname Hafter. destruct after as [|e rest].
  - rewrite app_empty_r. clear Hafter.
    induction name as [|a name IH]; [reflexivity|].
    cbn in Hname. apply andb_prop in Hname as [Ha Hname].
    cbn [take_name]. now rewrite Ha, (IH Hname).
  - cbn in Hafter. apply andb_prop in Hafter as [He _].
    apply negb_true_iff in He. now apply take_name_run.
Qed.

Lemma match_here_no_dollar (c : ascii) (s : string) :
  Ascii.eqb c "$" = false -> match_here (String c s) = None.
Proof. intros H. unfold match_here. now rewrite H. Qed.

Lemma findall_from_no_dollar (k : nat) (s : string) :
  Py.has_char "$" s = false -> findall_from k s = [].
Proof.
  revert k. induction s as [|c s IH]; intros k H; [reflexivity|].
  cbn [Py.has_char] in H. apply orb_false_elim in H as [Hc Hs].
  cbn [findall_from]. destruct k as [|k]; [|now apply IH].
  rewrite (match_here_no_dollar c s Hc). now apply IH.
Qed.

Lemma findall_from_skip (x s : string) (k : nat) :
  findall_from (String.length x + k) (x +:+ s) = findall_from k s.
Proof.
  induction x as [|a x IH]; [reflexivity|].
  change (String a x +:+ s) with (String a (x +:+ s)). cbn. exact IH.
Qed.

Lemma findall_from_before (before s : string) :
  Py.has_char "$" before = false ->
  findall_from 0 (before +:+ s) = findall_from 0 s.
Proof.
  intros H. induction before as [|c before IH]; [reflexivity|].
  cbn [Py.has_char] in H. apply orb_false_elim in H as [Hc Hb].
  change (String c before +:+ s) with (String c (before +:+ s)).
  cbn [findall_from]. rewrite (match_here_no_dollar c _ Hc). now apply IH.
Qed.

Lemma match_here_bare (name after : string) :
  is_name name -> ends_name after = true ->
  match_here (String "$" (name +:+ after)) = Some (name, "", S (String.length name)).
Proof.
  intros [Hne Hname] He. unfold match_here.
  replace (negb (Ascii.eqb "$" "$")) with false by reflexivity.
  rewrite (take_name_all name after Hname He). cbn [fst].
  destruct name as [|a name]; [congruence | reflexivity].
Qed.

(** The one match of the pattern in a text that holds one bare
    placeholder. *)
Lemma findall_one_bare (before name after : string) :
  Py.has_char "$" before = false -> Py.has_char "$" after = false ->
  is_name name -> ends_name after = true ->
  findall (before +:+ String "$" (name +:+ after)) = [(name, "")].
Proof.
  intros Hb Ha Hname He. unfold findall. rewrite (findall_from_before _ _ Hb).
  change (findall_from 0 (String "$" (name +:+ after)))
    with (match match_here (String "$" (name +:+ after)) with
          | Some (g1, g2, n) => (g1, g2) :: findall_from (n - 1) (name +:+ after)
          | None => findall_from 0 (name +:+ after)
          end).
  rewrite (match_here_bare name after Hname He). f_equal.
  replace (S (String.length name) - 1)%nat with (String.length name + 0)%nat by lia.
  rewrite findall_from_skip. now apply findall_from_no_dollar.
Qed.

Lemma find_after_prefix (before rest needle : string) :
  Py.has_char "$" before = false ->
  Py.startswith rest needle = true ->
  (exists v, needle = String "$" v) ->
  Py.find (before +:+ rest) needle = Z.of_nat (String.length before).
Proof.
  intros Hb Hs (v & ->). induction before as [|c before IH].
  - rewrite app_empty. destruct rest; cbn [Py.find]; now rewrite Hs.
  - cbn [Py.has_char] in Hb. apply orb_false_elim in Hb as [Hc Hb].
    change (String c before +:+ rest) with (String c (before +:+ rest)).
    cbn [Py.find Py.startswith]. rewrite (Ascii.eqb_sym "$" c), Hc, (IH Hb).
    cbn [String.length].
    replace (Z.of_nat (String.length before) <? 0) with false
      by (symmetry; apply Z.ltb_ge; lia).
    lia.
Qed.

Lemma substring_skip (x y : string) (n : nat) :
  String.substring (String.length x) n (x +:+ y) = String.substring 0 n y.
Proof.
  induction x as [|a x IH]; [reflexivity|].
  change (String a x +:+ y) with (String a (x +:+ y)). cbn. exact IH.
Qed.

Lemma substring_head (x y : string) (n : nat) :
  String.substring 0 (String.length x + n) (x +:+ y)
  = x +:+ String.substring 0 n y.
Proof.
  induction x as [|a x IH]; [reflexivity|].
  change (String a x +:+ y) with (String a (x +:+ y)). cbn. now rewrite IH.
Qed.

Lemma contains_char (c : ascii) (s : string) :
  Py.contains (String c "") s = Py.has_char c s.
Proof.
  induction s as [|a s IH]; [reflexivity|].
  cbn [Py.contains Py.has_char Py.startswith]. rewrite IH.
  destruct (Ascii.eqb_spec c a) as [->|Hne].
  - rewrite Ascii.eqb_refl. now destruct s.
  - destruct (Ascii.eqb_spec a c); [congruence | reflexivity].
Qed.

Lemma name_char_not_brace (c : ascii) : name_char c = true -> Ascii.eqb c "{" = false.
Proof.
  intros H. destruct (Ascii.eqb_spec c "{") as [->|]; [|reflexivity].
  vm_compute in H. discriminate.
Qed.

Lemma name_no_brace (name : string) :
  forallb name_char (list_ascii_of_string name) = true -> Py.has_char "{" name = false.
Proof.
  induction name as [|a name IH]; [reflexivity|]. cbn.
  intros [Ha Hn]%andb_prop. now rewrite (name_char_not_brace a Ha), (IH Hn).
Qed.

(** The window [content[i : i + len(needle) + 1]] that [_extract_variables]
    searches for a brace. *)
Lemma window_of_bare (before name after : string) :
  Py.slice (before +:+ String "$" (name +:+ after))
    (Z.of_nat (String.length before))
    (Z.of_nat (String.length before) + Py.len (String "$" name) + 1)
  = String "$" (name +:+ String.substring 0 1 after).
Proof.
  unfold Py.slice, Py.len, Py.clamp_index.
  rewrite length_app_str. cbn [String.length]. rewrite length_app_str.
  replace (Z.of_nat (String.length before) <? 0) with false
    by (symmetry; apply Z.ltb_ge; lia).
  replace (Z.of_nat (String.length before) + Z.of_nat (S (String.length name)) + 1 <? 0)
    with false by (symmetry; apply Z.ltb_ge; lia).
  match goal with
  | |- String.substring (Z.to_nat ?a) (Z.to_nat ?n) _ = _ =>
      replace (Z.to_nat a) with (String.length before) by lia;
      replace (Z.to_nat n)
        with (String.length (String "$" name) + Nat.min 1 (String.length after))%nat
        by (cbn [String.length]; lia)
  end.
  rewrite substring_skip.
  change (String "$" (name +:+ after)) with (String "$" name +:+ after).
  rewrite substring_head.
  change (String "$" name +:+ String.substring 0 (Nat.min 1 (String.length after)) after)
    with (String "$" (name +:+ String.substring 0 (Nat.min 1 (String.length after)) after)).
  now destruct after.
Qed.

Lemma replace_from_no_dollar (v new s : string) :
  Py.has_char "$" s = false -> Py.replace_from (String "$" v) new 0 s = s.
Proof.
  induction s as [|c s IH]; [reflexivity|].
  cbn [Py.has_char]. intros [Hc Hs]%orb_false_elim.
  cbn [Py.replace_from Py.startswith]. rewrite (Ascii.eqb_sym "$" c), Hc.
  now rewrite (IH Hs).
Qed.

Lemma replace_from_skip (old new x s : string) (k : nat) :
  Py.replace_from old new (String.length x + k) (x +:+ s)
  = Py.replace_from old new k s.
Proof.
  induction x as [|a x IH]; [reflexivity|].
  change (String a x +:+ s) with (String a (x +:+ s)). cbn. exact IH.
Qed.

Lemma replace_one_bare (before name after new : string) :
  Py.has_char "$" before = false -> Py.has_char "$" after = false ->
  Py.replace (before +:+ String "$" (name +:+ after)) (String "$" name) new
  = before +:+ new +:+ after.
Proof.
  intros Hb Ha. unfold Py.replace.
  induction before as [|c before IH].
  - rewrite !app_empty. cbn [Py.replace_from].
    change (String "$" (name +:+ after)) with (String "$" name +:+ after).
    rewrite startswith_app. f_equal.
    cbn [String.length Nat.sub].
    replace (String.length name - 0)%nat with (String.length name + 0)%nat by lia.
    rewrite replace_from_skip. now apply replace_from_no_dollar.
  - cbn [Py.has_char] in Hb. apply orb_false_elim in Hb as [Hc Hb].
    change (String c before +:+ String "$" (name +:+ after))
      with (String c (before +:+ String "$" (name +:+ after))).
    cbn [Py.replace_from Py.startswith]. rewrite (Ascii.eqb_sym "$" c), Hc.
    now rewrite (IH Hb).
Qed.

(** X23.  A text that holds one bare placeholder [$NAME], followed by
    nothing or by a character that is neither a name character nor an
    opening brace, comes back with the placeholder replaced by the mock
    value of [NAME] and everything else unchanged. *)
Theorem bare_placeholder_is_replaced (before name after : string) (g : Random) :
  Py.has_char "$" before = false -> Py.has_char "$" after = false ->
  is_name name -> ends_name after = true ->
  fst (mock_variables (before +:+ "$" +:+ name +:+ after) g)
  = before +:+ fst (find_mock name g) +:+ after.
Proof.
  intros Hb Ha Hname He.
  change (before +:+ "$" +:+ name +:+ after)
    with (before +:+ String "$" (name +:+ after)).
  rewrite mock_variables_fst. unfold _extract_variables.
  rewrite (findall_one_bare before name after Hb Ha Hname He).
  cbn [map].
  assert (Hvar : extract_one (before +:+ String "$" (name +:+ after)) (name, "")
                 = mkVar (String "$" name) name "").
  { unfold extract_one. cbn [fst snd]. destruct Hname as [Hne Hall].
    destruct name as [|a name]; [congruence|]. cbn [Py.nonempty].
    change ("$" +:+ String a name) with (String "$" (String a name)).
    rewrite (find_after_prefix before (String "$" (String a name +:+ after))
               (String "$" (String a name)) Hb).
    - rewrite window_of_bare.
      assert (Hw : Py.contains "{" (String "$" (String a name +:+ String.substring 0 1 after))
                   = false).
      { rewrite contains_char. cbn [Py.has_char]. rewrite has_char_app.
        rewrite (name_no_brace (String a name) Hall).
        destruct after as [|e rest]; [reflexivity|].
        cbn [ends_name] in He. apply andb_prop in He as [_ He].
        apply negb_true_iff in He.
        cbn [String.substring Py.has_char]. rewrite substring_zero, He. reflexivity. }
      rewrite Hw. reflexivity.
    - change (String "$" (String a name +:+ after))
        with (String "$" (String a name) +:+ after).
      apply startswith_app.
    - eauto. }
  rewrite Hvar. cbn [_find_mocks variable full_variable].
  destruct (find_mock name g) as [m g1]. cbn [fst _replace_variables fold_left].
  unfold _replace_variables. cbn [fold_left full_variable mock].
  now apply replace_one_bare.
Qed.

Lemma bare_placeholder_is_replaced_witness :
  fst (mock_variables ("user: " +:+ "$" +:+ "APP_USER" +:+ " # login")
         (mkRandom (fun _ => 0) 0))
  = "user: username # login".
Proof.
  apply (bare_placeholder_is_replaced "user: " "APP_USER" " # login"
           (mkRandom (fun _ => 0) 0)); try reflexivity.
  split; [discriminate | reflexivity].
Defined.

End BarePlaceholderFacts.

(* ===================================================================== *)
(** * Properties of the manifest findings and of whole-store linting *)
(* ===================================================================== *)

Section ManifestIdFacts.
Import Models GitHubValidator Linter CliTip.

Variable safe_load : string -> string + Py.value.
Variable repr_container : Py.value -> string.
Variable int_of_text : string -> option Z.
Variable UmbrelAppManifest : Py.value -> string + Manifest.
Variable urlparse : string -> option ParseResult.

Lemma schema_error_finding_id (error_message app : string) :
  id (schema_error_finding error_message app) = "schema_validation_error".
Proof.
  unfold schema_error_finding, generic_schema_error.
  destruct (Py.contains "validation error" (Py.lower error_message)); [|reflexivity].
  destruct (scan_error_lines _ _) as [[f|] [d|]]; try reflexivity.
  destruct (Py.nonempty f && Py.nonempty d); [|reflexivity].
  destruct (Py.contains "tagline" (Py.lower error_message)
            && Py.contains "period" (Py.lower error_message)); [reflexivity|].
  destruct (Py.contains "input should be a valid string" (Py.lower d)); [reflexivity|].
  destruct (Py.contains "field required" (Py.lower d)); reflexivity.
Qed.

Lemma validate_pull_request_within (net : Network) (url app : string) (self : Validator) :
  forallb (id_within manifest_ids) (fst (validate_pull_request urlparse net url app self))
  = true.
Proof.
  unfold validate_pull_request.
  destruct (_is_github_pr_url urlparse url); cbn [negb]; [|reflexivity].
  destruct (_pr_exists urlparse net url self) as [[|] self']; reflexivity.
Qed.

Lemma _validate_github_repo_url_within (net : Network) (url app : string)
    (self : Validator) :
  forallb (id_within manifest_ids)
    (fst (_validate_github_repo_url urlparse net url app self)) = true.
Proof.
  unfold _validate_github_repo_url.
  destruct (_is_github_repo_url urlparse url); cbn [negb]; [|reflexivity].
  destruct (_repo_exists net url self) as [[|] self']; reflexivity.
Qed.

Lemma validate_github_urls_within (net : Network) (data : Py.value) (app : string)
    (self self' : Validator) (errs : list LintingError) :
  validate_github_urls urlparse repr_container net data app self
  = (Py.Returned errs, self') ->
  forallb (id_within manifest_ids) errs = true.
Proof.
  unfold validate_github_urls.
  destruct (Py.get data "submission") as [submission|e]; [|discriminate].
  set (first := match submission with
                | Some u =>
                    if Py.truth u
                    then validate_pull_request urlparse net (Py.str repr_container u) app self
                    else ([], self)
                | None => ([], self)
                end).
  assert (H1 : forallb (id_within manifest_ids) (fst first) = true).
  { unfold first. destruct submission as [u|]; [|reflexivity].
    destruct (Py.truth u); [apply validate_pull_request_within | reflexivity]. }
  destruct first as [pr_errors self1]. cbn [fst] in H1.
  destruct (Py.get data "repo") as [repo|e]; [|discriminate].
  set (second := match repo with
                 | Some (Py.VStr u) =>
                     if Py.nonempty u && Py.nonempty (Py.strip u)
                     then _validate_github_repo_url urlparse net u app self1
                     else ([], self1)
                 | _ => ([], self1)
                 end).
  assert (H2 : forallb (id_within manifest_ids) (fst second) = true).
  { unfold second. destruct repo as [[| | |u| |]|]; try reflexivity.
    destruct (Py.nonempty u && Py.nonempty (Py.strip u));
      [apply _validate_github_repo_url_within | reflexivity]. }
  destruct second as [repo_errors self2]. cbn [fst] in H2.
  intros H. inversion H; subst. now rewrite forallb_app, H1, H2.
Qed.

Lemma new_submission_errors_within (context : LintingContext) (m : Manifest)
    (app : string) :
  forallb (id_within manifest_ids) (new_submission_errors context m app) = true.
Proof.
  unfold new_submission_errors. rewrite !forallb_app.
  destruct (pull_request_url context) as [pr|];
    [destruct (Py.nonempty pr && negb (String.eqb (submission m) pr))|];
    destruct (Py.truthy (releaseNotes m));
    destruct (Py.truthy (icon m) || match gallery m with [] => false | _ => true end);
    reflexivity.
Qed.

Lemma duplicate_port_errors_within (context : LintingContext) (manifest : option Manifest)
    (app : string) (errs : list LintingError) :
  duplicate_port_errors safe_load repr_container int_of_text context manifest app
  = Py.Returned errs ->
  forallb (id_within manifest_ids) errs = true.
Proof.
  unfold duplicate_port_errors.
  destruct (all_app_manifests context); [intros H; now inversion H|].
  destruct (manifest_port manifest) as [p|e]; [|discriminate]. cbn [Py.bind].
  destruct (_ !! p); intros H; inversion H; reflexivity.
Qed.

Lemma id_within_fixable (err : LintingError) :
  id_within manifest_ids err = true -> id_within fixable_ids err = false.
Proof.
  unfold id_within, manifest_ids, fixable_ids. cbn [existsb].
  rewrite !orb_false_r. intros H.
  repeat (apply orb_prop in H as [H|H];
          [apply String.eqb_eq in H; rewrite H; reflexivity|]).
  apply String.eqb_eq in H. rewrite H. reflexivity.
Qed.

(** X24.  Every finding of [_validate_app_manifest] carries one of nine
    identifiers, none of which is among the identifiers the [lint] command
    takes for fixable; in particular a rejected tagline is reported as
    [schema_validation_error] and never as [invalid_tagline], so the
    findings of the manifest never make the command print its tip about
    [--fix]. *)
Theorem manifest_findings_are_never_fixable (net : Network) (file : FileState)
    (app : string) (context : LintingContext) (github github' : Validator)
    (errs : list LintingError) :
  _validate_app_manifest safe_load repr_container int_of_text UmbrelAppManifest
    urlparse net file app context github = (Py.Returned errs, github') ->
  forallb (id_within manifest_ids) errs = true
  /\ tip_shown errs = false
  /\ (forall error_message,
        id (schema_error_finding error_message app) = "schema_validation_error").
Proof.
  intros H.
  assert (Hin : forallb (id_within manifest_ids) errs = true).
  { unfold _validate_app_manifest in H.
    destruct file as [|[e|content]]; try (inversion H; reflexivity).
    unfold parse_yaml_with_error_handling in H.
    destruct (safe_load content) as [e|data]; [inversion H; reflexivity|].
    destruct (validate_github_urls urlparse repr_container net data app github)
      as [[github_errors|e] g1] eqn:Hg; [|discriminate].
    apply validate_github_urls_within in Hg.
    destruct (UmbrelAppManifest data) as [error_message|m]; cbv beta iota zeta in H.
    - destruct (duplicate_port_errors _ _ _ context None app) as [port_errors|e] eqn:Hp;
        [|discriminate].
      apply duplicate_port_errors_within in Hp.
      cbn [Py.bind] in H. inversion H; subst.
      rewrite forallb_app, Hg. cbn [forallb andb]. rewrite Hp.
      unfold id_within. now rewrite schema_error_finding_id.
    - destruct (duplicate_port_errors _ _ _ context (Some m) app) as [port_errors|e] eqn:Hp;
        [|discriminate].
      apply duplicate_port_errors_within in Hp.
      cbn [Py.bind] in H. inversion H; subst.
      rewrite forallb_app, Hg. cbn [List.app andb].
      destruct (is_new_submission context); [|exact Hp].
      now rewrite forallb_app, new_submission_errors_within, Hp. }
  split; [exact Hin|]. split; [|intros m; apply schema_error_finding_id].
  unfold tip_shown. clear H. induction errs as [|e errs IH]; [reflexivity|].
  cbn [forallb] in Hin. apply andb_prop in Hin as [He Hrest].
  cbn [existsb]. fold (id_within fixable_ids e).
  now rewrite (id_within_fixable e He), (IH Hrest).
Qed.

End ManifestIdFacts.

Section WholeStoreFacts.
Import Models GitHubValidator Linter CliTip StoreExamples.

Lemma manifest_findings_are_never_fixable_witness :
  exists errs,
    fst (_validate_app_manifest sample_safe_load (fun _ => "") (fun _ => None)
           sample_schema sample_urlparse (fun _ => RequestFailed)
           (Present (Readable "id: my-app")) "my-app" default_context new_validator)
    = Py.Returned errs
    /\ errs <> [] /\ tip_shown errs = false.
Proof.
  destruct (_validate_app_manifest sample_safe_load (fun _ => "") (fun _ => None)
              sample_schema sample_urlparse (fun _ => RequestFailed)
              (Present (Readable "id: my-app")) "my-app" default_context new_validator)
    as [[errs|e] github'] eqn:E.
  - exists errs. split; [reflexivity|]. split.
    + vm_compute in E. inversion E. discriminate.
    + apply (manifest_findings_are_never_fixable sample_safe_load (fun _ => "")
               (fun _ => None) sample_schema sample_urlparse (fun _ => RequestFailed)
               (Present (Readable "id: my-app")) "my-app" default_context
               new_validator github' errs E).
  - vm_compute in E. discriminate.
Defined.

Variable safe_load : string -> string + Py.value.
Variable repr_container : Py.value -> string.
Variable int_of_text : string -> option Z.
Variable UmbrelAppManifest : Py.value -> string + Manifest.
Variable UmbrelAppStoreManifest : Py.value -> option string.
Variable urlparse : string -> option ParseResult.

(** The loop over the applications: one report per application, merged
    in order. *)
Lemma lint_each_spec (net : Network) (apps : list AppDir) (context : LintingContext)
    (result r : LintingResult) (github github' : Validator) :
  lint_each safe_load repr_container int_of_text UmbrelAppManifest urlparse
    net apps context result github = (Py.Returned r, github') ->
  exists reports,
    Forall2 (fun app report =>
               exists g1 g2,
                 lint_app safe_load repr_container int_of_text UmbrelAppManifest
                   urlparse net app context g1 = (Py.Returned report, g2))
      apps reports
    /\ errors r = errors result ++ concat (map errors reports)
    /\ success r = success result && forallb success reports.
Proof.
  revert result github. induction apps as [|a rest IH]; intros result github H.
  - cbn in H. inversion H; subst. exists []. split; [constructor|].
    cbn. now rewrite app_nil_r, andb_true_r.
  - cbn [lint_each] in H.
    destruct (lint_app safe_load repr_container int_of_text UmbrelAppManifest urlparse
                net a context github) as [[report|e] g1] eqn:Ha; [|discriminate].
    apply IH in H as (reports & Hall & Herr & Hsucc).
    exists (report :: reports). split; [|split].
    + constructor; [eauto | exact Hall].
    + rewrite Herr. cbn [merge errors map concat]. now rewrite app_assoc.
    + rewrite Hsucc. cbn [merge success forallb]. now rewrite andb_assoc.
Qed.

(** X25.  For a directory that is not itself an application, the report
    of [lint_all_apps] is the report of the store followed by the reports
    of the applications in directory order: the findings are concatenated
    and the flags conjoined.  The applications linted are the entries that
    are directories, do not start with a dot and hold [umbrel-app.yml]. *)
Theorem whole_store_report_is_the_sum (net : Network) (store : StoreDir)
    (context : LintingContext) (r : LintingResult) (github github' : Validator) :
  root_has_manifest store = false ->
  lint_all_apps safe_load repr_container int_of_text UmbrelAppManifest
    UmbrelAppStoreManifest urlparse net store context github
  = (Py.Returned r, github') ->
  (exists reports,
     Forall2 (fun app report =>
                exists g1 g2,
                  lint_app safe_load repr_container int_of_text UmbrelAppManifest
                    urlparse net app context g1 = (Py.Returned report, g2))
       (app_directories store) reports
     /\ errors r
        = errors (lint_app_store safe_load UmbrelAppStoreManifest store context)
            ++ concat (map errors reports)
     /\ success r
        = success (lint_app_store safe_load UmbrelAppStoreManifest store context)
          && forallb success reports)
  /\ (forall a,
        In a (app_directories store)
        <-> exists item,
              In item (entries store) /\ entry_app item = a
              /\ entry_is_dir item = true
              /\ Py.startswith (dir_name a) "." = false
              /\ entry_has_manifest item = true).
Proof.
  intros Hroot H. unfold lint_all_apps in H. rewrite Hroot in H.
  apply lint_each_spec in H as (reports & Hall & Herr & Hsucc). split.
  - exists reports. split; [exact Hall|]. split; [exact Herr | exact Hsucc].
  - intros a. unfold app_directories. rewrite in_map_iff. split.
    + intros (item & <- & Hin).
      apply list_elem_of_In, list_elem_of_filter in Hin as [Hkeep Hin].
      apply list_elem_of_In in Hin.
      apply andb_prop in Hkeep as [Hkeep Hm]. apply andb_prop in Hkeep as [Hd Hh].
      apply negb_true_iff in Hh. exists item. auto.
    + intros (item & Hin & <- & Hd & Hh & Hm). exists item. split; [reflexivity|].
      apply list_elem_of_In, list_elem_of_filter. split.
      * now rewrite Hd, Hh, Hm.
      * now apply list_elem_of_In.
Qed.

(** X26.  When several manifest texts of the store declare the same port,
    [_get_used_ports] keeps the application named by the last of them: the
    entry for a port is the name and id of the last manifest text that
    declares it. *)
Theorem used_port_names_the_last_manifest (before after : list string)
    (content current_app_id : string) (d : list (string * Py.value))
    (app_id name port : Py.value) (p : Z) :
  safe_load content = inr (Py.VDict d) ->
  Py.dict_get d "id" = Some app_id -> Py.dict_get d "name" = Some name ->
  Py.dict_get d "port" = Some port ->
  Py.truth app_id = true -> Py.truth name = true -> Py.truth port = true ->
  differs app_id current_app_id = true ->
  int_of_value int_of_text port = Some p ->
  (forall other,
     In other after ->
     ~ PortCollisions.declares_port safe_load int_of_text current_app_id other p) ->
  _get_used_ports safe_load repr_container int_of_text
    (before ++ content :: after) current_app_id !! p
  = Some (Py.str repr_container name +:+ " (" +:+ Py.str repr_container app_id +:+ ")").
Proof.
  intros Hload Hid Hname Hport T1 T2 T3 Hdiff Hint Hafter.
  unfold _get_used_ports. rewrite fold_left_app. cbn [fold_left].
  set (m0 := fold_left (used_ports_step safe_load repr_container int_of_text
                          current_app_id) before ∅).
  assert (Hstep : used_ports_step safe_load repr_container int_of_text
                    current_app_id m0 content !! p
                  = Some (Py.str repr_container name +:+ " ("
                            +:+ Py.str repr_container app_id +:+ ")")).
  { unfold used_ports_step, parse_yaml_with_error_handling. rewrite Hload.
    assert (Hd : Py.truth (Py.VDict d) = true).
    { destruct d; [discriminate | reflexivity]. }
    rewrite Hd, Hid, Hname, Hport, T1, T2, T3, Hdiff, Hint. cbn [andb].
    apply lookup_insert_eq. }
  revert Hstep. generalize (used_ports_step safe_load repr_container int_of_text
                              current_app_id m0 content).
  clear m0. induction after as [|c rest IH]; intros m Hm; [exact Hm|].
  cbn [fold_left]. apply IH.
  - intros other Hin. apply Hafter. now right.
  - assert (Hnot : ~ PortCollisions.declares_port safe_load int_of_text
                       current_app_id c p) by (apply Hafter; now left).
    unfold used_ports_step, parse_yaml_with_error_handling.
    destruct (safe_load c) as [e|[| | | | |dc]] eqn:Hc; try exact Hm.
    destruct (Py.truth (Py.VDict dc)); [|exact Hm].
    destruct (Py.dict_get dc "id") as [i|] eqn:Hi; [|exact Hm].
    destruct (Py.dict_get dc "name") as [n|] eqn:Hn; [|exact Hm].
    destruct (Py.dict_get dc "port") as [q|] eqn:Hq; [|exact Hm].
    destruct (Py.truth i) eqn:Ti; cbn [andb]; [|exact Hm].
    destruct (Py.truth n) eqn:Tn; cbn [andb]; [|exact Hm].
    destruct (Py.truth q) eqn:Tq; cbn [andb]; [|exact Hm].
    destruct (differs i current_app_id) eqn:Hdi; [|exact Hm].
    destruct (int_of_value int_of_text q) as [pq|] eqn:Hpq; [|exact Hm].
    destruct (decide (pq = p)) as [->|Hne].
    + exfalso. apply Hnot. exists dc, i, n, q. auto 10.
    + now rewrite lookup_insert_ne.
Qed.

End WholeStoreFacts.

Section WholeStoreExamples.
Import Models GitHubValidator Linter PortCollisions CliTip StoreExamples.

Lemma whole_store_report_is_the_sum_witness :
  match fst (lint_all_apps sample_safe_load (fun _ => "") (fun _ => None) sample_schema
               (fun _ => None) sample_urlparse (fun _ => RequestFailed)
               small_store default_context new_validator) with
  | Py.Returned r =>
      exists reports,
        errors r
        = errors (lint_app_store sample_safe_load (fun _ => None) small_store
                    default_context)
            ++ concat (map errors reports)
        /\ length reports = 1%nat
  | Py.Raised _ => False
  end.
Proof.
  destruct (lint_all_apps sample_safe_load (fun _ => "") (fun _ => None) sample_schema
              (fun _ => None) sample_urlparse (fun _ => RequestFailed)
              small_store default_context new_validator) as [[r|e] github'] eqn:E;
    cbn [fst].
  - destruct (whole_store_report_is_the_sum sample_safe_load (fun _ => "")
                (fun _ => None) sample_schema (fun _ => None) sample_urlparse
                (fun _ => RequestFailed) small_store default_context r new_validator
                github' eq_refl E) as [(reports & Hall & Herr & _) _].
    exists reports. split; [exact Herr|].
    apply Forall2_length in Hall. rewrite <- Hall. reflexivity.
  - vm_compute in E. discriminate.
Defined.

Lemma used_port_names_the_last_manifest_witness :
  _get_used_ports two_apps_load (fun _ => "") (fun _ => None)
    ["id: my-app, name: Mine, port: 3000"; "id: other-app, name: Other, port: 3000"]
    "third-app" !! 3000
  = Some "Other (other-app)".
Proof.
  apply (used_port_names_the_last_manifest two_apps_load (fun _ => "") (fun _ => None)
           ["id: my-app, name: Mine, port: 3000"] []
           "id: other-app, name: Other, port: 3000" "third-app"
           [("id", Py.VStr "other-app"); ("name", Py.VStr "Other"); ("port", Py.VInt 3000)]
           (Py.VStr "other-app") (Py.VStr "Other") (Py.VInt 3000) 3000);
    try reflexivity.
  intros other [].
Defined.

End WholeStoreExamples.

(* ===================================================================== *)
(** * Properties of the compose document and of the challenge parser *)
(* ===================================================================== *)

Section ComposeDocumentFacts.
Import Models VariableMocker DockerImageValidator Compose ComposeDocument.

Lemma lint_app_compose_raises (safe_load : string -> string + Py.value)
    (repr_container : Py.value -> string) (int_of_text : string -> option Z)
    (UmbrelAppManifest : Py.value -> string + Linter.Manifest)
    (urlparse : string -> option GitHubValidator.ParseResult)
    (github_net : GitHubValidator.Network) (a : Linter.AppDir)
    (context : Linter.LintingContext) (github : GitHubValidator.Validator) (e : Py.exn) :
  Linter.dir_exists a = true ->
  Linter.compose_outcome a = Py.Raised e ->
  Py.returns (fst (Linter.lint_app safe_load repr_container int_of_text
                     UmbrelAppManifest urlparse github_net a context github)) = false.
Proof.
  intros Hdir Hcompose. unfold Linter.lint_app. rewrite Hdir, Hcompose. cbn [negb].
  now destruct (Linter._validate_app_manifest _ _ _ _ _ _ _ _ _ _) as [[errs|e'] g1].
Qed.

(** X27.  A [docker-compose.yml] that is valid YAML but does not load to a
    mapping (an empty file, a list, a scalar) makes
    [_validate_docker_compose] raise [AttributeError] at
    [data.get("services", {})]: the findings gathered so far are lost and
    no registry is contacted; and [lint_app] returns no report for an
    application whose compose validation ends so. *)
Theorem compose_document_must_be_a_mapping
    (safe_load : string -> string + Py.value)
    (repr_container : Py.value -> string) (from_string_error : Py.value -> string)
    (_validate_schema : Py.value -> string -> list LintingError)
    (_validate_volume_mounts :
       Py.value -> string -> list Structure.FileEntry -> Py.result (list LintingError))
    (_validate_security_settings _validate_port_mappings
       _validate_app_proxy_configuration :
       Py.value -> string -> Py.result (list LintingError))
    (net : Registries) (content app_id : string) (files : list Structure.FileEntry)
    (check_image_architectures : bool) (g : Random) (client : Client)
    (data mocked_data : Py.value) :
  safe_load content = inr data ->
  safe_load (fst (mock_variables content g)) = inr mocked_data ->
  (forall d, data <> Py.VDict d) ->
  _validate_docker_compose safe_load repr_container from_string_error _validate_schema
    _validate_volume_mounts _validate_security_settings _validate_port_mappings
    _validate_app_proxy_configuration net (Linter.Present (Linter.Readable content))
    app_id files check_image_architectures g client
  = (Py.Raised (Py.AttributeError
                  ("'" +:+ Py.type_name data +:+ "' object has no attribute 'get'")),
     snd (mock_variables content g), client)
  /\ forall int_of_text UmbrelAppManifest urlparse github_net a context github,
       Linter.dir_exists a = true ->
       Linter.compose_outcome a
       = Py.Raised (Py.AttributeError
                      ("'" +:+ Py.type_name data +:+ "' object has no attribute 'get'")) ->
       Py.returns (fst (Linter.lint_app safe_load repr_container int_of_text
                          UmbrelAppManifest urlparse github_net a context github))
       = false.
Proof.
  intros Hload Hmocked Hdata.
  split; [|intros; now apply lint_app_compose_raises with (e := Py.AttributeError
                  ("'" +:+ Py.type_name data +:+ "' object has no attribute 'get'"))].
  unfold _validate_docker_compose, validate_docker_compose.
  destruct (mock_variables content g) as [mocked_content g'] eqn:Hmock.
  cbn [fst snd] in *.
  unfold Linter.parse_yaml_with_error_handling. rewrite Hload, Hmocked.
  destruct data as [| | | | |d]; try reflexivity.
  exfalso. now apply (Hdata d).
Qed.

Lemma compose_document_must_be_a_mapping_witness :
  _validate_docker_compose Linter.sample_safe_load (fun _ => "") (fun _ => "")
    (fun _ _ => []) (fun _ _ _ => Py.Returned []) (fun _ _ => Py.Returned [])
    (fun _ _ => Py.Returned []) (fun _ _ => Py.Returned [])
    amd64_only (Linter.Present (Linter.Readable "")) "my-app" [] true
    (mkRandom (fun _ => 0) 0) new_client
  = (Py.Raised (Py.AttributeError "'NoneType' object has no attribute 'get'"),
     mkRandom (fun _ => 0) 0, new_client).
Proof.
  apply (proj1 (compose_document_must_be_a_mapping Linter.sample_safe_load (fun _ => "")
           (fun _ => "") (fun _ _ => []) (fun _ _ _ => Py.Returned [])
           (fun _ _ => Py.Returned []) (fun _ _ => Py.Returned [])
           (fun _ _ => Py.Returned []) amd64_only "" "my-app" [] true
           (mkRandom (fun _ => 0) 0) new_client Py.VNone Py.VNone
           eq_refl eq_refl ltac:(discriminate))).
Defined.

End ComposeDocumentFacts.

Section WwwAuthenticateFacts.
Import WwwAuthenticate.

Lemma split1_first (c : ascii) (a b : string) :
  Py.has_char c a = false -> split1 c (a +:+ String c b) = Some (a, b).
Proof.
  induction a as [|x a IH]; intros H.
  - rewrite app_empty. cbn [split1]. now rewrite Ascii.eqb_refl.
  - cbn [Py.has_char] in H. apply orb_false_elim in H as [Hx Ha].
    rewrite app_cons. cbn [split1]. now rewrite Hx, (IH Ha).
Qed.

Lemma lstrip_head (c : ascii) (s : string) :
  Py.is_space c = false -> Py.lstrip (String c s) = String c s.
Proof. intros H. cbn [Py.lstrip]. now rewrite H. Qed.

Lemma rstrip_last (s : string) (c : ascii) :
  Py.is_space c = false -> Py.rstrip (s +:+ String c "") = s +:+ String c "".
Proof.
  intros H. induction s as [|a s IH].
  - rewrite app_empty. cbn [Py.rstrip]. now rewrite H.
  - rewrite app_cons. cbn [Py.rstrip]. rewrite IH.
    now destruct (s +:+ String c "") eqn:E; [destruct s; discriminate|].
Qed.

Lemma rstrip_char_no_char (c : ascii) (s : string) :
  Py.has_char c s = false -> rstrip_char c s = s.
Proof.
  induction s as [|a s IH]; [reflexivity|].
  cbn [Py.has_char]. intros [Ha Hs]%orb_false_elim.
  cbn [rstrip_char]. rewrite (IH Hs), Ha. now destruct s.
Qed.

Lemma rstrip_char_last (c : ascii) (s : string) :
  Py.has_char c s = false -> rstrip_char c (s +:+ String c "") = s.
Proof.
  induction s as [|a s IH]; intros H.
  - rewrite app_empty. cbn [rstrip_char]. now rewrite Ascii.eqb_refl.
  - cbn [Py.has_char] in H. apply orb_false_elim in H as [Ha Hs].
    rewrite app_cons. cbn [rstrip_char]. rewrite (IH Hs), Ha. now destruct s.
Qed.

(** A quoted value comes back without its quotes. *)
Lemma strip_quoted (v : string) :
  Py.has_char "034" v = false ->
  strip_char "034" (Py.strip (String "034" (v +:+ String "034" ""))) = v.
Proof.
  intros Hv. unfold Py.strip. rewrite lstrip_head by reflexivity.
  change (String "034" (v +:+ String "034" ""))
    with (String "034" v +:+ String "034" "").
  rewrite rstrip_last by reflexivity.
  unfold strip_char. rewrite app_cons. cbn [lstrip_char].
  rewrite Ascii.eqb_refl.
  assert (Hl : lstrip_char "034" (v +:+ String "034" "") = v +:+ String "034" ""
               \/ v = "").
  { destruct v as [|a v]; [now right|]. left.
    cbn [Py.has_char] in Hv. apply orb_false_elim in Hv as [Ha _].
    rewrite app_cons. cbn [lstrip_char]. now rewrite Ha. }
  destruct Hl as [-> | ->]; [now apply rstrip_char_last | reflexivity].
Qed.

Lemma parse_item_parameter (params : gmap string string) (parameter : string * string) :
  plain_parameter parameter ->
  parse_item params (parameter_text parameter)
  = <[fst parameter := snd parameter]> params.
Proof.
  intros (_ & Heq & Hstrip & _ & Hq). unfold parse_item, parameter_text.
  rewrite (split1_first "=" _ _ Heq), Hstrip, (strip_quoted _ Hq). reflexivity.
Qed.

Lemma parameter_text_no_comma (parameter : string * string) :
  plain_parameter parameter -> Py.has_char "," (parameter_text parameter) = false.
Proof.
  intros (Hk & _ & _ & Hv & _). unfold parameter_text.
  rewrite has_char_app, Hk. cbn [Py.has_char orb].
  rewrite has_char_app, Hv. reflexivity.
Qed.

(** X28.  A challenge [SCHEME key="value",key="value",...] whose keys and
    values are plain is parsed into exactly its parameters: the result maps
    each key to its value without the quotes, a later parameter replacing
    an earlier one of the same key. *)
Theorem www_authenticate_parameters (scheme : string)
    (parameters : list (string * string)) :
  Py.has_char " " scheme = false ->
  parameters <> [] ->
  Forall plain_parameter parameters ->
  _parse_www_authenticate
    (scheme +:+ String " " (Py.join "," (map parameter_text parameters)))
  = fold_left (fun params parameter => <[fst parameter := snd parameter]> params)
      parameters ∅.
Proof.
  intros Hscheme Hne Hall. unfold _parse_www_authenticate.
  assert (Hnonempty : Py.nonempty
            (scheme +:+ String " " (Py.join "," (map parameter_text parameters))) = true).
  { now destruct scheme. }
  rewrite Hnonempty. cbn [negb]. rewrite (split1_first " " _ _ Hscheme).
  rewrite split_join.
  - clear Hne Hnonempty. generalize (∅ : gmap string string).
    induction Hall as [|parameter rest Hp Hrest IH]; intros params; [reflexivity|].
    cbn [map fold_left]. rewrite (parse_item_parameter _ _ Hp). apply IH.
  - destruct parameters; [congruence | discriminate].
  - apply Forall_map. eapply List.Forall_impl; [|exact Hall].
    intros parameter Hp. now apply parameter_text_no_comma.
Qed.

Lemma www_authenticate_parameters_witness :
  _parse_www_authenticate
    ("Bearer" +:+ String " "
       (Py.join ","
          (map parameter_text
             [("realm", "https://ghcr.io/token"); ("service", "ghcr.io");
              ("scope", "repository:owner/app:pull")])))
  !! "realm" = Some "https://ghcr.io/token".
Proof.
  rewrite (www_authenticate_parameters "Bearer"
             [("realm", "https://ghcr.io/token"); ("service", "ghcr.io");
              ("scope", "repository:owner/app:pull")]).
  - vm_compute. reflexivity.
  - reflexivity.
  - discriminate.
  - repeat constructor.
Defined.

End WwwAuthenticateFacts.

Section DisplayFacts.
Import Models GitHubValidator Linter Cli CliExamples.

Variable safe_load : string -> string + Py.value.
Variable repr_container : Py.value -> string.
Variable int_of_text : string -> option Z.
Variable UmbrelAppManifest : Py.value -> string + Manifest.
Variable UmbrelAppStoreManifest : Py.value -> option string.
Variable urlparse : string -> option ParseResult.

Lemma shown_at_levels (e : LintingError) :
  shown_at INFO e = true
  /\ (shown_at ERROR e = true -> shown_at WARNING e = true)
  /\ (severity e = ERROR -> forall log_level, shown_at log_level e = true)
  /\ (shown_at ERROR e = true <-> severity e = ERROR)
  /\ (shown_at WARNING e = true <-> severity e <> INFO).
Proof.
  unfold shown_at. destruct (severity e); cbn; repeat split; try congruence;
    try discriminate; intros; try reflexivity;
    match goal with
    | l : Severity |- _ => destruct l; reflexivity
    | _ => idtac
    end.
Qed.

(** X29.  For every report the linter returns that holds an [ERROR]
    finding, the [lint] command exits with status [1], and the plain
    display prints, in report order, the block of every finding that passes
    the log level: every finding at level [info], no [INFO] finding at
    level [warning], the [ERROR] findings only at level [error]; the block
    of an [ERROR] finding is printed at every level. *)
Theorem plain_output_shows_every_error (net : Network) (a : AppDir) (store : StoreDir)
    (context : LintingContext) (r : LintingResult) (github github' : Validator) :
  lint_app safe_load repr_container int_of_text UmbrelAppManifest urlparse
    net a context github = (Py.Returned r, github')
  \/ lint_all_apps safe_load repr_container int_of_text UmbrelAppManifest
       UmbrelAppStoreManifest urlparse net store context github
     = (Py.Returned r, github') ->
  has_errors r = true ->
  (forall strict, exit_code strict r = 1)
  /\ _display_plain_output r INFO = flat_map plain_block (errors r)
  /\ _display_plain_output r WARNING
     = flat_map plain_block
         (List.filter (fun e => negb (Severity_eqb (severity e) INFO)) (errors r))
  /\ _display_plain_output r ERROR
     = flat_map plain_block
         (List.filter (fun e => Severity_eqb (severity e) ERROR) (errors r))
  /\ (forall log_level e,
        In e (errors r) -> severity e = ERROR ->
        incl (plain_block e) (_display_plain_output r log_level)).
Proof.
  intros Hr Herr.
  assert (Hflag : flag_consistent r).
  { destruct Hr as [Hr|Hr].
    - now apply (lint_app_consistent _ _ _ _ _ _ _ _ _ _ _ Hr).
    - now apply (lint_all_apps_flag_consistent _ _ _ _ _ _ _ _ _ _ _ _ Hr). }
  unfold flag_consistent in Hflag. unfold has_errors in Herr. rewrite Herr in Hflag.
  cbn [negb] in Hflag.
  assert (Hout : forall log_level,
            _display_plain_output r log_level
            = flat_map plain_block (List.filter (shown_at log_level) (errors r))).
  { intros log_level. unfold _display_plain_output. now rewrite Hflag. }
  split; [|split; [|split; [|split]]].
  - intros strict. unfold exit_code, has_errors. now rewrite Herr.
  - rewrite Hout. f_equal. clear. induction (errors r) as [|e l IH]; [reflexivity|].
    cbn [List.filter]. rewrite (proj1 (shown_at_levels e)). f_equal. exact IH.
  - rewrite Hout. f_equal. apply List.filter_ext.
    intros e. unfold shown_at. now destruct (severity e).
  - rewrite Hout. f_equal. apply List.filter_ext.
    intros e. unfold shown_at. now destruct (severity e).
  - intros log_level e Hin Hsev x Hx. rewrite Hout. apply in_flat_map.
    exists e. split; [|exact Hx]. apply List.filter_In. split; [exact Hin|].
    now apply shown_at_levels.
Qed.

(** X30.  The report of [lint_app_store] is successful exactly when the
    store manifest is in order: absent from a store that is not a
    community store, or readable, valid YAML and accepted by the schema.
    A missing [README.md] adds one [WARNING] and has no part in the
    verdict; it is the only source of warnings, and the report holds two
    findings at most. *)
Theorem store_verdict (store : StoreDir) (context : LintingContext) :
  let r := lint_app_store safe_load UmbrelAppStoreManifest store context in
  (success r = true
   <-> match store_manifest_file store with
       | Missing => app_store_type context <> COMMUNITY
       | Present (Unreadable _) => False
       | Present (Readable content) =>
           exists data,
             safe_load content = inr data /\ UmbrelAppStoreManifest data = None
       end)
  /\ has_warnings r = negb (readme_exists store)
  /\ (length (errors r) <= 2)%nat.
Proof.
  cbn zeta. unfold lint_app_store, _validate_app_store_manifest,
    parse_yaml_with_error_handling.
  destruct (store_manifest_file store) as [|[e|content]].
  - destruct (app_store_type context); destruct (readme_exists store); cbn;
      repeat split; try congruence; try lia; try discriminate;
      intros H; try (exfalso; now apply H).
  - destruct (readme_exists store); cbn; repeat split; try lia; try discriminate;
      try tauto.
  - destruct (safe_load content) as [e|data].
    + destruct (readme_exists store); cbn; repeat split; try lia; try discriminate;
        intros (data & H & _); discriminate.
    + destruct (UmbrelAppStoreManifest data) as [e|] eqn:Hschema;
        destruct (readme_exists store); cbn; repeat split; try lia;
        try discriminate; try (intros (d & H & H'); inversion H; subst; congruence);
        try (intros _; exists data; split; [reflexivity | exact Hschema]).
Qed.

End DisplayFacts.

Section DisplayExamples.
Import Models GitHubValidator Linter Cli.

Lemma plain_output_shows_every_error_witness :
  match fst (lint_app sample_safe_load (fun _ => "") (fun _ => None) sample_schema
               sample_urlparse (fun _ => RequestFailed) sample_app default_context
               new_validator) with
  | Py.Returned r =>
      exit_code false r = 1
      /\ _display_plain_output r INFO = flat_map plain_block (errors r)
      /\ errors r <> []
  | Py.Raised _ => False
  end.
Proof.
  destruct (lint_app sample_safe_load (fun _ => "") (fun _ => None) sample_schema
              sample_urlparse (fun _ => RequestFailed) sample_app default_context
              new_validator) as [[r|e] github'] eqn:E; cbn [fst].
  - assert (Hr : has_errors r = true /\ errors r <> []).
    { vm_compute in E. inversion E. split; [reflexivity | discriminate]. }
    destruct Hr as [Herr Hne].
    destruct (plain_output_shows_every_error sample_safe_load (fun _ => "")
                (fun _ => None) sample_schema (fun _ => None) sample_urlparse
                (fun _ => RequestFailed) sample_app bare_store default_context r
                new_validator github' (or_introl E) Herr) as (Hexit & Hinfo & _).
    split; [apply Hexit|]. split; [exact Hinfo | exact Hne].
  - vm_compute in E. discriminate.
Defined.

End DisplayExamples.
